(** * Dutch-Trails-QR: roster resolution and attendance metrics

    A shallow embedding of the attendance-metrics code of the repository:

    - [src/utils/lateCalculation.ts]       ([LateCalculation]),
    - [src/utils/lateDurationUtils.ts]     ([LateDurationUtils]),
    - the roster utilities, [src/unnamed/part_010]  ([RosterUtils]),
    - [src/services/AttendanceDataRecreationService.ts]
                                           ([AttendanceDataRecreationService]),
    - [src/components/PresentEmployeeReport.tsx] ([PresentEmployeeReport]),
    - [src/services/RosterRecreationService.ts]
                                           ([RosterRecreationService]),
    - the roster start editor, [src/unnamed/part_007] ([RosterStartEditor]),
    - the [attendance_display] SQL view, [src/unnamed/part_001]
                                           ([AttendanceDisplay]),
    - the record store, as far as the queries use it ([Supabase]),

    followed by the properties of the specification that were checked
    against it, and by further properties of the same sources: round
    trips, agreement between the calculators, bounds and accounting.

    Conventions of the embedding.

    - An instant is the time value of a JavaScript [Date]: integer
      milliseconds since the epoch ([Z]).  The [timestamptz] columns of an
      attendance row ([first_check_in_time] ...) reach the code as ISO-8601
      strings written by the store; the model holds the instant such a
      string denotes, and [None] for [null].
    - A calendar date ("YYYY-MM-DD") is the number of days since
      1970-01-01 ([Z]); [Civil.ymd] builds one from year, month and day.
    - A JavaScript number that is known to be an integer, or [NaN], is a
      [Js.number].  Fractional minutes ([ms / 60000]) are exact rationals
      ([Q]): rounding of IEEE doubles is not modelled, except in the two
      sums of the aggregator, which add stored fractions one after the
      other and are computed on binary64 numbers ([float]).
    - The local time zone is a constant offset [tz] (milliseconds east of
      UTC); daylight-saving transitions are not modelled, except in
      [optimizeShiftPattern], which steps through local days and reads
      UTC dates: it takes a [Zone.t].
    - [new Date()] reads the wall clock: code that calls it lives in the
      state monad over [Clock]. *)

From Stdlib Require Import ZArith QArith Qminmax List String Ascii Bool Lia.
From Stdlib Require Import Permutation Sorted DecimalString Qround.
From Stdlib Require DecimalPos Uint63.
From Stdlib Require Import PrimFloat.
From ExtLib Require Import Structures.Monad Structures.MonadState.
From ExtLib Require Import Data.Monads.StateMonad.
Import ListNotations.
Import MonadNotation.

Local Open Scope monad_scope.
Local Open Scope Z_scope.

(* ===================================================================== *)
(** * JavaScript values used by the calculators *)
(* ===================================================================== *)

Module Js.

(** An integer-valued JavaScript number, or [NaN] (the time value of an
    [Invalid Date], the result of [Number("abc")], ...). *)
Inductive number : Type :=
| Num (z : Z)
| NaN.

Definition is_NaN (n : number) : bool :=
  match n with NaN => true | Num _ => false end.

(** [a - b] *)
Definition sub (a b : number) : number :=
  match a, b with
  | Num x, Num y => Num (x - y)
  | _, _ => NaN
  end.

(** [a > b]: every comparison with [NaN] is [false]. *)
Definition gt (a b : number) : bool :=
  match a, b with
  | Num x, Num y => y <? x
  | _, _ => false
  end.

(** [a <= b] *)
Definition le (a b : number) : bool :=
  match a, b with
  | Num x, Num y => x <=? y
  | _, _ => false
  end.

(** [Math.floor(a / k)] for a positive integer constant [k]. *)
Definition floor_div (a : number) (k : Z) : number :=
  match a with
  | Num x => Num (x / k)
  | NaN => NaN
  end.

(** [a % k] for a positive integer constant [k]: the sign follows the
    dividend. *)
Definition rem (a : number) (k : Z) : number :=
  match a with
  | Num x => Num (Z.rem x k)
  | NaN => NaN
  end.

(** [Math.max(a, b)]: [NaN] if either argument is. *)
Definition Math_max (a b : number) : number :=
  match a, b with
  | Num x, Num y => Num (Z.max x y)
  | _, _ => NaN
  end.

(** [String(n)] / template-literal interpolation of a number. *)
Definition toString (n : number) : string :=
  match n with
  | Num z => NilZero.string_of_int (Z.to_int z)
  | NaN => "NaN"%string
  end.

(** [s.padStart(2, '0')] *)
Definition padStart2 (s : string) : string :=
  match String.length s with
  | O => "00"%string
  | S O => String "0"%char s
  | _ => s
  end.

(** [s.split(sep)] for a one-character separator. *)
Fixpoint split (sep : ascii) (s : string) : list string :=
  match s with
  | EmptyString => [EmptyString]
  | String c rest =>
      let r := split sep rest in
      if Ascii.eqb c sep then EmptyString :: r
      else match r with
           | hd :: tl => String c hd :: tl
           | [] => [String c EmptyString]
           end
  end.

Definition digit (c : ascii) : option Z :=
  let n := Z.of_nat (nat_of_ascii c) in
  if (48 <=? n) && (n <=? 57) then Some (n - 48) else None.

Fixpoint digits_value (acc : Z) (s : string) : option Z :=
  match s with
  | EmptyString => Some acc
  | String c rest =>
      match digit c with
      | Some d => digits_value (10 * acc + d) rest
      | None => None
      end
  end.

(** [Number(s)] on the strings the calculators meet: a run of decimal
    digits is its value, the empty string is [0], and a string with any
    other character is [NaN].  (Signs, fractions, exponents, radix
    prefixes and surrounding white space, which [Number] also accepts,
    do not occur in roster times and are read as [NaN] here.) *)
Definition Number (s : string) : number :=
  match digits_value 0 s with
  | Some z => Num z
  | None => NaN
  end.

(** [xs[i]] converted by [ToNumber]: an index past the end reads
    [undefined], whose number value is [NaN]. *)
Definition nth_number (i : nat) (xs : list number) : number :=
  nth i xs NaN.

(** Truthiness of a [string | null | undefined] value: the empty string
    is falsy. *)
Definition truthy_string (s : option string) : bool :=
  match s with
  | Some EmptyString => false
  | Some _ => true
  | None => false
  end.


(** ** Further operations, used by the other functions of the sources *)

(** [a + b] *)
Definition add (a b : number) : number :=
  match a, b with
  | Num x, Num y => Num (x + y)
  | _, _ => NaN
  end.

(** [a * b] *)
Definition mul (a b : number) : number :=
  match a, b with
  | Num x, Num y => Num (x * y)
  | _, _ => NaN
  end.

(** [a === b]: [NaN] equals nothing. *)
Definition strict_eq (a b : number) : bool :=
  match a, b with
  | Num x, Num y => x =? y
  | _, _ => false
  end.

(** [!a] for a number: [0] and [NaN] are falsy. *)
Definition falsy (a : number) : bool :=
  match a with
  | Num x => x =? 0
  | NaN => true
  end.

(** The character class [[lo-hi]] of a regular expression. *)
Definition in_range (lo hi c : ascii) : bool :=
  (nat_of_ascii lo <=? nat_of_ascii c)%nat && (nat_of_ascii c <=? nat_of_ascii hi)%nat.

(** A JavaScript number that may be fractional, or [NaN]; fractions are
    exact rationals. *)
Inductive real : Type :=
| Real (q : Q)
| RNaN.

(** [a / k] for a positive integer constant [k]. *)
Definition div (a : number) (k : Z) : real :=
  match a with
  | Num x => Real (inject_Z x / inject_Z k)
  | NaN => RNaN
  end.

(** [Math.max(0, a)] *)
Definition max0 (a : real) : real :=
  match a with
  | Real q => Real (Qmax 0 q)
  | RNaN => RNaN
  end.

End Js.

(* ===================================================================== *)
(** * Time *)
(* ===================================================================== *)

Module Time.

Definition msPerSecond : Z := 1000.
Definition msPerMinute : Z := 1000 * 60.
Definition msPerHour : Z := 3600000.
Definition msPerDay : Z := 86400000.

(** The calendar day (days since 1970-01-01) of an instant in UTC: the
    date part of [d.toISOString()]. *)
Definition utcDay (t : Z) : Z := t / msPerDay.

(** The calendar day of an instant in the local zone (offset [tz]). *)
Definition localDay (tz t : Z) : Z := (t + tz) / msPerDay.

Definition two_digits (a b : ascii) : option Z :=
  match Js.digit a, Js.digit b with
  | Some x, Some y => Some (10 * x + y)
  | _, _ => None
  end.

Definition three_digits (a b c : ascii) : option Z :=
  match Js.digit a, Js.digit b, Js.digit c with
  | Some x, Some y, Some z => Some (100 * x + 10 * y + z)
  | _, _, _ => None
  end.

(** Milliseconds since midnight of hour [h], minute [m], second [s] and
    millisecond [f], when they form a time of the ECMAScript date-time
    string format (00:00 .. 23:59:59.999, or 24:00:00.000). *)
Definition time_value (h m s f : option Z) : option Z :=
  match h, m, s, f with
  | Some h, Some m, Some s, Some f =>
      if ((h <=? 23) && (m <=? 59) && (s <=? 59))
         || ((h =? 24) && (m =? 0) && (s =? 0) && (f =? 0))
      then Some (h * msPerHour + m * msPerMinute + s * msPerSecond + f)
      else None
  | _, _, _, _ => None
  end.

(** The time part of a date-time string: [HH:mm], [HH:mm:ss] or
    [HH:mm:ss.sss], without a zone suffix (so that the whole string is
    local time).  Any other string makes [new Date(...)] an
    [Invalid Date]; this is the strict format of the language standard
    (an engine's fallback parser may accept more). *)
Definition parseTimeOfDay (s : string) : option Z :=
  match list_ascii_of_string s with
  | [h1; h2; c1; m1; m2] =>
      if Ascii.eqb c1 ":" then
        time_value (two_digits h1 h2) (two_digits m1 m2) (Some 0) (Some 0)
      else None
  | [h1; h2; c1; m1; m2; c2; s1; s2] =>
      if Ascii.eqb c1 ":" && Ascii.eqb c2 ":" then
        time_value (two_digits h1 h2) (two_digits m1 m2)
                   (two_digits s1 s2) (Some 0)
      else None
  | [h1; h2; c1; m1; m2; c2; s1; s2; c3; f1; f2; f3] =>
      if Ascii.eqb c1 ":" && Ascii.eqb c2 ":" && Ascii.eqb c3 "." then
        time_value (two_digits h1 h2) (two_digits m1 m2)
                   (two_digits s1 s2) (three_digits f1 f2 f3)
      else None
  | _ => None
  end.

(** [new Date(`${date}T${time}`)]: the local date-time string made of
    the calendar date [day] and the time string [time]. *)
Definition Date_of_local (tz day : Z) (time : string) : Js.number :=
  match parseTimeOfDay time with
  | Some ms => Js.Num (day * msPerDay + ms - tz)
  | None => Js.NaN
  end.

(** [d = new Date(t); d.setHours(h, m, 0, 0); d.getTime()]: hour and
    minute are replaced in local time (values past the range roll over),
    and a [NaN] argument makes the date invalid. *)
Definition setHours (tz t : Z) (h m : Js.number) : Js.number :=
  match h, m with
  | Js.Num h, Js.Num m =>
      Js.Num (localDay tz t * msPerDay + h * msPerHour + m * msPerMinute - tz)
  | _, _ => Js.NaN
  end.

(** date-fns [differenceInMinutes(a, b)]: whole minutes between two
    dates, truncated towards zero; [NaN] when a date is invalid. *)
Definition differenceInMinutes (a b : Js.number) : Js.number :=
  match a, b with
  | Js.Num x, Js.Num y => Js.Num (Z.quot (x - y) msPerMinute)
  | _, _ => Js.NaN
  end.

(** The same on two valid dates. *)
Definition minutesBetween (a b : Z) : Z := Z.quot (a - b) msPerMinute.

(** Successive readings of the wall clock: the [k]-th [new Date()] of a
    run returns [readings k]. *)
Record Clock : Type := mkClock {
  readings : nat -> Z;
  reads : nat
}.

(** Code that may read the wall clock. *)
Definition IO : Type -> Type := state Clock.

(** [new Date()] (its time value). *)
Definition new_Date : IO Z :=
  c <- get ;;
  put (mkClock (readings c) (S (reads c))) ;;
  ret (readings c (reads c)).

(** A clock stopped at instant [t]. *)
Definition stopped_at (t : Z) : Clock := mkClock (fun _ => t) O.

End Time.

(** Dates for the scenarios: the proleptic Gregorian calendar. *)
Module Civil.

(** Days from 1970-01-01 to the civil date [y]-[m]-[d]. *)
Definition ymd (y m d : Z) : Z :=
  let y' := if m <=? 2 then y - 1 else y in
  let era := y' / 400 in
  let yoe := y' - era * 400 in
  let mp := if m <=? 2 then m + 9 else m - 3 in
  let doy := (153 * mp + 2) / 5 + d - 1 in
  let doe := yoe * 365 + yoe / 4 - yoe / 100 + doy in
  era * 146097 + doe - 719468.

(** The instant [y]-[m]-[d]T[hh]:[mm]:[ss]Z. *)
Definition utc (y m d hh mm ss : Z) : Z :=
  ymd y m d * Time.msPerDay + hh * Time.msPerHour
  + mm * Time.msPerMinute + ss * Time.msPerSecond.

(** [new Date(day).getDay()] for a date-only string, read as UTC
    midnight: 0 is Sunday. *)
Definition weekday (day : Z) : Z := (day + 4) mod 7.

End Civil.

(** The zone of the JavaScript engine where a function depends on more
    than a constant offset, as the language standard sees it: [at_utc u]
    is the offset (milliseconds east of UTC) in force at the instant [u]
    ([LocalTZA(u, true)]), and [at_local l] is the offset with which the
    local time value [l] is read ([LocalTZA(l, false)]). *)
Module Zone.

Record t : Type := mk {
  at_utc : Z -> Z;
  at_local : Z -> Z
}.

(** A zone without daylight-saving transitions. *)
Definition constant (tz : Z) : t :=
  {| at_utc := fun _ => tz; at_local := fun _ => tz |}.

(** [LocalTime(u)] *)
Definition LocalTime (zone : t) (u : Z) : Z := u + at_utc zone u.

(** [UTC(l)] *)
Definition UTC (zone : t) (l : Z) : Z := l - at_local zone l.

(** [d.setDate(d.getDate() + 1)] on the instant [u]: the same local time
    of day on the next local calendar day. *)
Definition next_local_day (zone : t) (u : Z) : Z :=
  UTC zone (LocalTime zone u + Time.msPerDay).

(** America/New_York in March 2024: UTC-5 until 2024-03-10T07:00Z (02:00
    local time), UTC-4 from then on; a local time in the skipped hour is
    read with the offset before the change. *)
Definition new_york_march_2024 : t :=
  {| at_utc := fun u =>
       if u <? Civil.utc 2024 3 10 7 0 0 then -5 * Time.msPerHour
       else -4 * Time.msPerHour;
     at_local := fun l =>
       if l <? Civil.utc 2024 3 10 3 0 0 then -5 * Time.msPerHour
       else -4 * Time.msPerHour |}.

End Zone.


(* ===================================================================== *)
(** * Data model *)
(* ===================================================================== *)

(** The time slot of a shift: [{ start_time, end_time }]. *)
Module TimeSlot.
Record t : Type := mk {
  start_time : option string;
  end_time : option string
}.
End TimeSlot.

(** One entry of a shift pattern ([DailyShift] of the roster services):
    [{ date?, day?, shift?, time_slot? }]. *)
Module DailyShift.
Record t : Type := mk {
  date : option Z;
  day : option Z;
  shift : option string;
  time_slot : option TimeSlot.t
}.
End DailyShift.

(** The value of the [shift_pattern] column as the code may find it. *)
Inductive ShiftPattern : Type :=
| SP_absent                                   (* null / undefined *)
| SP_array (entries : list (option DailyShift.t))
                                              (* an array; [None] is a null entry *)
| SP_not_array.                               (* a truthy JSON value that is no array *)

Module Roster.
(** Modelled from the spec: the [Roster] type of [@/types] and
    [@/integrations/supabase/types] is not among the sources.  The fields
    are the columns selected by [getEmployeeRosterForDate], and
    [grace_period] as the data model of the specification has it (an
    optional number of minutes).  [shift_pattern] is a JSON column: see
    [ShiftPattern]. *)
Record t : Type := mk {
  id : string;
  employee_id : string;
  start_date : Z;
  end_date : Z;
  start_time : option string;
  end_time : option string;
  break_duration : option Z;
  early_departure_threshold : option Z;
  grace_period : option Z;
  shift_pattern : ShiftPattern;
  is_active : bool;
  created_at : Z
}.
End Roster.

(** The [employees] relation joined to an attendance row. *)
Module Employee.
Record t : Type := mk {
  id : option string;
  department_id : option string
}.
End Employee.

(** An attendance row: the columns read by the calculators and the
    reports.  Stored numbers are rationals; [None] is [null]. *)
Module Attendance.
Record t : Type := mk {
  id : string;
  employee_id : string;
  date : Z;
  first_check_in_time : option Z;
  first_check_out_time : option Z;
  second_check_in_time : option Z;
  second_check_out_time : option Z;
  minutes_late : option Q;
  working_duration_minutes : option Q;
  break_duration_minutes : option Q;
  employees : option Employee.t
}.
End Attendance.

(* ===================================================================== *)
(** * src/utils/lateCalculation.ts *)
(* ===================================================================== *)

Module LateCalculation.

Record LateCalculationResult : Type := mkResult {
  isLate : bool;
  lateMinutes : Js.number;
  lateHours : Js.number;
  lateDisplay : string
}.

Definition defaultResult : LateCalculationResult :=
  {| isLate := false;
     lateMinutes := Js.Num 0;
     lateHours := Js.Num 0;
     lateDisplay := "0h 0m" |}.

Section WithZone.
Variable tz : Z.

(** [calculateLateness(attendance, roster)].  The [try] block cannot
    throw on a well-formed check-in instant; an unparsable
    [start_time] yields an [Invalid Date], whose [NaN] time value
    fails the test [timeDifference > 0]. *)
Definition calculateLateness (attendance : Attendance.t) (roster : Roster.t)
  : LateCalculationResult :=
  match Attendance.first_check_in_time attendance with
  | None => defaultResult
  | Some checkInTime =>
      if negb (Js.truthy_string (Roster.start_time roster)) then defaultResult
      else
        match Roster.start_time roster with
        | None => defaultResult
        | Some start_time =>
            let checkInDate := Time.utcDay checkInTime in
            let rosterStartDateTime :=
              Time.Date_of_local tz checkInDate start_time in
            let timeDifference :=
              Js.sub (Js.Num checkInTime) rosterStartDateTime in
            if Js.gt timeDifference (Js.Num 0) then
              let lateMinutes := Js.floor_div timeDifference (1000 * 60) in
              let lateHours := Js.floor_div lateMinutes 60 in
              let remainingMinutes := Js.rem lateMinutes 60 in
              {| isLate := true;
                 lateMinutes := lateMinutes;
                 lateHours := lateHours;
                 lateDisplay :=
                   (Js.toString lateHours ++ "h "
                    ++ Js.toString remainingMinutes ++ "m")%string |}
            else defaultResult
        end
  end.

(** [calculateLateMinutes(attendance, roster)] *)
Definition calculateLateMinutes (attendance : Attendance.t) (roster : Roster.t)
  : Js.number :=
  lateMinutes (calculateLateness attendance roster).

(** [isEmployeeLate(checkInTime, rosterStartTime, gracePeriod = 0, date?)] *)
Definition isEmployeeLate (checkInTime : Z) (rosterStartTime : string)
           (gracePeriod : option Z) (date : option Z) : bool :=
  let gracePeriod := match gracePeriod with Some g => g | None => 0 end in
  let checkInDate :=
    match date with Some d => d | None => Time.utcDay checkInTime end in
  let rosterStart := Time.Date_of_local tz checkInDate rosterStartTime in
  let timeDifference := Js.sub (Js.Num checkInTime) rosterStart in
  let gracePeriodMs := gracePeriod * 60 * 1000 in
  Js.gt timeDifference (Js.Num gracePeriodMs).

End WithZone.

(** [formatLateTime(lateMinutes)] *)
Definition formatLateTime (lateMinutes : Js.number) : string :=
  if Js.le lateMinutes (Js.Num 0) then "0h 0m"%string
  else
    let hours := Js.floor_div lateMinutes 60 in
    let minutes := Js.rem lateMinutes 60 in
    (Js.toString hours ++ "h " ++ Js.toString minutes ++ "m")%string.

End LateCalculation.

(* ===================================================================== *)
(** * src/utils/lateDurationUtils.ts *)
(* ===================================================================== *)

Module LateDurationUtils.

Record LateDurationCalculation : Type := mkCalculation {
  isLate : bool;
  lateMinutes : Js.number;
  actualCheckInTime : Js.number;
  rosterStartTime : Js.number;
  gracePeriodUsed : Z;
  formattedLateDuration : string
}.

(** [formatLateDuration(minutes)] *)
Definition formatLateDuration (minutes : Js.number) : string :=
  if Js.le minutes (Js.Num 0) then "-"%string
  else
    let hours := Js.floor_div minutes 60 in
    let remainingMinutes := Js.rem minutes 60 in
    if Js.gt hours (Js.Num 0) then
      (Js.toString hours ++ "H "
       ++ Js.padStart2 (Js.toString remainingMinutes) ++ "M")%string
    else (Js.toString remainingMinutes ++ "M")%string.

Section WithZone.
Variable tz : Z.

(** [calculateLateDuration(checkInTime, roster)].  The only statement
    of the [try] block that can throw is [roster.start_time.split]
    on a missing [start_time]; the [catch] block then reads the wall
    clock twice. *)
Definition calculateLateDuration (checkInTime : Z) (roster : Roster.t)
  : Time.IO LateDurationCalculation :=
  match Roster.start_time roster with
  | None =>
      actual <- Time.new_Date ;;
      start <- Time.new_Date ;;
      ret {| isLate := false;
             lateMinutes := Js.Num 0;
             actualCheckInTime := Js.Num actual;
             rosterStartTime := Js.Num start;
             gracePeriodUsed := 0;
             formattedLateDuration := "-" |}
  | Some start_time =>
      let actualCheckIn := Js.Num checkInTime in
      let parts := map Js.Number (Js.split ":" start_time) in
      let startHours := Js.nth_number 0 parts in
      let startMinutes := Js.nth_number 1 parts in
      let rosterStart := Time.setHours tz checkInTime startHours startMinutes in
      let minutesDifference := Time.differenceInMinutes actualCheckIn rosterStart in
      let lateMinutes := Js.Math_max (Js.Num 0) minutesDifference in
      let isLate := Js.gt lateMinutes (Js.Num 0) in
      let formattedLateDuration := formatLateDuration lateMinutes in
      ret {| isLate := isLate;
             lateMinutes := lateMinutes;
             actualCheckInTime := actualCheckIn;
             rosterStartTime := rosterStart;
             gracePeriodUsed := 0;
             formattedLateDuration := formattedLateDuration |}
  end.

End WithZone.


(** ** The other functions of the file *)

Inductive Severity : Type := none | minor | major | critical.

Record LateDurationInfo : Type := mkInfo {
  display : string;
  severity : Severity;
  color : string;
  description : string
}.

Section Info.
Variable tz : Z.

(** [getLateDurationInfo(checkInTime, roster)] *)
Definition getLateDurationInfo (checkInTime : Z) (roster : Roster.t)
  : Time.IO LateDurationInfo :=
  calculation <- calculateLateDuration tz checkInTime roster ;;
  ret (if negb (isLate calculation) then
         {| display := "On Time";
            severity := none;
            color := "text-green-600";
            description := "Arrived within grace period" |}
       else
         let lateMinutes := lateMinutes calculation in
         if Js.le lateMinutes (Js.Num 15) then
           {| display := formattedLateDuration calculation;
              severity := minor;
              color := "text-yellow-600";
              description := "Slightly late" |}
         else if Js.le lateMinutes (Js.Num 30) then
           {| display := formattedLateDuration calculation;
              severity := major;
              color := "text-orange-600";
              description := "Significantly late" |}
         else
           {| display := formattedLateDuration calculation;
              severity := critical;
              color := "text-red-600";
              description := "Very late" |}).

End Info.

(** The hour of [validateRosterTime]'s pattern, [([0-1]?[0-9]|2[0-3])],
    on one and on two characters. *)
Definition hour1 (a : ascii) : bool := Js.in_range "0" "9" a.

Definition hour2 (a b : ascii) : bool :=
  (Js.in_range "0" "1" a && Js.in_range "0" "9" b)
  || (Ascii.eqb a "2" && Js.in_range "0" "3" b).

(** [[0-5][0-9]] *)
Definition sixty (a b : ascii) : bool :=
  Js.in_range "0" "5" a && Js.in_range "0" "9" b.

(** [validateRosterTime(timeString)]: the test of the pattern
    [/^([0-1]?[0-9]|2[0-3]):[0-5][0-9](?::[0-5][0-9])?$/], whose matches
    have one of four shapes: H:MM, HH:MM, H:MM:SS, HH:MM:SS. *)
Definition validateRosterTime (timeString : string) : bool :=
  match list_ascii_of_string timeString with
  | [h; c1; m1; m2] =>
      hour1 h && Ascii.eqb c1 ":" && sixty m1 m2
  | [h1; h2; c1; m1; m2] =>
      hour2 h1 h2 && Ascii.eqb c1 ":" && sixty m1 m2
  | [h; c1; m1; m2; c2; s1; s2] =>
      hour1 h && Ascii.eqb c1 ":" && sixty m1 m2 && Ascii.eqb c2 ":" && sixty s1 s2
  | [h1; h2; c1; m1; m2; c2; s1; s2] =>
      hour2 h1 h2 && Ascii.eqb c1 ":" && sixty m1 m2 && Ascii.eqb c2 ":" && sixty s1 s2
  | _ => false
  end.

(** [timeStringToMinutes(timeString)] *)
Definition timeStringToMinutes (timeString : string) : Js.number :=
  let parts := map Js.Number (Js.split ":" timeString) in
  let hours := Js.nth_number 0 parts in
  let minutes := Js.nth_number 1 parts in
  Js.add (Js.mul hours (Js.Num 60)) minutes.

(** [minutesToTimeString(minutes)] *)
Definition minutesToTimeString (minutes : Js.number) : string :=
  let hours := Js.floor_div minutes 60 in
  let mins := Js.rem minutes 60 in
  (Js.padStart2 (Js.toString hours) ++ ":" ++ Js.padStart2 (Js.toString mins))%string.

(** [calculateExpectedWorkingHours(roster)]: [split] on a missing
    [start_time] or [end_time] throws and the [catch] block returns 0. *)
Definition calculateExpectedWorkingHours (roster : Roster.t) : Js.real :=
  match Roster.start_time roster, Roster.end_time roster with
  | Some start_time, Some end_time =>
      let startMinutes := timeStringToMinutes start_time in
      let endMinutes := timeStringToMinutes end_time in
      let breakDuration :=
        match Roster.break_duration roster with Some b => b | None => 0 end in
      let totalMinutes :=
        Js.sub (Js.sub endMinutes startMinutes) (Js.Num breakDuration) in
      Js.max0 (Js.div totalMinutes 60)
  | _, _ => Js.Real 0
  end.

End LateDurationUtils.

(* ===================================================================== *)
(** * The record store (Supabase) *)
(* ===================================================================== *)

Module Supabase.

(** What a request to the store can do. *)
Inductive Health : Type :=
| Up              (* the request is answered with rows *)
| ReturnsError    (* the request is answered with [{ data: null, error }] *)
| Rejects.        (* the awaited request throws *)

Record Client : Type := mkClient {
  rosters : list Roster.t;
  health : Health
}.

(** The reply of an awaited query. *)
Inductive Reply (A : Type) : Type :=
| Answer (data : option (list A)) (error : bool)
| Thrown.
Arguments Answer {A} data error.
Arguments Thrown {A}.

(** [.eq('employee_id', e).eq('is_active', true)
     .lte('start_date', date).gte('end_date', date)] *)
Definition active_on (employeeId : string) (date : Z) (r : Roster.t) : bool :=
  String.eqb (Roster.employee_id r) employeeId
  && Bool.eqb (Roster.is_active r) true
  && (Roster.start_date r <=? date)
  && (date <=? Roster.end_date r).

(** [.order('created_at', { ascending: false })]: rows by decreasing
    [created_at]; rows with equal keys keep their order. *)
Fixpoint insert_desc (r : Roster.t) (l : list Roster.t) : list Roster.t :=
  match l with
  | [] => [r]
  | x :: rest =>
      if Roster.created_at x <? Roster.created_at r then r :: l
      else x :: insert_desc r rest
  end.

Definition order_created_at_desc (l : list Roster.t) : list Roster.t :=
  fold_right insert_desc [] l.

(** [a] was created no earlier than [b]. *)
Definition not_older (a b : Roster.t) : Prop :=
  Roster.created_at b <= Roster.created_at a.

(** [.limit(n)] *)
Definition limit (n : nat) (l : list Roster.t) : list Roster.t := firstn n l.

Definition answer {A} (c : Client) (rows : list A) : Reply A :=
  match health c with
  | Up => Answer (Some rows) false
  | ReturnsError => Answer None true
  | Rejects => Thrown
  end.


(** [.order('start_date', { ascending: false })] *)
Fixpoint insert_start_desc (r : Roster.t) (l : list Roster.t) : list Roster.t :=
  match l with
  | [] => [r]
  | x :: rest =>
      if Roster.start_date x <? Roster.start_date r then r :: l
      else x :: insert_start_desc r rest
  end.

Definition order_start_date_desc (l : list Roster.t) : list Roster.t :=
  fold_right insert_start_desc [] l.

(** [a] starts no earlier than [b]. *)
Definition starts_no_earlier (a b : Roster.t) : Prop :=
  Roster.start_date b <= Roster.start_date a.

End Supabase.

(* ===================================================================== *)
(** * The roster utilities ([@/utils/rosterUtils], src/unnamed/part_010) *)
(* ===================================================================== *)

Module RosterUtils.

(** Outcome of code that may throw. *)
Inductive Completion (A : Type) : Type :=
| Return (a : A)
| Throw.
Arguments Return {A} a.
Arguments Throw {A}.

(** [getEmployeeRosterForDate(employeeId, date)] *)
Definition getEmployeeRosterForDate (supabase : Supabase.Client)
           (employeeId : string) (date : Z) : option Roster.t :=
  match
    Supabase.answer supabase
      (Supabase.limit 1
         (Supabase.order_created_at_desc
            (filter (Supabase.active_on employeeId date)
                    (Supabase.rosters supabase))))
  with
  | Supabase.Thrown => None                        (* catch *)
  | Supabase.Answer data error =>
      if error then None
      else
        match data with
        | None => None
        | Some [] => None
        | Some (first :: _) => Some first
        end
  end.

(** [roster.shift_pattern.find(shift => shift.date === date)]: reading
    [.date] of a null entry throws. *)
Fixpoint find_date (date : Z) (entries : list (option DailyShift.t))
  : Completion (option DailyShift.t) :=
  match entries with
  | [] => Return None
  | None :: _ => Throw
  | Some shift :: rest =>
      match DailyShift.date shift with
      | Some d => if d =? date then Return (Some shift) else find_date date rest
      | None => find_date date rest
      end
  end.

(** [getShiftForDate(roster, date)] *)
Definition getShiftForDate (roster : Roster.t) (date : Z)
  : Completion DailyShift.t :=
  let default :=
    {| DailyShift.date := Some date;
       DailyShift.day := None;
       DailyShift.shift := Some "regular"%string;
       DailyShift.time_slot :=
         Some {| TimeSlot.start_time := Roster.start_time roster;
                 TimeSlot.end_time := Roster.end_time roster |} |} in
  match Roster.shift_pattern roster with
  | SP_absent => Return default
  | SP_array [] => Return default
  | SP_not_array => Throw          (* [.find] is not a function *)
  | SP_array entries =>
      match find_date date entries with
      | Throw => Throw
      | Return (Some shiftForDate) => Return shiftForDate
      | Return None => Return default
      end
  end.

(** [a || b] on [string | null | undefined] values. *)
Definition or_string (a b : option string) : option string :=
  if Js.truthy_string a then a else b.

Section WithZone.
Variable tz : Z.

(** [calculateRosterBasedLateness(employeeId, checkInTime, date)] *)
Definition calculateRosterBasedLateness (supabase : Supabase.Client)
           (employeeId : string) (checkInTime : Z) (date : Z) : Js.number :=
  match getEmployeeRosterForDate supabase employeeId date with
  | None => Js.Num 0
  | Some roster =>
      match getShiftForDate roster date with
      | Throw => Js.Num 0                        (* catch *)
      | Return shift =>
          if match DailyShift.shift shift with
             | Some s => String.eqb s "off"
             | None => false
             end
          then Js.Num 0
          else
            let rosterStartTime :=
              or_string
                (match DailyShift.time_slot shift with
                 | Some slot => TimeSlot.start_time slot
                 | None => None
                 end)
                (Roster.start_time roster) in
            if negb (Js.truthy_string rosterStartTime) then Js.Num 0
            else
              match rosterStartTime with
              | None => Js.Num 0
              | Some rosterStartTime =>
                  let checkIn := Js.Num checkInTime in
                  let rosterStart := Time.Date_of_local tz date rosterStartTime in
                  let timeDifference := Js.sub checkIn rosterStart in
                  if Js.gt timeDifference (Js.Num 0) then
                    Js.floor_div timeDifference (1000 * 60)
                  else Js.Num 0
              end
      end
  end.

End WithZone.

(** [formatLateMinutes(lateMinutes)] *)
Definition formatLateMinutes (lateMinutes : Js.number) : string :=
  if Js.le lateMinutes (Js.Num 0) then "On Time"%string
  else
    let hours := Js.floor_div lateMinutes 60 in
    let minutes := Js.rem lateMinutes 60 in
    if Js.gt hours (Js.Num 0) then
      (Js.toString hours ++ "h " ++ Js.toString minutes ++ "m")%string
    else (Js.toString minutes ++ "m")%string.


(** [getEmployeeRosters(employeeId)] *)
Definition getEmployeeRosters (supabase : Supabase.Client) (employeeId : string)
  : list Roster.t :=
  match
    Supabase.answer supabase
      (Supabase.order_start_date_desc
         (filter (fun r => String.eqb (Roster.employee_id r) employeeId)
                 (Supabase.rosters supabase)))
  with
  | Supabase.Thrown => []                          (* catch *)
  | Supabase.Answer data error =>
      if error then []
      else match data with Some rows => rows | None => [] end
  end.

End RosterUtils.

(* ===================================================================== *)
(** * The roster start editor (src/unnamed/part_007) *)
(* ===================================================================== *)

Module RosterStartEditor.

(** The roster that [handleSave] takes as "the existing active roster":
    [existingRosters[0]] of a query with the same filters as the
    resolver but without [order] and [limit] (the store returns the
    rows of an unordered query in table order).  A failed request is
    thrown on to the caller. *)
Definition existingRoster (supabase : Supabase.Client)
           (employee_id : string) (date : Z)
  : RosterUtils.Completion (option Roster.t) :=
  match
    Supabase.answer supabase
      (filter (Supabase.active_on employee_id date) (Supabase.rosters supabase))
  with
  | Supabase.Thrown => RosterUtils.Throw
  | Supabase.Answer existingRosters fetchError =>
      if fetchError then RosterUtils.Throw
      else
        match existingRosters with
        | Some (existingRoster :: _) => RosterUtils.Return (Some existingRoster)
        | _ => RosterUtils.Return None
        end
  end.

End RosterStartEditor.

(* ===================================================================== *)
(** * Stored numbers *)
(* ===================================================================== *)

Module Stored.

(** [!x] for a [number | null] column. *)
Definition falsy (x : option Q) : bool :=
  match x with
  | None => true
  | Some q => Qeq_bool q 0
  end.

(** [x === 0] *)
Definition is_zero (x : option Q) : bool :=
  match x with
  | None => false
  | Some q => Qeq_bool q 0
  end.

(** [x > 0]: [null > 0] is [false]. *)
Definition positive (x : option Q) : bool :=
  match x with
  | None => false
  | Some q => negb (Qle_bool q 0)
  end.

(** [x || 0] *)
Definition or_zero (x : option Q) : Q :=
  match x with
  | None => 0%Q
  | Some q => if Qeq_bool q 0 then 0%Q else q
  end.

(** A duration in milliseconds as minutes: [ms / (1000 * 60)]. *)
Definition minutes (ms : Z) : Q := (inject_Z ms / inject_Z (1000 * 60))%Q.

Definition of_nat (n : nat) : Q := inject_Z (Z.of_nat n).

(** ** Binary64 numbers

    Where stored fractions are added one after the other, the rounding
    of each addition shows in the result: such sums are computed on
    binary64 numbers. *)

(** The double of an integer (exact below 2^53). *)
Definition double_of_Z (z : Z) : float :=
  match z with
  | Z0 => PrimFloat.of_uint63 (Uint63.of_Z 0)
  | Zpos _ => PrimFloat.of_uint63 (Uint63.of_Z z)
  | Zneg p => PrimFloat.opp (PrimFloat.of_uint63 (Uint63.of_Z (Zpos p)))
  end.

Definition double_of_nat (n : nat) : float := double_of_Z (Z.of_nat n).

(** The double that a stored number is: the correctly rounded quotient
    of its numerator and its denominator. *)
Definition to_double (q : Q) : float :=
  PrimFloat.div (double_of_Z (Qnum q)) (double_of_Z (Zpos (Qden q))).

End Stored.

(* ===================================================================== *)
(** * src/services/AttendanceDataRecreationService.ts *)
(* ===================================================================== *)

Module AttendanceDataRecreationService.

Record WorkingTimeCalculation : Type := mkWorkingTime {
  totalMinutes : Q;
  breakMinutes : Q;
  netWorkingMinutes : Q
}.

(** [calculateWorkingTime(firstCheckIn, firstCheckOut, secondCheckIn,
    secondCheckOut)]: an [async] method; it makes no call to
    [new Date()]. *)
Definition calculateWorkingTime
           (firstCheckIn firstCheckOut secondCheckIn secondCheckOut : option Z)
  : Time.IO WorkingTimeCalculation :=
  let totalMinutes := 0%Q in
  let breakMinutes := 0%Q in
  let totalMinutes :=
    match firstCheckIn, firstCheckOut with
    | Some checkIn, Some checkOut =>
        (totalMinutes + Qmax 0 (Stored.minutes (checkOut - checkIn)))%Q
    | _, _ => totalMinutes
    end in
  let totalMinutes :=
    match secondCheckIn, secondCheckOut with
    | Some checkIn, Some checkOut =>
        (totalMinutes + Qmax 0 (Stored.minutes (checkOut - checkIn)))%Q
    | _, _ => totalMinutes
    end in
  let breakMinutes :=
    match firstCheckOut, secondCheckIn with
    | Some breakStart, Some breakEnd =>
        Qmax 0 (Stored.minutes (breakEnd - breakStart))
    | _, _ => breakMinutes
    end in
  ret {| totalMinutes := totalMinutes;
         breakMinutes := breakMinutes;
         netWorkingMinutes := (totalMinutes - breakMinutes)%Q |}.

(** ** [generateAttendanceInsights] *)

(** The ratios of counts ([averageAttendance], [complianceRate]) are
    exact rationals; the averages of stored minutes are binary64
    numbers, as the sums they come from. *)
Record DepartmentStats : Type := mkStats {
  totalEmployees : nat;
  averageAttendance : Q;
  averageLateMinutes : float;
  complianceRate : Q
}.

Record Trend : Type := mkTrend {
  date : Z;
  onTimeCount : nat;
  lateCount : nat;
  averageWorkingHours : float
}.

Record Insights : Type := mkInsights {
  departmentStats : list (string * DepartmentStats);
  trends : list Trend
}.

(** [if (!acc[key]) acc[key] = []; acc[key].push(record)] on an object
    whose keys are kept in insertion order. *)
Fixpoint push {K : Type} (eqb : K -> K -> bool) (key : K) (record : Attendance.t)
         (acc : list (K * list Attendance.t)) : list (K * list Attendance.t) :=
  match acc with
  | [] => [(key, [record])]
  | (k, records) :: rest =>
      if eqb k key then (k, records ++ [record]) :: rest
      else (k, records) :: push eqb key record rest
  end.

(** [records.reduce((acc, record) => { ... }, {})] *)
Definition groupBy {K : Type} (eqb : K -> K -> bool) (key : Attendance.t -> K)
           (records : list Attendance.t) : list (K * list Attendance.t) :=
  fold_left (fun acc record => push eqb (key record) record acc) records [].

(** [acc] holds the groups of the records [seen]: no key has two
    groups, every record seen has a group, and a group holds, in order,
    the records of its key. *)
Definition grouped {K : Type} (eqb : K -> K -> bool) (key : Attendance.t -> K)
           (acc : list (K * list Attendance.t)) (seen : list Attendance.t) : Prop :=
  NoDup (map fst acc)
  /\ (forall x, In x seen -> In (key x) (map fst acc))
  /\ (forall k rs, In (k, rs) acc -> rs = filter (fun x => eqb k (key x)) seen).

(** [record.employees?.department_id || 'unassigned'] *)
Definition deptId (record : Attendance.t) : string :=
  match Attendance.employees record with
  | Some e =>
      match Employee.department_id e with
      | Some d => if Js.truthy_string (Some d) then d else "unassigned"%string
      | None => "unassigned"%string
      end
  | None => "unassigned"%string
  end.

(** [r.employees?.id] *)
Definition employeeId (r : Attendance.t) : option string :=
  match Attendance.employees r with
  | Some e => Employee.id e
  | None => None
  end.

Definition option_string_dec (a b : option string) : {a = b} + {a <> b}.
Proof. decide equality. apply string_dec. Defined.

(** [new Set(xs).size] *)
Definition Set_size (xs : list (option string)) : nat :=
  List.length (nodup option_string_dec xs).

(** [r => !r.minutes_late || r.minutes_late === 0] *)
Definition onTime (r : Attendance.t) : bool :=
  Stored.falsy (Attendance.minutes_late r)
  || Stored.is_zero (Attendance.minutes_late r).

(** [r => r.minutes_late && r.minutes_late > 0] *)
Definition late (r : Attendance.t) : bool :=
  negb (Stored.falsy (Attendance.minutes_late r))
  && Stored.positive (Attendance.minutes_late r).

(** [records.reduce((sum, r) => sum + f(r), 0)]: each addition is
    rounded to the nearest double, so the result depends on the order
    of the records. *)
Definition sum (f : Attendance.t -> float) (records : list Attendance.t) : float :=
  fold_left (fun sum r => PrimFloat.add sum (f r)) records (Stored.double_of_Z 0).

(** The statistics of one department. *)
Definition departmentStat (records : list Attendance.t) : DepartmentStats :=
  let totalEmployees := Set_size (map employeeId records) in
  let totalRecords := List.length records in
  let onTimeRecords := List.length (filter onTime records) in
  let totalLateMinutes :=
    sum (fun r => Stored.to_double (Stored.or_zero (Attendance.minutes_late r)))
        records in
  let totalWorkingMinutes :=
    sum (fun r =>
           Stored.to_double (Stored.or_zero (Attendance.working_duration_minutes r)))
        records in
  {| totalEmployees := totalEmployees;
     averageAttendance :=
       (Stored.of_nat totalRecords / Stored.of_nat totalEmployees * 100)%Q;
     averageLateMinutes :=
       PrimFloat.div totalLateMinutes (Stored.double_of_nat totalRecords);
     complianceRate :=
       (Stored.of_nat onTimeRecords / Stored.of_nat totalRecords * 100)%Q |}.

(** The trend of one date. *)
Definition trend (date : Z) (records : list Attendance.t) : Trend :=
  {| date := date;
     onTimeCount := List.length (filter onTime records);
     lateCount := List.length (filter late records);
     averageWorkingHours :=
       PrimFloat.div
         (sum (fun r =>
                 PrimFloat.div
                   (Stored.to_double
                      (Stored.or_zero (Attendance.working_duration_minutes r)))
                   (Stored.double_of_Z 60))
              records)
         (Stored.double_of_nat (List.length records)) |}.

(** [trends.sort((a, b) => a.date.localeCompare(b.date))]: a stable
    sort by date (ISO dates compare as their day numbers). *)
Fixpoint insert_by_date (t : Trend) (l : list Trend) : list Trend :=
  match l with
  | [] => [t]
  | x :: rest =>
      if date t <? date x then t :: l else x :: insert_by_date t rest
  end.

Definition sort_by_date (l : list Trend) : list Trend :=
  fold_right insert_by_date [] l.

(** [generateAttendanceInsights(startDate, endDate, departmentId)] on
    the rows [records] that its query returned.  (A failed query is
    rethrown to the caller before any computation.) *)
Definition generateAttendanceInsights (records : list Attendance.t) : Insights :=
  match records with
  | [] => {| departmentStats := []; trends := [] |}
  | _ =>
      let departmentRecords := groupBy String.eqb deptId records in
      let departmentStats :=
        map (fun '(deptId, records) => (deptId, departmentStat records))
            departmentRecords in
      let dateRecords := groupBy Z.eqb Attendance.date records in
      let trends :=
        map (fun '(date, records) => trend date records) dateRecords in
      {| departmentStats := departmentStats;
         trends := sort_by_date trends |}
  end.


(** ** [calculateLateDuration] and [recreateAttendanceData] *)

(** A row of the query of [recreateAttendanceData]: the attendance
    columns and [roster_id]. *)
Record Row : Type := mkRow {
  record : Attendance.t;
  roster_id : option string
}.

(** The object passed to [update]. *)
Module Update.
Record t : Type := mk {
  working_duration_minutes : Q;
  break_duration_minutes : Q;
  minutes_late : Js.real;
  updated_at : Z
}.
End Update.

(** What the awaited [update] of one row does: it succeeds, it answers
    with an error, or it throws (an [Error] with a message, or another
    value). *)
Inductive UpdateReply : Type :=
| Updated
| UpdateError (message : string)
| UpdateThrown (message : option string).

Record AttendanceOptimizationResult : Type := mkOptimization {
  totalRecords : nat;
  optimizedRecords : nat;
  errors : list string
}.

Section Recreation.
Variable tz : Z.

(** [RosterService.getRosterById], which is not among the sources: the
    roster of an id, null when there is none, or an exception. *)
Variable getRosterById : string -> RosterUtils.Completion (option Roster.t).

(** The store's reaction to the update of the row with a given id. *)
Variable update : string -> Update.t -> UpdateReply.

(** [calculateLateDuration(checkInTime, rosterId)] *)
Definition calculateLateDuration (checkInTime : Z) (rosterId : string) : Js.real :=
  match getRosterById rosterId with
  | RosterUtils.Throw => Js.Real 0                 (* catch *)
  | RosterUtils.Return None => Js.Real 0
  | RosterUtils.Return (Some roster) =>
      match Roster.start_time roster with
      | None => Js.Real 0                          (* catch: [split] throws *)
      | Some start_time =>
          let parts := map Js.Number (Js.split ":" start_time) in
          let hours := Js.nth_number 0 parts in
          let minutes := Js.nth_number 1 parts in
          let rosterStart := Time.setHours tz checkInTime hours minutes in
          Js.max0 (Js.div (Js.sub (Js.Num checkInTime) rosterStart) (1000 * 60))
      end
  end.

(** The loop of [recreateAttendanceData] over the rows. *)
Fixpoint processRecords (records : list Row) (result : AttendanceOptimizationResult)
  : Time.IO AttendanceOptimizationResult :=
  match records with
  | [] => ret result
  | row :: rest =>
      let id := Attendance.id (record row) in
      workingTime <-
        calculateWorkingTime
          (Attendance.first_check_in_time (record row))
          (Attendance.first_check_out_time (record row))
          (Attendance.second_check_in_time (record row))
          (Attendance.second_check_out_time (record row)) ;;
      let lateDuration :=
        match Attendance.first_check_in_time (record row) with
        | Some first_check_in_time =>
            if Js.truthy_string (roster_id row) then
              match roster_id row with
              | Some roster_id => calculateLateDuration first_check_in_time roster_id
              | None => Js.Real 0
              end
            else Js.Real 0
        | None => Js.Real 0
        end in
      now <- Time.new_Date ;;
      let reply :=
        update id
               {| Update.working_duration_minutes := netWorkingMinutes workingTime;
                  Update.break_duration_minutes := breakMinutes workingTime;
                  Update.minutes_late := lateDuration;
                  Update.updated_at := now |} in
      processRecords
        rest
        match reply with
        | Updated =>
            {| totalRecords := totalRecords result;
               optimizedRecords := S (optimizedRecords result);
               errors := errors result |}
        | UpdateError message =>
            {| totalRecords := totalRecords result;
               optimizedRecords := optimizedRecords result;
               errors :=
                 errors result
                 ++ [("Failed to update record " ++ id ++ ": " ++ message)%string] |}
        | UpdateThrown message =>
            {| totalRecords := totalRecords result;
               optimizedRecords := optimizedRecords result;
               errors :=
                 errors result
                 ++ [("Error processing record " ++ id ++ ": "
                      ++ match message with
                         | Some m => m
                         | None => "Unknown error"
                         end)%string] |}
        end
  end.

(** [recreateAttendanceData(startDate, endDate, departmentId)] on the
    reply of its query: a failed query is thrown on to the caller. *)
Definition recreateAttendanceData (fetched : Supabase.Reply Row)
  : Time.IO (RosterUtils.Completion AttendanceOptimizationResult) :=
  let result := {| totalRecords := 0; optimizedRecords := 0; errors := [] |} in
  match fetched with
  | Supabase.Thrown => ret RosterUtils.Throw
  | Supabase.Answer records error =>
      if error then ret RosterUtils.Throw
      else
        match records with
        | None => ret (RosterUtils.Return result)
        | Some records =>
            result <-
              processRecords
                records
                {| totalRecords := List.length records;
                   optimizedRecords := optimizedRecords result;
                   errors := errors result |} ;;
            ret (RosterUtils.Return result)
        end
  end.

End Recreation.

End AttendanceDataRecreationService.

(* ===================================================================== *)
(** * src/components/PresentEmployeeReport.tsx *)
(* ===================================================================== *)

Module PresentEmployeeReport.

(** The derived fields of a [PresentEmployee] (the other fields are
    copied from the row). *)
Record PresentEmployee : Type := mkPresent {
  late_minutes : Q;
  break_hours : Q;
  working_duration : Q
}.

(** The body of the [map] callback of [fetchPresentEmployees]. *)
Definition processRecord (record : Attendance.t) : Time.IO PresentEmployee :=
  let firstCheckIn := Attendance.first_check_in_time record in
  let lateMinutes :=
    if negb (Stored.falsy (Attendance.minutes_late record))
       && Stored.positive (Attendance.minutes_late record)
    then match Attendance.minutes_late record with Some m => m | None => 0%Q end
    else 0%Q in
  let breakMinutes := Stored.or_zero (Attendance.break_duration_minutes record) in
  let breakMinutes :=
    if Qeq_bool breakMinutes 0 then
      match Attendance.first_check_out_time record,
            Attendance.second_check_in_time record with
      | Some firstCheckOut, Some secondCheckIn =>
          inject_Z (Time.minutesBetween secondCheckIn firstCheckOut)
      | _, _ => breakMinutes
      end
    else breakMinutes in
  let workingMinutes := Stored.or_zero (Attendance.working_duration_minutes record) in
  workingMinutes <-
    (if Qeq_bool workingMinutes 0 then
       match firstCheckIn with
       | Some checkInTime =>
           let totalWorked := 0 in
           (* first session *)
           totalWorked <-
             match Attendance.first_check_out_time record with
             | Some firstCheckOut =>
                 ret (totalWorked + Time.minutesBetween firstCheckOut checkInTime)
             | None =>
                 (* still working *)
                 now <- Time.new_Date ;;
                 ret (totalWorked + Time.minutesBetween now checkInTime)
             end ;;
           (* second session *)
           totalWorked <-
             match Attendance.second_check_in_time record with
             | Some secondCheckIn =>
                 match Attendance.second_check_out_time record with
                 | Some secondCheckOut =>
                     ret (totalWorked + Time.minutesBetween secondCheckOut secondCheckIn)
                 | None =>
                     (* still in second session *)
                     now <- Time.new_Date ;;
                     ret (totalWorked + Time.minutesBetween now secondCheckIn)
                 end
             | None => ret totalWorked
             end ;;
           ret (inject_Z totalWorked)
       | None => ret workingMinutes
       end
     else ret workingMinutes) ;;
  ret {| late_minutes := Qmax 0 lateMinutes;
         break_hours := (breakMinutes / 60)%Q;
         working_duration := workingMinutes |}.


(** ** Display helpers of the report *)

(** [formatDuration(minutes)] *)
Definition formatDuration (minutes : option Js.number) : string :=
  match minutes with
  | None => "-"%string
  | Some minutes =>
      if Js.falsy minutes || Js.strict_eq minutes (Js.Num 0) then "-"%string
      else
        let hours := Js.floor_div minutes 60 in
        let mins := Js.rem minutes 60 in
        if Js.strict_eq hours (Js.Num 0) then (Js.toString mins ++ "M")%string
        else (Js.toString hours ++ "H "
              ++ Js.padStart2 (Js.toString mins) ++ "M")%string
  end.

(** [record.roster.shift_pattern.find(s => s.day === dayOfWeek)]:
    reading [.day] of a null entry throws. *)
Fixpoint find_day (dayOfWeek : Z) (entries : list (option DailyShift.t))
  : RosterUtils.Completion (option DailyShift.t) :=
  match entries with
  | [] => RosterUtils.Return None
  | None :: _ => RosterUtils.Throw
  | Some s :: rest =>
      match DailyShift.day s with
      | Some d =>
          if d =? dayOfWeek then RosterUtils.Return (Some s)
          else find_day dayOfWeek rest
      | None => find_day dayOfWeek rest
      end
  end.

(** [x || '-'] *)
Definition or_dash (x : option string) : string :=
  match x with
  | Some s => if Js.truthy_string (Some s) then s else "-"%string
  | None => "-"%string
  end.

Section EffectiveStart.
Variable tz : Z.

(** [new Date(date).getDay()]: the date-only string is midnight UTC, and
    the weekday is read in the local zone. *)
Definition getDay (date : Z) : Z :=
  Civil.weekday (Time.localDay tz (date * Time.msPerDay)).

(** [getEffectiveRosterStart(record)], for the [date] and the [roster]
    of the record. *)
Definition getEffectiveRosterStart (date : Z) (roster : option Roster.t) : string :=
  match roster with
  | None => "-"%string
  | Some roster =>
      match Roster.shift_pattern roster with
      | SP_array entries =>
          let dayOfWeek := getDay date in
          match find_day dayOfWeek entries with
          | RosterUtils.Throw => or_dash (Roster.start_time roster)   (* catch *)
          | RosterUtils.Return shift =>
              let start :=
                match shift with
                | Some s =>
                    match DailyShift.time_slot s with
                    | Some slot => TimeSlot.start_time slot
                    | None => None
                    end
                | None => None
                end in
              if Js.truthy_string start then
                match start with Some s => s | None => "-"%string end
              else or_dash (Roster.start_time roster)
          end
      | _ => or_dash (Roster.start_time roster)
      end
  end.

End EffectiveStart.

End PresentEmployeeReport.

(* ===================================================================== *)
(** * The [attendance_display] view (SQL migration, src/unnamed/part_001) *)
(* ===================================================================== *)

Module AttendanceDisplay.

(** [COALESCE(x, 0)] *)
Definition coalesce0 (x : option Z) : Z :=
  match x with Some v => v | None => 0 end.

Section WithZone.
Variable tz : Z.

(** [DATE_TRUNC('day', t) + time]: the instant of the wall-clock
    [time] (milliseconds since midnight, a [time] column) on the day
    of [t] in the session's zone. *)
Definition on_day_of (t time : Z) : Z :=
  Time.localDay tz t * Time.msPerDay + time - tz.

(** The [minutes_late] column of the view, for the attendance row's
    [first_check_in_time] and the joined roster's [start_time] and
    [grace_period]. *)
Definition minutes_late (first_check_in_time start_time grace_period : option Z)
  : Q :=
  match first_check_in_time, start_time with
  | Some t, Some start =>
      Qmax 0 (Stored.minutes (t - on_day_of t start)
              - inject_Z (coalesce0 grace_period))
  | _, _ => 0%Q
  end.

(** The [early_departure_minutes] column of the view. *)
Definition early_departure_minutes
           (first_check_out_time end_time early_departure_threshold : option Z)
  : Q :=
  match first_check_out_time, end_time with
  | Some t, Some e =>
      Qmax 0 (Stored.minutes (on_day_of t e - t)
              - inject_Z (coalesce0 early_departure_threshold))
  | _, _ => 0%Q
  end.

End WithZone.


(** The [break_duration_minutes] column of the view; [None] is NULL. *)
Definition break_duration_minutes (first_check_out_time second_check_in_time : option Z)
  : option Q :=
  match first_check_out_time, second_check_in_time with
  | Some out, Some back => Some (Stored.minutes (back - out))
  | _, _ => None
  end.

(** The [working_duration_minutes] column of the view: an interval that
    has a NULL end is NULL, and so is a sum with it. *)
Definition working_duration_minutes
           (first_check_in_time first_check_out_time
            second_check_in_time second_check_out_time : option Z) : option Q :=
  match second_check_out_time with
  | Some second_out =>
      match first_check_out_time, first_check_in_time with
      | Some first_out, Some first_in =>
          let second :=
            match second_check_in_time with
            | Some second_in => second_out - second_in
            | None => 0                     (* COALESCE(..., INTERVAL '0 minutes') *)
            end in
          Some (Stored.minutes ((first_out - first_in) + second))
      | _, _ => None
      end
  | None =>
      match first_check_out_time with
      | Some first_out =>
          match first_check_in_time with
          | Some first_in => Some (Stored.minutes (first_out - first_in))
          | None => None
          end
      | None => None
      end
  end.

End AttendanceDisplay.

(* ===================================================================== *)
(** * Recording a check-in *)
(* ===================================================================== *)

(** The row inserted on a first check-in. *)
Module AttendanceScan.

Record InsertData : Type := mkInsert {
  employee_id : string;
  roster_id : option string;
  date : Z;
  first_check_in_time : Z;
  minutes_late : Js.number
}.

Section WithZone.
Variable tz : Z.

(** Modelled from the spec: the functions that write attendance rows
    ([createFirstCheckIn] of [src/pages/api/attendance/scan.ts],
    [recordAttendance] and [singleScanAttendance] of
    [src/utils/attendanceUtils.ts]) are not among the sources.  The
    specification (§4.1, §7 and §8): a roster that is not found is a
    recoverable condition and not an exception; the caller falls back
    to a zero-lateness result while the attendance record is still
    written, flagged for manual roster assignment.  The row of a first
    check-in holds the roster in effect (none when none is found) and
    the late minutes of the roster-based calculator. *)
Definition createFirstCheckIn (supabase : Supabase.Client)
           (employeeId : string) (currentDate now : Z)
  : RosterUtils.Completion InsertData :=
  RosterUtils.Return
    {| employee_id := employeeId;
       roster_id :=
         option_map Roster.id
                    (RosterUtils.getEmployeeRosterForDate supabase employeeId currentDate);
       date := currentDate;
       first_check_in_time := now;
       minutes_late :=
         RosterUtils.calculateRosterBasedLateness
           tz supabase employeeId now currentDate |}.

End WithZone.

End AttendanceScan.

(* ===================================================================== *)
(** * src/services/RosterRecreationService.ts *)
(* ===================================================================== *)

Module RosterRecreationService.

Inductive Shift : Type := morning | evening | night.

Definition shift_name (shift : Shift) : string :=
  match shift with
  | morning => "morning"
  | evening => "evening"
  | night => "night"
  end.

Record ShiftPreference : Type := mkPreference {
  employeeId : string;
  preferredShifts : list Shift;
  unavailableDays : list Z
}.

Record DepartmentRules : Type := mkRules {
  minEmployeesPerShift : Z;
  maxConsecutiveDays : Z;
  requiredSkillSets : list string
}.

(** [getEmployeePreferences(employeeId)] *)
Definition getEmployeePreferences (employeeId : string) : option ShiftPreference :=
  Some {| employeeId := employeeId;
          preferredShifts := [morning];
          unavailableDays := [] |}.

(** [getDepartmentRules(departmentId)] *)
Definition getDepartmentRules (departmentId : string) : DepartmentRules :=
  {| minEmployeesPerShift := 2;
     maxConsecutiveDays := 5;
     requiredSkillSets := [] |}.

(** [generateTimeSlot(shift)] *)
Definition generateTimeSlot (shift : Shift) : TimeSlot.t :=
  match shift with
  | morning =>
      {| TimeSlot.start_time := Some "09:00"%string;
         TimeSlot.end_time := Some "17:00"%string |}
  | evening =>
      {| TimeSlot.start_time := Some "17:00"%string;
         TimeSlot.end_time := Some "01:00"%string |}
  | night =>
      {| TimeSlot.start_time := Some "01:00"%string;
         TimeSlot.end_time := Some "09:00"%string |}
  end.

(** A day off: [{ date, shift: 'off' }]. *)
Definition day_off (date : Z) : DailyShift.t :=
  {| DailyShift.date := Some date;
     DailyShift.day := None;
     DailyShift.shift := Some "off"%string;
     DailyShift.time_slot := None |}.

(** The [while (currentDate <= end)] loop of [optimizeShiftPattern].
    [currentDate] and [end_] are instants: [new Date(startDate)] and
    [new Date(endDate)] of date-only strings are midnight UTC.  The date
    of an entry is the UTC date of [currentDate]
    ([toISOString().split('T')[0]]), and
    [currentDate.setDate(currentDate.getDate() + 1)] moves it by one
    local day.  [fuel] bounds the number of iterations; [None] is a loop
    that has not ended within it. *)
Fixpoint optimize_loop (fuel : nat) (zone : Zone.t)
         (preferences : option ShiftPreference) (rules : DepartmentRules)
         (end_ currentDate consecutiveDays : Z)
  : option (list DailyShift.t) :=
  match fuel with
  | O => None
  | S fuel =>
      if currentDate <=? end_ then
        let dateStr := Time.utcDay currentDate in
        let unavailable :=
          match preferences with
          | Some p => existsb (Z.eqb dateStr) (unavailableDays p)
          | None => false
          end in
        if unavailable then
          option_map (cons (day_off dateStr))
                     (optimize_loop fuel zone preferences rules end_
                                    (Zone.next_local_day zone currentDate) 0)
        else if maxConsecutiveDays rules <=? consecutiveDays then
          (* force a day off after max consecutive days *)
          option_map (cons (day_off dateStr))
                     (optimize_loop fuel zone preferences rules end_
                                    (Zone.next_local_day zone currentDate) 0)
        else
          let shift :=
            match preferences with
            | Some p =>
                match preferredShifts p with
                | first :: _ => first
                | [] => morning
                end
            | None => morning
            end in
          let timeSlot := generateTimeSlot shift in
          option_map
            (cons {| DailyShift.date := Some dateStr;
                     DailyShift.day := None;
                     DailyShift.shift := Some (shift_name shift);
                     DailyShift.time_slot := Some timeSlot |})
            (optimize_loop fuel zone preferences rules end_
                           (Zone.next_local_day zone currentDate)
                           (consecutiveDays + 1))
      else Some []
  end.

(** [optimizeShiftPattern(startDate, endDate, employeeId, departmentId)]
    in the zone [zone] of the engine. *)
Definition optimizeShiftPattern (fuel : nat) (zone : Zone.t) (startDate endDate : Z)
           (employeeId departmentId : string) : option (list DailyShift.t) :=
  let preferences := getEmployeePreferences employeeId in
  let rules := getDepartmentRules departmentId in
  optimize_loop fuel zone preferences rules
                (endDate * Time.msPerDay) (startDate * Time.msPerDay) 0.

End RosterRecreationService.

(* ===================================================================== *)
(** * The specification's formulas *)
(* ===================================================================== *)

(** The formulas of the specification (§4.2, §4.3), written from its
    words, to be compared with the code. *)
Module Spec.

(** "[grace_period] defaults to 0 if the field is absent" *)
Definition grace (grace_period : option Z) : Z :=
  match grace_period with Some g => g | None => 0 end.

(** "[lateMinutes = max(0, delta − grace_period)]" with
    [delta = floor(minutes(checkIn − rosterStartInstant))] *)
Definition lateMinutes (checkIn rosterStartInstant : Z) (grace_period : option Z)
  : Z :=
  Z.max 0 ((checkIn - rosterStartInstant) / Time.msPerMinute - grace grace_period).

(** "[breakMinutes = minutes(second_check_in − first_check_out)] when
    both exist and [second_check_in > first_check_out]; else 0" *)
Definition breakMinutes (first_check_out second_check_in : option Z) : Q :=
  match first_check_out, second_check_in with
  | Some out, Some back =>
      if out <? back then Stored.minutes (back - out) else 0%Q
  | _, _ => 0%Q
  end.

(** The duration of one session, "an open session measured against the
    snapshot now". *)
Definition session (now : Z) (check_in check_out : option Z) : Q :=
  match check_in, check_out with
  | Some i, Some o => Stored.minutes (o - i)
  | Some i, None => Stored.minutes (now - i)
  | None, _ => 0%Q
  end.

(** "[workedMinutes] = the sum of the two session durations" *)
Definition workedMinutes (now : Z)
           (first_in first_out second_in second_out : option Z) : Q :=
  (session now first_in first_out + session now second_in second_out)%Q.

(** The duration of a closed session, clamped at 0; a session without
    both ends counts 0. *)
Definition closedSession (check_in check_out : option Z) : Q :=
  match check_in, check_out with
  | Some i, Some o => Qmax 0 (Stored.minutes (o - i))
  | _, _ => 0%Q
  end.

(** A session that was opened and not closed. *)
Definition open_session (check_in check_out : option Z) : bool :=
  match check_in, check_out with
  | Some _, None => true
  | _, _ => false
  end.

Definition has_open_session (record : Attendance.t) : bool :=
  open_session (Attendance.first_check_in_time record)
               (Attendance.first_check_out_time record)
  || open_session (Attendance.second_check_in_time record)
                  (Attendance.second_check_out_time record).

(** Two record sets are disjoint when they share no row id. *)
Definition disjoint (A B : list Attendance.t) : Prop :=
  forall a b, In a A -> In b B -> Attendance.id a <> Attendance.id b.

End Spec.

(* ===================================================================== *)
(** * Scenarios *)
(* ===================================================================== *)

Module Scenario.

(** A roster of employee e1, active through 2024. *)
Definition roster (id : string) (start_time : option string)
           (grace_period : option Z) (shift_pattern : ShiftPattern)
           (created_at : Z) : Roster.t :=
  {| Roster.id := id;
     Roster.employee_id := "e1";
     Roster.start_date := Civil.ymd 2024 1 1;
     Roster.end_date := Civil.ymd 2024 12 31;
     Roster.start_time := start_time;
     Roster.end_time := Some "17:00"%string;
     Roster.break_duration := Some 60;
     Roster.early_departure_threshold := None;
     Roster.grace_period := grace_period;
     Roster.shift_pattern := shift_pattern;
     Roster.is_active := true;
     Roster.created_at := created_at |}.

(** An attendance row of employee [e] on 2024-03-20 with the given
    timestamps and nothing stored. *)
Definition attendance (id e : string)
           (first_in first_out second_in second_out : option Z) : Attendance.t :=
  {| Attendance.id := id;
     Attendance.employee_id := e;
     Attendance.date := Civil.ymd 2024 3 20;
     Attendance.first_check_in_time := first_in;
     Attendance.first_check_out_time := first_out;
     Attendance.second_check_in_time := second_in;
     Attendance.second_check_out_time := second_out;
     Attendance.minutes_late := None;
     Attendance.working_duration_minutes := None;
     Attendance.break_duration_minutes := None;
     Attendance.employees := None |}.

(** A stored row of the insights query: employee [e], date [d],
    [minutes_late]. *)
Definition row (id e : string) (d : Z) (minutes_late : option Q) : Attendance.t :=
  {| Attendance.id := id;
     Attendance.employee_id := e;
     Attendance.date := d;
     Attendance.first_check_in_time := None;
     Attendance.first_check_out_time := None;
     Attendance.second_check_in_time := None;
     Attendance.second_check_out_time := None;
     Attendance.minutes_late := minutes_late;
     Attendance.working_duration_minutes := Some 480%Q;
     Attendance.break_duration_minutes := None;
     Attendance.employees :=
       Some {| Employee.id := Some e; Employee.department_id := Some "d1"%string |} |}.

(** 2024-03-20 at [h]:[m] UTC. *)
Definition at_ (h m : Z) : Z := Civil.utc 2024 3 20 h m 0.

(** Start 08:00, grace period 15 minutes. *)
Definition roster_0800_grace_15 : Roster.t :=
  roster "r1" (Some "08:00"%string) (Some 15) SP_absent 0.

(** Start time "abc". *)
Definition roster_unparsable : Roster.t :=
  roster "r1" (Some "abc"%string) None SP_absent 0.

(** Two active rosters of the same employee: the older starts at 08:00,
    the newer at 09:00. *)
Definition older : Roster.t := roster "r1" (Some "08:00"%string) None SP_absent 1.
Definition newer : Roster.t := roster "r2" (Some "09:00"%string) None SP_absent 2.

(** Start 08:00, with the given shift pattern. *)
Definition roster_with_pattern (entries : list (option DailyShift.t)) : Roster.t :=
  roster "r1" (Some "08:00"%string) None (SP_array entries) 0.

(** First check-in at 08:00 and nothing else: an open first session. *)
Definition check_in_0800_open : Attendance.t :=
  attendance "a1" "e1" (Some (at_ 8 0)) None None None.

(** Two closed sessions: 08:00-12:00 and 13:00-17:00. *)
Definition two_sessions : Attendance.t :=
  attendance "a1" "e1" (Some (at_ 8 0)) (Some (at_ 12 0))
             (Some (at_ 13 0)) (Some (at_ 17 0)).

(** Out of order: first check-out at 12:00, second check-in at 11:00. *)
Definition back_before_out : Attendance.t :=
  attendance "a1" "e1" (Some (at_ 8 0)) (Some (at_ 12 0)) (Some (at_ 11 0)) None.

(** First check-in at 08:20. *)
Definition check_in_0820 : Attendance.t :=
  attendance "a1" "e1" (Some (at_ 8 20)) None None None.

(** 2024-03-24, a Sunday. *)
Definition sunday : Z := Civil.ymd 2024 3 24.

Definition off_by_date (d : Z) : DailyShift.t :=
  {| DailyShift.date := Some d; DailyShift.day := None;
     DailyShift.shift := Some "off"%string; DailyShift.time_slot := None |}.


Definition store (rosters : list Roster.t) : Supabase.Client :=
  {| Supabase.rosters := rosters; Supabase.health := Supabase.Up |}.

Definition monday : Z := Civil.ymd 2024 3 18.
Definition tuesday : Z := Civil.ymd 2024 3 19.

(** Record sets for the aggregator: one on-time row of employee e1 on
    Monday; one on-time row of employee e2 on Monday; one on-time row
    of employee e1 on Tuesday. *)
Definition monday_of_e1 : list Attendance.t := [row "a1" "e1" monday (Some 0%Q)].
Definition monday_of_e2 : list Attendance.t := [row "a2" "e2" monday (Some 0%Q)].
Definition tuesday_of_e1 : list Attendance.t := [row "b1" "e1" tuesday (Some 0%Q)].

(** One row whose stored [minutes_late] is -5. *)
Definition negative_minutes_late : list Attendance.t :=
  [row "a1" "e1" monday (Some (-5 # 1)%Q)].



(** Start 08:00; 2024-03-24 is marked off by date. *)
Definition sunday_off_by_date : Roster.t :=
  roster_with_pattern [Some (off_by_date sunday)].

End Scenario.


(** [attendance] with its first check-in replaced. *)
Definition with_first_check_in (t : option Z) (a : Attendance.t) : Attendance.t :=
  {| Attendance.id := Attendance.id a;
     Attendance.employee_id := Attendance.employee_id a;
     Attendance.date := Attendance.date a;
     Attendance.first_check_in_time := t;
     Attendance.first_check_out_time := Attendance.first_check_out_time a;
     Attendance.second_check_in_time := Attendance.second_check_in_time a;
     Attendance.second_check_out_time := Attendance.second_check_out_time a;
     Attendance.minutes_late := Attendance.minutes_late a;
     Attendance.working_duration_minutes := Attendance.working_duration_minutes a;
     Attendance.break_duration_minutes := Attendance.break_duration_minutes a;
     Attendance.employees := Attendance.employees a |}.

(** The value of an [IO] computation run on clock [c]. *)
Definition run {A : Type} (m : Time.IO A) (c : Time.Clock) : A := fst (runState m c).

(** The clock after an [IO] computation run on clock [c]. *)
Definition clock_after {A : Type} (m : Time.IO A) (c : Time.Clock) : Time.Clock :=
  snd (runState m c).

(** A JavaScript number that is a non-negative integer (so not [NaN]). *)
Definition nonneg (n : Js.number) : Prop :=
  match n with
  | Js.Num z => 0 <= z
  | Js.NaN => False
  end.

(* ===================================================================== *)
(** * Notions used in the statements *)
(* ===================================================================== *)

Module Notions.

(** Every character of a string is a decimal digit. *)
Fixpoint all_digits (s : string) : Prop :=
  match s with
  | EmptyString => True
  | String c rest => Js.digit c <> None /\ all_digits rest
  end.

(** The order of the severities of [getLateDurationInfo]. *)
Definition rank (s : LateDurationUtils.Severity) : Z :=
  match s with
  | LateDurationUtils.none => 0
  | LateDurationUtils.minor => 1
  | LateDurationUtils.major => 2
  | LateDurationUtils.critical => 3
  end.

(** A JavaScript number that may be fractional is not below 0 (and is
    not [NaN]). *)
Definition real_nonneg (r : Js.real) : Prop :=
  match r with
  | Js.Real q => (0 <= q)%Q
  | Js.RNaN => False
  end.

(** The entry of [optimizeShiftPattern] for a working day: the morning
    shift with its time slot. *)
Definition working_day (date : Z) : DailyShift.t :=
  {| DailyShift.date := Some date;
     DailyShift.day := None;
     DailyShift.shift :=
       Some (RosterRecreationService.shift_name RosterRecreationService.morning);
     DailyShift.time_slot :=
       Some (RosterRecreationService.generateTimeSlot RosterRecreationService.morning) |}.

(** Five working days, then a day off: the entry of the [i]-th day of a
    pattern that starts on [startDate]. *)
Definition five_on_one_off (startDate i : Z) : DailyShift.t :=
  if i mod 6 =? 5 then RosterRecreationService.day_off (startDate + i)
  else working_day (startDate + i).

(** The rows for which the report measures a session up to the clock:
    nothing (or 0) is stored as working duration, there is a first
    check-in, and the first check-out is missing or a second check-in
    has no check-out. *)
Definition measured_up_to_the_clock (record : Attendance.t) : bool :=
  Qeq_bool (Stored.or_zero (Attendance.working_duration_minutes record)) 0
  && match Attendance.first_check_in_time record with
     | Some _ =>
         match Attendance.first_check_out_time record with
         | None => true
         | Some _ =>
             Spec.open_session (Attendance.second_check_in_time record)
                               (Attendance.second_check_out_time record)
         end
     | None => false
     end.

(** A row of Monday 2024-03-18 with the given stored working duration. *)
Definition worked (id : string) (minutes : Q) : Attendance.t :=
  {| Attendance.id := id;
     Attendance.employee_id := "e1";
     Attendance.date := Scenario.monday;
     Attendance.first_check_in_time := None;
     Attendance.first_check_out_time := None;
     Attendance.second_check_in_time := None;
     Attendance.second_check_out_time := None;
     Attendance.minutes_late := None;
     Attendance.working_duration_minutes := Some minutes;
     Attendance.break_duration_minutes := None;
     Attendance.employees :=
       Some {| Employee.id := Some "e1"%string;
               Employee.department_id := Some "d1"%string |} |}.

(** Two one-hour sessions around a three-hour break: 08:00-09:00 and
    12:00-13:00. *)
Definition short_sessions_long_break : Attendance.t :=
  Scenario.attendance "a1" "e1"
                      (Some (Scenario.at_ 8 0)) (Some (Scenario.at_ 9 0))
                      (Some (Scenario.at_ 12 0)) (Some (Scenario.at_ 13 0)).

(** A store that refuses an update whose working duration is negative. *)
Definition refuses_negative_durations
           (id : string) (u : AttendanceDataRecreationService.Update.t)
  : AttendanceDataRecreationService.UpdateReply :=
  if Qle_bool 0 (AttendanceDataRecreationService.Update.working_duration_minutes u)
  then AttendanceDataRecreationService.Updated
  else AttendanceDataRecreationService.UpdateError "negative working_duration_minutes".

(** An entry of a shift pattern that is an object without a [day]. *)
Definition without_weekday (entry : option DailyShift.t) : Prop :=
  match entry with
  | Some s => DailyShift.day s = None
  | None => False
  end.

(** The pattern that [optimizeShiftPattern] gives for the week from
    Monday 2024-03-18. *)
Definition optimized_week : list DailyShift.t :=
  match RosterRecreationService.optimizeShiftPattern
          10 (Zone.constant 0) Scenario.monday (Scenario.monday + 6) "e1" "d1" with
  | Some pattern => pattern
  | None => []
  end.

(** A roster of employee e1 for that week that starts at 08:00 and
    carries the optimized pattern, as [recreateRoster] creates it. *)
Definition recreated_roster : Roster.t :=
  {| Roster.id := "r9";
     Roster.employee_id := "e1";
     Roster.start_date := Scenario.monday;
     Roster.end_date := Scenario.monday + 6;
     Roster.start_time := Some "08:00"%string;
     Roster.end_time := Some "17:00"%string;
     Roster.break_duration := Some 60;
     Roster.early_departure_threshold := None;
     Roster.grace_period := None;
     Roster.shift_pattern := SP_array (map Some optimized_week);
     Roster.is_active := true;
     Roster.created_at := 0 |}.

End Notions.

(* ===================================================================== *)
(** * Properties *)
(* ===================================================================== *)

(** ** Arithmetic and strings *)

Lemma max0_quot_div (x k : Z) :
  0 < k -> Z.max 0 (Z.quot x k) = Z.max 0 (x / k).
Proof.
  intros Hk.
  destruct (Z.le_gt_cases 0 x) as [Hx | Hx].
  - now rewrite Z.quot_div_nonneg by lia.
  - assert (Z.quot x k <= 0) by (apply Z.quot_le_upper_bound; nia).
    assert (x / k < 0) by (apply Z.div_lt_upper_bound; nia).
    lia.
Qed.

Lemma digit_range (c : ascii) (d : Z) :
  Js.digit c = Some d -> 0 <= d <= 9 /\ Ascii.eqb c ":" = false.
Proof.
  unfold Js.digit. cbv zeta.
  destruct (48 <=? Z.of_nat (nat_of_ascii c)) eqn:Hlo; [| discriminate].
  destruct (Z.of_nat (nat_of_ascii c) <=? 57) eqn:Hhi; [| discriminate].
  simpl. intros [= <-].
  apply Z.leb_le in Hlo, Hhi. split; [lia |].
  destruct (Ascii.eqb_spec c ":") as [-> | _]; [| reflexivity].
  simpl in Hhi. lia.
Qed.

Lemma two_digits_inv (a b : ascii) (v : Z) :
  Time.two_digits a b = Some v ->
  exists x y, Js.digit a = Some x /\ Js.digit b = Some y /\ v = 10 * x + y.
Proof.
  unfold Time.two_digits.
  destruct (Js.digit a) as [x |]; [| discriminate].
  destruct (Js.digit b) as [y |]; [| discriminate].
  intros [= <-]. now exists x, y.
Qed.

Lemma time_value_inv (h m s f : option Z) (ms : Z) :
  Time.time_value h m s f = Some ms ->
  exists h' m' s' f',
    h = Some h' /\ m = Some m' /\ s = Some s' /\ f = Some f'
    /\ ms = h' * Time.msPerHour + m' * Time.msPerMinute + s' * Time.msPerSecond + f'
    /\ s' <= 59.
Proof.
  unfold Time.time_value.
  destruct h as [h' |], m as [m' |], s as [s' |], f as [f' |]; try discriminate.
  destruct (_ || _) eqn:Hrange; [| discriminate].
  intros [= <-]. exists h', m', s', f'. repeat split; try reflexivity.
  apply orb_prop in Hrange as [H | H].
  - apply andb_prop in H as [_ H]. now apply Z.leb_le.
  - apply andb_prop in H as [H _]. apply andb_prop in H as [_ H].
    apply Z.eqb_eq in H. lia.
Qed.

Lemma three_digits_range (a b c : ascii) (v : Z) :
  Time.three_digits a b c = Some v -> 0 <= v <= 999.
Proof.
  unfold Time.three_digits.
  destruct (Js.digit a) as [x |] eqn:Ha; [| discriminate].
  destruct (Js.digit b) as [y |] eqn:Hb; [| discriminate].
  destruct (Js.digit c) as [z |] eqn:Hc; [| discriminate].
  intros H. assert (E : 100 * x + 10 * y + z = v) by congruence.
  apply digit_range in Ha as [Ha _].
  apply digit_range in Hb as [Hb _].
  apply digit_range in Hc as [Hc _]. lia.
Qed.

Lemma three_digits_inv (a b c : ascii) (v : Z) :
  Time.three_digits a b c = Some v ->
  exists x y z, Js.digit a = Some x /\ Js.digit b = Some y /\ Js.digit c = Some z
                /\ v = 100 * x + 10 * y + z.
Proof.
  unfold Time.three_digits.
  destruct (Js.digit a) as [x |]; [| discriminate].
  destruct (Js.digit b) as [y |]; [| discriminate].
  destruct (Js.digit c) as [z |]; [| discriminate].
  intros [= <-]. now exists x, y, z.
Qed.

Lemma Some_inj {A : Type} (a b : A) : Some a = Some b -> a = b.
Proof. congruence. Qed.

Ltac time_fields :=
  repeat match goal with
    | H : Time.time_value _ _ _ _ = Some _ |- _ =>
        apply time_value_inv in H as (? & ? & ? & ? & ? & ? & ? & ? & ? & ?)
    | H : Some _ = Some _ |- _ => apply Some_inj in H; subst
    | H : Time.two_digits _ _ = Some _ |- _ =>
        apply two_digits_inv in H as (? & ? & ? & ? & ?)
    | H : Time.three_digits _ _ _ = Some _ |- _ =>
        apply three_digits_inv in H as (? & ? & ? & ? & ? & ? & ?)
    | H : (_ && _)%bool = true |- _ => apply andb_prop in H as [? ?]
    | H : Ascii.eqb _ _ = true |- _ => apply Ascii.eqb_eq in H; subst
    end.

Ltac digit_facts :=
  repeat match goal with
    | H : Js.digit ?c = Some ?d |- _ =>
        let E := fresh "E" in let R := fresh "R" in
        pose proof (digit_range _ _ H) as [R E];
        revert H
    end; intros.

Ltac read_fields :=
  cbn [Js.split];
  repeat match goal with E : Ascii.eqb _ ":" = false |- _ => rewrite E; clear E end;
  cbn [Ascii.eqb Bool.eqb map Js.nth_number nth];
  unfold Js.Number; cbn [Js.digits_value];
  repeat match goal with H : Js.digit _ = Some _ |- _ => rewrite H; clear H end.

Ltac finish_fields :=
  do 3 eexists; split; [reflexivity |]; split; [reflexivity |];
  match goal with |- ?A = ?B + ?r /\ _ => unify r (A - B) end;
  unfold Time.msPerHour, Time.msPerMinute, Time.msPerSecond in *;
  split; lia.

(** What [start_time.split(':').map(Number)] reads in a well-formed time
    string: its hour and its minute. *)
Lemma split_of_time_string (s : string) (ms : Z) :
  Time.parseTimeOfDay s = Some ms ->
  exists h m rest,
    Js.nth_number 0 (map Js.Number (Js.split ":" s)) = Js.Num h
    /\ Js.nth_number 1 (map Js.Number (Js.split ":" s)) = Js.Num m
    /\ ms = h * Time.msPerHour + m * Time.msPerMinute + rest
    /\ 0 <= rest < Time.msPerMinute.
Proof.
  unfold Time.parseTimeOfDay.
  destruct s as [| h1 [| h2 [| c1 [| m1 [| m2 s]]]]]; try discriminate.
  destruct s as [| c2 [| s1 [| s2 s]]]; try discriminate.
  - (* HH:mm *)
    cbn [list_ascii_of_string].
    destruct (Ascii.eqb c1 ":") eqn:Hc1; [| discriminate].
    intros H. time_fields. digit_facts. read_fields. finish_fields.
  - destruct s as [| c3 [| f1 [| f2 [| f3 [| x s]]]]]; try discriminate.
    + (* HH:mm:ss *)
      cbn [list_ascii_of_string].
      destruct (Ascii.eqb c1 ":" && Ascii.eqb c2 ":")%bool eqn:Hc; [| discriminate].
      intros H. time_fields. digit_facts. read_fields. finish_fields.
    + (* HH:mm:ss.sss *)
      cbn [list_ascii_of_string].
      destruct (Ascii.eqb c1 ":" && Ascii.eqb c2 ":" && Ascii.eqb c3 ".")%bool eqn:Hc;
        [| discriminate].
      intros H. time_fields. digit_facts. read_fields. finish_fields.
Qed.

Lemma time_string_truthy (s : string) (ms : Z) :
  Time.parseTimeOfDay s = Some ms -> Js.truthy_string (Some s) = true.
Proof. destruct s; [discriminate | reflexivity]. Qed.

(** ** Lateness (C1) *)


Lemma calculateLateness_parsed (tz checkIn : Z) (attendance : Attendance.t)
      (roster : Roster.t) (start : string) (ms : Z) :
  Attendance.first_check_in_time attendance = Some checkIn ->
  Roster.start_time roster = Some start ->
  Time.parseTimeOfDay start = Some ms ->
  let rosterStart := Time.utcDay checkIn * Time.msPerDay + ms - tz in
  LateCalculation.calculateLateness tz attendance roster
  = if 0 <? checkIn - rosterStart then
      let lateMinutes := Js.Num ((checkIn - rosterStart) / 60000) in
      {| LateCalculation.isLate := true;
         LateCalculation.lateMinutes := lateMinutes;
         LateCalculation.lateHours := Js.floor_div lateMinutes 60;
         LateCalculation.lateDisplay :=
           (Js.toString (Js.floor_div lateMinutes 60) ++ "h "
            ++ Js.toString (Js.rem lateMinutes 60) ++ "m")%string |}
    else LateCalculation.defaultResult.
Proof.
  intros Hin Hstart Hparse rosterStart.
  unfold LateCalculation.calculateLateness.
  rewrite Hin, Hstart, (time_string_truthy _ _ Hparse).
  unfold Time.Date_of_local. rewrite Hparse.
  cbn [negb Js.sub Js.gt Js.floor_div].
  reflexivity.
Qed.

Lemma calculateLateDuration_parsed (tz checkIn : Z) (roster : Roster.t)
      (start : string) (ms : Z) (clock : Time.Clock) :
  Roster.start_time roster = Some start ->
  Time.parseTimeOfDay start = Some ms ->
  let rosterStart :=
    Time.localDay tz checkIn * Time.msPerDay
    + ms / Time.msPerMinute * Time.msPerMinute - tz in
  let lateMinutes := Js.Num (Z.max 0 (Z.quot (checkIn - rosterStart) 60000)) in
  run (LateDurationUtils.calculateLateDuration tz checkIn roster) clock
  = {| LateDurationUtils.isLate := Js.gt lateMinutes (Js.Num 0);
       LateDurationUtils.lateMinutes := lateMinutes;
       LateDurationUtils.actualCheckInTime := Js.Num checkIn;
       LateDurationUtils.rosterStartTime := Js.Num rosterStart;
       LateDurationUtils.gracePeriodUsed := 0;
       LateDurationUtils.formattedLateDuration :=
         LateDurationUtils.formatLateDuration lateMinutes |}.
Proof.
  intros Hstart Hparse rosterStart lateMinutes.
  destruct (split_of_time_string _ _ Hparse) as (h & m & rest & Hh & Hm & Hms & Hrest).
  assert (Hwhole : ms / Time.msPerMinute * Time.msPerMinute
                   = h * Time.msPerHour + m * Time.msPerMinute).
  { unfold Time.msPerHour, Time.msPerMinute in *.
    replace ms with (rest + (h * 60 + m) * (1000 * 60)) by lia.
    rewrite Z.div_add by lia. rewrite (Z.div_small rest) by lia. lia. }
  unfold LateDurationUtils.calculateLateDuration, run.
  rewrite Hstart. cbv zeta. rewrite Hh, Hm.
  unfold Time.setHours, Time.differenceInMinutes.
  cbn [runState ret Monad_state fst Js.Math_max].
  subst lateMinutes rosterStart. rewrite Hwhole, Z.add_assoc.
  reflexivity.
Qed.




(** The siblings that do apply a grace period: [isEmployeeLate] and the
    [minutes_late] column of the [attendance_display] view give "not
    late" and 5 minutes on the input above. *)
Remark grace_period_in_the_sibling_calculators :
  LateCalculation.isEmployeeLate 0 (Scenario.at_ 8 20) "08:00" (Some 15) None = true
  /\ LateCalculation.isEmployeeLate 0 (Scenario.at_ 8 10) "08:00" (Some 15) None = false
  /\ (AttendanceDisplay.minutes_late 0 (Some (Scenario.at_ 8 20)) (Some 28800000%Z)
                                     (Some 15%Z) == 5)%Q.
Proof. repeat split. Qed.

(** The cases of [lateCalculation.test.ts], run in the zone UTC. *)
Example test_calculateLateness_before_start :
  LateCalculation.calculateLateness
    0 (with_first_check_in (Some (Scenario.at_ 7 45)) Scenario.check_in_0820)
    Scenario.roster_0800_grace_15
  = LateCalculation.defaultResult.
Proof. reflexivity. Qed.

Example test_calculateLateness_after_start :
  LateCalculation.calculateLateness
    0 (with_first_check_in (Some (Scenario.at_ 8 30)) Scenario.check_in_0820)
    Scenario.roster_0800_grace_15
  = {| LateCalculation.isLate := true;
       LateCalculation.lateMinutes := Js.Num 30;
       LateCalculation.lateHours := Js.Num 0;
       LateCalculation.lateDisplay := "0h 30m" |}.
Proof. reflexivity. Qed.

Example test_calculateLateness_hours :
  LateCalculation.calculateLateness
    0 (with_first_check_in (Some (Scenario.at_ 10 15)) Scenario.check_in_0820)
    Scenario.roster_0800_grace_15
  = {| LateCalculation.isLate := true;
       LateCalculation.lateMinutes := Js.Num 135;
       LateCalculation.lateHours := Js.Num 2;
       LateCalculation.lateDisplay := "2h 15m" |}.
Proof. reflexivity. Qed.

Example test_calculateLateness_missing_check_in :
  LateCalculation.calculateLateness
    0 (with_first_check_in None Scenario.check_in_0820) Scenario.roster_0800_grace_15
  = LateCalculation.defaultResult.
Proof. reflexivity. Qed.

Example test_isEmployeeLate :
  LateCalculation.isEmployeeLate 0 (Scenario.at_ 7 45) "08:00" (Some 0) None = false
  /\ LateCalculation.isEmployeeLate 0 (Scenario.at_ 8 15) "08:00" (Some 0) None = true
  /\ LateCalculation.isEmployeeLate 0 (Scenario.at_ 8 5) "08:00" (Some 10) None = false
  /\ LateCalculation.isEmployeeLate 0 (Scenario.at_ 8 11) "08:00" (Some 10) None = true
  /\ LateCalculation.isEmployeeLate 0 (Scenario.at_ 6 31) "06:30" (Some 0) None = true
  /\ LateCalculation.isEmployeeLate 0 (Scenario.at_ 14 0) "14:00" (Some 0) None = false.
Proof. repeat split. Qed.

(** ** Working time (C2, C3, C8) *)

Lemma minutes_nonneg (ms : Z) : 0 <= ms -> (0 <= Stored.minutes ms)%Q.
Proof.
  intros H. unfold Stored.minutes, Qle, Qdiv, Qmult, Qinv. simpl. lia.
Qed.

Lemma minutes_nonpos (ms : Z) : ms <= 0 -> (Stored.minutes ms <= 0)%Q.
Proof.
  intros H. unfold Stored.minutes, Qle, Qdiv, Qmult, Qinv. simpl. lia.
Qed.

Lemma Qmax0_nonneg (q : Q) : (0 <= Qmax 0 q)%Q.
Proof. apply Q.le_max_l. Qed.

Lemma clamp_minutes (ms : Z) :
  (Qmax 0 (Stored.minutes ms) == if 0 <? ms then Stored.minutes ms else 0)%Q.
Proof.
  destruct (Z.ltb_spec 0 ms).
  - apply Q.max_r, minutes_nonneg. lia.
  - apply Q.max_l, minutes_nonpos. lia.
Qed.

Lemma calculateWorkingTime_run
      (firstCheckIn firstCheckOut secondCheckIn secondCheckOut : option Z)
      (clock : Time.Clock) :
  let w := run (AttendanceDataRecreationService.calculateWorkingTime
                  firstCheckIn firstCheckOut secondCheckIn secondCheckOut) clock in
  (AttendanceDataRecreationService.totalMinutes w
   == Spec.closedSession firstCheckIn firstCheckOut
      + Spec.closedSession secondCheckIn secondCheckOut)%Q
  /\ AttendanceDataRecreationService.breakMinutes w
     = match firstCheckOut, secondCheckIn with
       | Some out, Some back => Qmax 0 (Stored.minutes (back - out))
       | _, _ => 0%Q
       end.
Proof.
  unfold run, AttendanceDataRecreationService.calculateWorkingTime, Spec.closedSession.
  cbn [runState ret Monad_state fst].
  split; [| reflexivity].
  cbn [AttendanceDataRecreationService.totalMinutes].
  destruct firstCheckIn, firstCheckOut, secondCheckIn, secondCheckOut; ring.
Qed.

(** C2 (as amended).  [calculateWorkingTime] returns the break between
    first check-out and second check-in when both exist and are in
    order, else 0, and as worked minutes ([totalMinutes]) the sum of the
    durations of the closed sessions, each clamped at 0; a session
    without check-out counts 0, as the calculator has no "now".  For a
    day of two closed, well-ordered sessions this is the sum of the two
    session durations; 08:00-12:00 and 13:00-17:00 give a break of 60
    and 480 worked minutes. *)
Theorem working_time_counts_closed_sessions
        (firstCheckIn firstCheckOut secondCheckIn secondCheckOut : option Z)
        (clock : Time.Clock) :
  let w := run (AttendanceDataRecreationService.calculateWorkingTime
                  firstCheckIn firstCheckOut secondCheckIn secondCheckOut) clock in
  let scenario :=
    run (AttendanceDataRecreationService.calculateWorkingTime
           (Some (Scenario.at_ 8 0)) (Some (Scenario.at_ 12 0))
           (Some (Scenario.at_ 13 0)) (Some (Scenario.at_ 17 0))) clock in
  (AttendanceDataRecreationService.breakMinutes w
   == Spec.breakMinutes firstCheckOut secondCheckIn)%Q
  /\ (AttendanceDataRecreationService.totalMinutes w
      == Spec.closedSession firstCheckIn firstCheckOut
         + Spec.closedSession secondCheckIn secondCheckOut)%Q
  /\ (forall now a b c d,
         firstCheckIn = Some a -> firstCheckOut = Some b ->
         secondCheckIn = Some c -> secondCheckOut = Some d ->
         a <= b -> c <= d ->
         (AttendanceDataRecreationService.totalMinutes w
          == Spec.workedMinutes now firstCheckIn firstCheckOut
                                secondCheckIn secondCheckOut)%Q)
  /\ (AttendanceDataRecreationService.breakMinutes scenario == 60)%Q
  /\ (AttendanceDataRecreationService.totalMinutes scenario == 480)%Q.
Proof.
  intros w scenario.
  destruct (calculateWorkingTime_run firstCheckIn firstCheckOut
                                     secondCheckIn secondCheckOut clock)
    as [Htotal Hbreak].
  fold w in Htotal, Hbreak.
  split; [| split; [exact Htotal | split; [| split; reflexivity]]].
  - rewrite Hbreak. unfold Spec.breakMinutes.
    destruct firstCheckOut as [out |], secondCheckIn as [back |];
      try reflexivity.
    rewrite clamp_minutes.
    destruct (Z.ltb_spec 0 (back - out)), (Z.ltb_spec out back);
      try reflexivity; lia.
  - intros now a b c d -> -> -> -> Hab Hcd.
    rewrite Htotal. unfold Spec.workedMinutes, Spec.closedSession, Spec.session.
    rewrite (Q.max_r 0 (Stored.minutes (b - a))) by (apply minutes_nonneg; lia).
    rewrite (Q.max_r 0 (Stored.minutes (d - c))) by (apply minutes_nonneg; lia).
    reflexivity.
Qed.

Lemma working_time_counts_closed_sessions_witness :
  Scenario.at_ 8 0 <= Scenario.at_ 12 0
  /\ Scenario.at_ 13 0 <= Scenario.at_ 17 0
  /\ (AttendanceDataRecreationService.totalMinutes
        (run (AttendanceDataRecreationService.calculateWorkingTime
                (Some (Scenario.at_ 8 0)) (Some (Scenario.at_ 12 0))
                (Some (Scenario.at_ 13 0)) (Some (Scenario.at_ 17 0)))
             (Time.stopped_at 0))
      == Spec.workedMinutes 0 (Some (Scenario.at_ 8 0)) (Some (Scenario.at_ 12 0))
                            (Some (Scenario.at_ 13 0)) (Some (Scenario.at_ 17 0)))%Q.
Proof.
  split; [discriminate |]. split; [discriminate |].
  refine (proj1 (proj2 (proj2 (working_time_counts_closed_sessions
                                 (Some (Scenario.at_ 8 0)) (Some (Scenario.at_ 12 0))
                                 (Some (Scenario.at_ 13 0)) (Some (Scenario.at_ 17 0))
                                 (Time.stopped_at 0))))
                0 _ _ _ _ eq_refl eq_refl eq_refl eq_refl _ _); discriminate.
Defined.

(** C2, counterexample.  A first check-in at 08:00 without check-out,
    looked at when it is 09:00: the specification counts the open session
    (60 minutes), the calculator returns 0 worked minutes. *)
Lemma open_session_counts_zero :
  (AttendanceDataRecreationService.totalMinutes
     (run (AttendanceDataRecreationService.calculateWorkingTime
             (Some (Scenario.at_ 8 0)) None None None)
          (Time.stopped_at (Scenario.at_ 9 0))) == 0)%Q
  /\ (Spec.workedMinutes (Scenario.at_ 9 0) (Some (Scenario.at_ 8 0)) None None None
      == 60)%Q
  /\ ~ (AttendanceDataRecreationService.totalMinutes
          (run (AttendanceDataRecreationService.calculateWorkingTime
                  (Some (Scenario.at_ 8 0)) None None None)
               (Time.stopped_at (Scenario.at_ 9 0)))
        == Spec.workedMinutes (Scenario.at_ 9 0) (Some (Scenario.at_ 8 0))
                              None None None)%Q.
Proof.
  split; [reflexivity |]. split; [reflexivity |].
  vm_compute. discriminate.
Qed.

(** [netWorkingMinutes], the third field of the result, subtracts the
    break from the sum of the sessions, although that sum does not
    contain it: two one-hour sessions around a three-hour break give
    -60.  (This is the field [recreateAttendanceData] stores as
    [working_duration_minutes].) *)
Remark netWorkingMinutes_double_counts_the_break :
  (AttendanceDataRecreationService.netWorkingMinutes
     (run (AttendanceDataRecreationService.calculateWorkingTime
             (Some (Scenario.at_ 8 0)) (Some (Scenario.at_ 9 0))
             (Some (Scenario.at_ 12 0)) (Some (Scenario.at_ 13 0)))
          (Time.stopped_at 0)) == -60)%Q.
Proof. reflexivity. Qed.

(** The fallback of the report does not clamp: for a second check-in
    at 11:00 before a first check-out at 12:00 it shows a break of -1
    hour. *)
Remark report_break_is_not_clamped :
  (PresentEmployeeReport.break_hours
     (run (PresentEmployeeReport.processRecord Scenario.back_before_out)
          (Time.stopped_at (Scenario.at_ 13 0))) == -1)%Q.
Proof. reflexivity. Qed.

Lemma late_branch_nonneg (timeDifference : Js.number) :
  nonneg (if Js.gt timeDifference (Js.Num 0)
          then Js.floor_div timeDifference (1000 * 60)
          else Js.Num 0).
Proof.
  destruct timeDifference as [td |]; cbn; [| lia].
  destruct (Z.ltb_spec 0 td); cbn; [| lia].
  apply Z.div_pos; lia.
Qed.

Lemma calculateLateness_nonneg (tz : Z) (attendance : Attendance.t) (roster : Roster.t) :
  nonneg (LateCalculation.lateMinutes
            (LateCalculation.calculateLateness tz attendance roster)).
Proof.
  unfold LateCalculation.calculateLateness.
  destruct (Attendance.first_check_in_time attendance) as [checkIn |]; [| cbn; lia].
  destruct (negb _); [cbn; lia |].
  destruct (Roster.start_time roster) as [start |]; [| cbn; lia].
  cbv zeta.
  pose proof (late_branch_nonneg
                (Js.sub (Js.Num checkIn)
                        (Time.Date_of_local tz (Time.utcDay checkIn) start))) as H.
  destruct (Js.gt _ _); [exact H | cbn; lia].
Qed.

Lemma calculateRosterBasedLateness_nonneg
      (tz : Z) (supabase : Supabase.Client) (employeeId : string) (checkIn date : Z) :
  nonneg (RosterUtils.calculateRosterBasedLateness tz supabase employeeId checkIn date).
Proof.
  unfold RosterUtils.calculateRosterBasedLateness.
  destruct (RosterUtils.getEmployeeRosterForDate _ _ _) as [roster |]; [| cbn; lia].
  destruct (RosterUtils.getShiftForDate roster date) as [shift |]; [| cbn; lia].
  destruct (match DailyShift.shift shift with Some _ => _ | None => _ end);
    [cbn; lia |].
  cbv zeta.
  destruct (negb _); [cbn; lia |].
  destruct (RosterUtils.or_string _ _) as [start |]; [| cbn; lia].
  apply late_branch_nonneg.
Qed.

(** The metrics that the code clamps are never negative: the sum of the
    sessions ([totalMinutes]) and the break minutes of
    [calculateWorkingTime] for any combination of timestamps; late
    minutes of [calculateLateness] and of [calculateRosterBasedLateness];
    early-departure minutes and late minutes of the [attendance_display]
    view.  The late minutes of [calculateLateDuration] are [NaN] or not
    negative, and not negative for a roster whose start time is a
    well-formed time string or is missing. *)
Lemma clamped_metrics_are_nonnegative
        (tz : Z) (clock : Time.Clock)
        (firstCheckIn firstCheckOut secondCheckIn secondCheckOut : option Z)
        (checkIn : Z) (attendance : Attendance.t) (roster : Roster.t)
        (supabase : Supabase.Client) (employeeId : string) (date : Z)
        (start_time end_time grace_period early_departure_threshold : option Z) :
  let w := run (AttendanceDataRecreationService.calculateWorkingTime
                  firstCheckIn firstCheckOut secondCheckIn secondCheckOut) clock in
  let d := run (LateDurationUtils.calculateLateDuration tz checkIn roster) clock in
  (0 <= AttendanceDataRecreationService.totalMinutes w)%Q
  /\ (0 <= AttendanceDataRecreationService.breakMinutes w)%Q
  /\ nonneg (LateCalculation.lateMinutes
               (LateCalculation.calculateLateness tz attendance roster))
  /\ nonneg (RosterUtils.calculateRosterBasedLateness
               tz supabase employeeId checkIn date)
  /\ (LateDurationUtils.lateMinutes d = Js.NaN
      \/ nonneg (LateDurationUtils.lateMinutes d))
  /\ (forall start ms,
         Roster.start_time roster = Some start ->
         Time.parseTimeOfDay start = Some ms ->
         nonneg (LateDurationUtils.lateMinutes d))
  /\ (Roster.start_time roster = None ->
      nonneg (LateDurationUtils.lateMinutes d))
  /\ (0 <= AttendanceDisplay.minutes_late tz firstCheckIn start_time grace_period)%Q
  /\ (0 <= AttendanceDisplay.early_departure_minutes
             tz firstCheckOut end_time early_departure_threshold)%Q.
Proof.
  intros w d.
  destruct (calculateWorkingTime_run firstCheckIn firstCheckOut
                                     secondCheckIn secondCheckOut clock)
    as [Htotal Hbreak].
  fold w in Htotal, Hbreak.
  split; [| split; [| split; [| split; [| split; [| split; [| split; [| split]]]]]]].
  - rewrite Htotal. unfold Spec.closedSession.
    destruct firstCheckIn, firstCheckOut, secondCheckIn, secondCheckOut;
      repeat match goal with
        | |- context [Qmax 0 ?q] =>
            let H := fresh in pose proof (Qmax0_nonneg q) as H; revert H;
            generalize (Qmax 0 q); intros ? ?
        end;
      try apply Qle_refl.
    all: try (rewrite Qplus_0_l + rewrite Qplus_0_r; assumption).
    change 0%Q with (0 + 0)%Q. apply Qplus_le_compat; assumption.
  - rewrite Hbreak.
    destruct firstCheckOut, secondCheckIn;
      try apply Qle_refl; apply Qmax0_nonneg.
  - apply calculateLateness_nonneg.
  - apply calculateRosterBasedLateness_nonneg.
  - subst d. unfold run, LateDurationUtils.calculateLateDuration.
    destruct (Roster.start_time roster) as [start |]; [| right; cbn; lia].
    cbn [runState ret Monad_state fst LateDurationUtils.lateMinutes].
    destruct (Time.differenceInMinutes _ _) as [m |]; [| now left].
    right. cbn. lia.
  - intros start ms Hstart Hparse. subst d.
    rewrite (calculateLateDuration_parsed tz checkIn roster start ms clock Hstart Hparse).
    cbn. lia.
  - intros Hstart. subst d. unfold run, LateDurationUtils.calculateLateDuration.
    rewrite Hstart. cbn. lia.
  - unfold AttendanceDisplay.minutes_late.
    destruct firstCheckIn, start_time; try apply Qle_refl; apply Qmax0_nonneg.
  - unfold AttendanceDisplay.early_departure_minutes.
    destruct firstCheckOut, end_time; try apply Qle_refl; apply Qmax0_nonneg.
Qed.

Lemma clamped_metrics_are_nonnegative_witness :
  Roster.start_time Scenario.roster_0800_grace_15 = Some "08:00"%string
  /\ Time.parseTimeOfDay "08:00" = Some 28800000
  /\ nonneg (LateDurationUtils.lateMinutes
               (run (LateDurationUtils.calculateLateDuration
                       0 (Scenario.at_ 8 20) Scenario.roster_0800_grace_15)
                    (Time.stopped_at 0))).
Proof.
  split; [reflexivity |]. split; [reflexivity |].
  exact (proj1 (proj2 (proj2 (proj2 (proj2 (proj2
           (clamped_metrics_are_nonnegative
              0 (Time.stopped_at 0) None None None None (Scenario.at_ 8 20)
              Scenario.check_in_0820 Scenario.roster_0800_grace_15
              (Scenario.store []) "e1" 0 None None None None))))))
           "08:00"%string 28800000 eq_refl eq_refl).
Defined.

(** C3, the failing input.  Two one-hour sessions around a three-hour
    break (08:00-09:00 and 12:00-13:00, timestamps in order): the
    sessions add up to 120 minutes and the break is 180, each clamped at
    0, but [netWorkingMinutes], their difference, is returned as -60 and
    [recreateAttendanceData] sends it to the store as
    [working_duration_minutes] (a store that refuses a negative duration
    reports the row).  And for a roster whose start time is "abc" the
    late minutes of [calculateLateDuration] are [NaN], which is not a
    number from 0 on. *)
Theorem net_working_minutes_go_negative :
  let w := run (AttendanceDataRecreationService.calculateWorkingTime
                  (Some (Scenario.at_ 8 0)) (Some (Scenario.at_ 9 0))
                  (Some (Scenario.at_ 12 0)) (Some (Scenario.at_ 13 0)))
               (Time.stopped_at 0) in
  (AttendanceDataRecreationService.totalMinutes w == 120)%Q
  /\ (AttendanceDataRecreationService.breakMinutes w == 180)%Q
  /\ (AttendanceDataRecreationService.netWorkingMinutes w == -60)%Q
  /\ ~ (0 <= AttendanceDataRecreationService.netWorkingMinutes w)%Q
  /\ run (AttendanceDataRecreationService.recreateAttendanceData
            0 (fun _ => RosterUtils.Return None) Notions.refuses_negative_durations
            (Supabase.Answer
               (Some [ {| AttendanceDataRecreationService.record :=
                            Notions.short_sessions_long_break;
                          AttendanceDataRecreationService.roster_id := None |} ])
               false))
         (Time.stopped_at 0)
     = RosterUtils.Return
         {| AttendanceDataRecreationService.totalRecords := 1;
            AttendanceDataRecreationService.optimizedRecords := 0;
            AttendanceDataRecreationService.errors :=
              ["Failed to update record a1: negative working_duration_minutes"%string] |}
  /\ LateDurationUtils.lateMinutes
       (run (LateDurationUtils.calculateLateDuration
               0 (Scenario.at_ 8 30) Scenario.roster_unparsable)
            (Time.stopped_at 0))
     = Js.NaN
  /\ ~ nonneg (LateDurationUtils.lateMinutes
                 (run (LateDurationUtils.calculateLateDuration
                         0 (Scenario.at_ 8 30) Scenario.roster_unparsable)
                      (Time.stopped_at 0))).
Proof.
  cbv zeta.
  split; [reflexivity |]. split; [reflexivity |]. split; [reflexivity |].
  split; [vm_compute; intros H; apply H; reflexivity |].
  split; [reflexivity |]. split; [reflexivity |].
  intros H. exact H.
Qed.

(** ** The wall clock (C8) *)

Lemma processRecord_without_open_session (record : Attendance.t) (c1 c2 : Time.Clock) :
  Spec.has_open_session record = false ->
  run (PresentEmployeeReport.processRecord record) c1
  = run (PresentEmployeeReport.processRecord record) c2.
Proof.
  unfold Spec.has_open_session, Spec.open_session, run,
    PresentEmployeeReport.processRecord.
  intros H.
  destruct (Qeq_bool (Stored.or_zero (Attendance.working_duration_minutes record)) 0);
    [| reflexivity].
  destruct (Attendance.first_check_in_time record),
           (Attendance.first_check_out_time record),
           (Attendance.second_check_in_time record),
           (Attendance.second_check_out_time record);
    try discriminate H; reflexivity.
Qed.

Lemma processRecord_with_stored_duration (record : Attendance.t) (c1 c2 : Time.Clock) :
  Qeq_bool (Stored.or_zero (Attendance.working_duration_minutes record)) 0 = false ->
  run (PresentEmployeeReport.processRecord record) c1
  = run (PresentEmployeeReport.processRecord record) c2.
Proof.
  unfold run, PresentEmployeeReport.processRecord.
  intros ->. reflexivity.
Qed.

Lemma minutesBetween_mono (a b t : Z) :
  a <= b -> Time.minutesBetween a t <= Time.minutesBetween b t.
Proof.
  intros H. unfold Time.minutesBetween, Time.msPerMinute.
  apply Z.quot_le_mono; lia.
Qed.

Lemma minutesBetween_at_check_in (t : Z) :
  Time.minutesBetween t t = 0 /\ Time.minutesBetween (t + 60000) t = 1.
Proof.
  unfold Time.minutesBetween, Time.msPerMinute.
  rewrite Z.sub_diag. replace (t + 60000 - t) with 60000 by lia.
  split; reflexivity.
Qed.

Lemma distinct_minutes (a b : Z) : a < b -> ~ (inject_Z a == inject_Z b)%Q.
Proof. intros H E. unfold Qeq in E. cbn in E. lia. Qed.

(** A row that the report does not measure up to the clock: the clock
    is not read. *)
Lemma processRecord_not_measured (record : Attendance.t) :
  Notions.measured_up_to_the_clock record = false ->
  forall c1 c2,
    run (PresentEmployeeReport.processRecord record) c1
    = run (PresentEmployeeReport.processRecord record) c2
    /\ clock_after (PresentEmployeeReport.processRecord record) c1 = c1.
Proof.
  unfold Notions.measured_up_to_the_clock, Spec.open_session, run, clock_after,
    PresentEmployeeReport.processRecord.
  intros H c1 c2.
  destruct (Qeq_bool (Stored.or_zero (Attendance.working_duration_minutes record)) 0);
    [| split; reflexivity].
  destruct (Attendance.first_check_in_time record),
           (Attendance.first_check_out_time record),
           (Attendance.second_check_in_time record),
           (Attendance.second_check_out_time record);
    try discriminate H; split; reflexivity.
Qed.

(** A row that the report measures up to the clock: one minute after
    the latest open check-in the working time is larger than at that
    check-in. *)
Lemma processRecord_measured (record : Attendance.t) :
  Notions.measured_up_to_the_clock record = true ->
  exists now1 now2,
    ~ (PresentEmployeeReport.working_duration
         (run (PresentEmployeeReport.processRecord record) (Time.stopped_at now1))
       == PresentEmployeeReport.working_duration
            (run (PresentEmployeeReport.processRecord record) (Time.stopped_at now2)))%Q.
Proof.
  unfold Notions.measured_up_to_the_clock, Spec.open_session, run,
    PresentEmployeeReport.processRecord, Time.new_Date, Time.stopped_at.
  intros H. apply andb_prop in H as [Hzero H]. rewrite Hzero.
  destruct (Attendance.first_check_in_time record) as [checkIn |]; [| discriminate].
  destruct (Attendance.first_check_out_time record) as [firstOut |],
           (Attendance.second_check_in_time record) as [secondIn |],
           (Attendance.second_check_out_time record) as [secondOut |];
    try discriminate H.
  - (* the second session is open *)
    exists secondIn, (secondIn + 60000).
    cbn [bind ret Monad_state runState get put MonadState_state fst snd
         PresentEmployeeReport.working_duration Time.readings Time.reads].
    destruct (minutesBetween_at_check_in secondIn) as [-> ->].
    apply distinct_minutes. lia.
  - (* the first session is open, the second is closed *)
    exists checkIn, (checkIn + 60000).
    cbn [bind ret Monad_state runState get put MonadState_state fst snd
         PresentEmployeeReport.working_duration Time.readings Time.reads].
    destruct (minutesBetween_at_check_in checkIn) as [-> ->].
    apply distinct_minutes. lia.
  - (* both sessions are open *)
    exists (Z.max checkIn secondIn), (Z.max checkIn secondIn + 60000).
    cbn [bind ret Monad_state runState get put MonadState_state fst snd
         PresentEmployeeReport.working_duration Time.readings Time.reads].
    apply distinct_minutes.
    pose proof (minutesBetween_mono (Z.max checkIn secondIn)
                  (Z.max checkIn secondIn + 60000) checkIn ltac:(lia)).
    pose proof (minutesBetween_mono (Z.max checkIn secondIn)
                  (Z.max checkIn secondIn + 60000) secondIn ltac:(lia)).
    destruct (Z.max_spec checkIn secondIn) as [[_ E] | [_ E]]; rewrite E in *.
    + destruct (minutesBetween_at_check_in secondIn) as [E0 E1].
      rewrite E0, E1 in *. lia.
    + destruct (minutesBetween_at_check_in checkIn) as [E0 E1].
      rewrite E0, E1 in *. lia.
  - (* the first session is open, there is no second check-in *)
    exists checkIn, (checkIn + 60000).
    cbn [bind ret Monad_state runState get put MonadState_state fst snd
         PresentEmployeeReport.working_duration Time.readings Time.reads].
    destruct (minutesBetween_at_check_in checkIn) as [-> ->].
    apply distinct_minutes. lia.
  - exists checkIn, (checkIn + 60000).
    cbn [bind ret Monad_state runState get put MonadState_state fst snd
         PresentEmployeeReport.working_duration Time.readings Time.reads].
    destruct (minutesBetween_at_check_in checkIn) as [-> ->].
    apply distinct_minutes. lia.
Qed.

(** C8 (as amended).  [calculateWorkingTime] takes no "now" and never
    reads the wall clock: its result is the same on any two clocks, and
    the clock is left as it was.  The report ([fetchPresentEmployees])
    reads the wall clock for its working time, exactly for the rows it
    measures up to the clock (nothing or 0 stored as working duration, a
    first check-in, and the first check-out missing or a second
    check-in without check-out): for every other row the result is the
    same on any two clocks and the clock is not read; for such a row
    there are two clock readings with different working times.  The
    break and the late minutes of the report are the same on any two
    clocks. *)
Theorem working_time_and_the_wall_clock
        (firstCheckIn firstCheckOut secondCheckIn secondCheckOut : option Z)
        (record : Attendance.t) :
  let calc := AttendanceDataRecreationService.calculateWorkingTime
                firstCheckIn firstCheckOut secondCheckIn secondCheckOut in
  (forall c1 c2, run calc c1 = run calc c2)
  /\ (forall c, clock_after calc c = c)
  /\ (forall c1 c2,
         PresentEmployeeReport.break_hours
           (run (PresentEmployeeReport.processRecord record) c1)
         = PresentEmployeeReport.break_hours
             (run (PresentEmployeeReport.processRecord record) c2)
         /\ PresentEmployeeReport.late_minutes
              (run (PresentEmployeeReport.processRecord record) c1)
            = PresentEmployeeReport.late_minutes
                (run (PresentEmployeeReport.processRecord record) c2))
  /\ (Notions.measured_up_to_the_clock record = false ->
      forall c1 c2,
        run (PresentEmployeeReport.processRecord record) c1
        = run (PresentEmployeeReport.processRecord record) c2
        /\ clock_after (PresentEmployeeReport.processRecord record) c1 = c1)
  /\ (Notions.measured_up_to_the_clock record = true ->
      exists now1 now2,
        ~ (PresentEmployeeReport.working_duration
             (run (PresentEmployeeReport.processRecord record) (Time.stopped_at now1))
           == PresentEmployeeReport.working_duration
                (run (PresentEmployeeReport.processRecord record)
                     (Time.stopped_at now2)))%Q).
Proof.
  intros calc.
  split; [reflexivity |]. split; [reflexivity |].
  split; [| split; [apply processRecord_not_measured | apply processRecord_measured]].
  intros c1 c2.
  unfold run, PresentEmployeeReport.processRecord, Time.new_Date. cbv zeta.
  destruct (Qeq_bool (Stored.or_zero (Attendance.working_duration_minutes record)) 0);
    [| split; reflexivity].
  destruct (Attendance.first_check_in_time record); [| split; reflexivity].
  destruct (Attendance.first_check_out_time record),
           (Attendance.second_check_in_time record),
           (Attendance.second_check_out_time record);
    split; reflexivity.
Qed.

Lemma working_time_and_the_wall_clock_witness :
  Notions.measured_up_to_the_clock Scenario.two_sessions = false
  /\ run (PresentEmployeeReport.processRecord Scenario.two_sessions)
         (Time.stopped_at (Scenario.at_ 18 0))
     = run (PresentEmployeeReport.processRecord Scenario.two_sessions)
           (Time.stopped_at (Scenario.at_ 19 0))
  /\ Notions.measured_up_to_the_clock Scenario.check_in_0800_open = true
  /\ exists now1 now2,
       ~ (PresentEmployeeReport.working_duration
            (run (PresentEmployeeReport.processRecord Scenario.check_in_0800_open)
                 (Time.stopped_at now1))
          == PresentEmployeeReport.working_duration
               (run (PresentEmployeeReport.processRecord Scenario.check_in_0800_open)
                    (Time.stopped_at now2)))%Q.
Proof.
  split; [reflexivity |]. split.
  - exact (proj1 (proj1 (proj2 (proj2 (proj2
             (working_time_and_the_wall_clock
                None None None None Scenario.two_sessions))))
             eq_refl
             (Time.stopped_at (Scenario.at_ 18 0))
             (Time.stopped_at (Scenario.at_ 19 0)))).
  - split; [reflexivity |].
    exact (proj2 (proj2 (proj2 (proj2
             (working_time_and_the_wall_clock
                None None None None Scenario.check_in_0800_open))))
             eq_refl).
Defined.

(** C8, counterexample.  The report's working time of a row with an open
    first session (check-in 08:00, nothing stored) is 60 minutes when the
    wall clock reads 09:00 and 120 minutes when it reads 10:00. *)
Lemma report_working_time_depends_on_the_wall_clock :
  PresentEmployeeReport.working_duration
    (run (PresentEmployeeReport.processRecord Scenario.check_in_0800_open)
         (Time.stopped_at (Scenario.at_ 9 0))) = 60%Q
  /\ PresentEmployeeReport.working_duration
       (run (PresentEmployeeReport.processRecord Scenario.check_in_0800_open)
            (Time.stopped_at (Scenario.at_ 10 0))) = 120%Q
  /\ ~ (PresentEmployeeReport.working_duration
          (run (PresentEmployeeReport.processRecord Scenario.check_in_0800_open)
               (Time.stopped_at (Scenario.at_ 9 0)))
        == PresentEmployeeReport.working_duration
             (run (PresentEmployeeReport.processRecord Scenario.check_in_0800_open)
                  (Time.stopped_at (Scenario.at_ 10 0))))%Q.
Proof.
  split; [reflexivity |]. split; [reflexivity |].
  vm_compute. discriminate.
Qed.

(** ** Roster resolution (C4, C5, C6) *)

Lemma insert_desc_perm (r : Roster.t) (l : list Roster.t) :
  Permutation (Supabase.insert_desc r l) (r :: l).
Proof.
  induction l as [| x l IH]; cbn; [reflexivity |].
  destruct (Roster.created_at x <? Roster.created_at r); [reflexivity |].
  rewrite IH. apply perm_swap.
Qed.

Lemma order_created_at_desc_perm (l : list Roster.t) :
  Permutation (Supabase.order_created_at_desc l) l.
Proof.
  induction l as [| x l IH]; cbn; [reflexivity |].
  rewrite insert_desc_perm. now constructor.
Qed.

Lemma insert_desc_sorted (r : Roster.t) (l : list Roster.t) :
  Sorted Supabase.not_older l -> Sorted Supabase.not_older (Supabase.insert_desc r l).
Proof.
  induction l as [| x l IH]; cbn; intros Hs.
  - repeat constructor.
  - destruct (Z.ltb_spec (Roster.created_at x) (Roster.created_at r)).
    + constructor; [assumption |]. constructor. unfold Supabase.not_older. lia.
    + inversion Hs as [| ? ? Hl Hhd]; subst.
      constructor; [now apply IH |].
      destruct l as [| y l]; cbn.
      * constructor. unfold Supabase.not_older. lia.
      * destruct (Roster.created_at y <? Roster.created_at r).
        -- constructor. unfold Supabase.not_older. lia.
        -- inversion Hhd; subst. now constructor.
Qed.

Lemma order_created_at_desc_sorted (l : list Roster.t) :
  Sorted Supabase.not_older (Supabase.order_created_at_desc l).
Proof.
  induction l as [| x l IH]; cbn; [constructor | now apply insert_desc_sorted].
Qed.

Lemma not_older_trans : Relations_1.Transitive Supabase.not_older.
Proof. unfold Relations_1.Transitive, Supabase.not_older. intros; lia. Qed.

(** The first row of the ordered rows is a latest one. *)
Lemma first_of_ordered_is_latest (l : list Roster.t) (first : Roster.t)
      (rest : list Roster.t) :
  Supabase.order_created_at_desc l = first :: rest ->
  In first l /\ forall r, In r l -> Roster.created_at r <= Roster.created_at first.
Proof.
  intros Heq.
  pose proof (order_created_at_desc_perm l) as Hperm.
  pose proof (order_created_at_desc_sorted l) as Hsorted.
  rewrite Heq in Hperm, Hsorted.
  split.
  - apply (Permutation_in _ Hperm). now left.
  - intros r Hr.
    apply (Permutation_in _ (Permutation_sym Hperm)) in Hr.
    destruct Hr as [<- | Hr]; [lia |].
    apply Sorted_StronglySorted in Hsorted; [| exact not_older_trans].
    inversion Hsorted as [| ? ? _ Hall]; subst.
    rewrite Forall_forall in Hall. now apply Hall.
Qed.

(** The resolver follows the policy: when the store answers and at
    least one roster of the employee is active and covers the date, it
    returns one of them, and no other matching roster was created
    later. *)
Theorem resolver_selects_latest_created
        (supabase : Supabase.Client) (employeeId : string) (date : Z)
        (Hup : Supabase.health supabase = Supabase.Up)
        (Hmatch : exists r, In r (Supabase.rosters supabase)
                            /\ Supabase.active_on employeeId date r = true) :
  exists chosen,
    RosterUtils.getEmployeeRosterForDate supabase employeeId date = Some chosen
    /\ In chosen (Supabase.rosters supabase)
    /\ Supabase.active_on employeeId date chosen = true
    /\ forall r, In r (Supabase.rosters supabase) ->
                 Supabase.active_on employeeId date r = true ->
                 Roster.created_at r <= Roster.created_at chosen.
Proof.
  unfold RosterUtils.getEmployeeRosterForDate, Supabase.answer. rewrite Hup.
  set (matching := filter (Supabase.active_on employeeId date) (Supabase.rosters supabase)).
  destruct (Supabase.order_created_at_desc matching) as [| first rest] eqn:Hord.
  - exfalso. destruct Hmatch as (r & Hin & Hact).
    assert (Hr : In r matching) by (apply filter_In; auto).
    apply (Permutation_in _ (Permutation_sym (order_created_at_desc_perm matching))) in Hr.
    rewrite Hord in Hr. exact Hr.
  - destruct (first_of_ordered_is_latest _ _ _ Hord) as [Hin Hmax].
    apply filter_In in Hin as [Hin Hact].
    exists first. cbn. repeat split; try assumption.
    intros r Hr Hract. apply Hmax. apply filter_In. auto.
Qed.

Lemma resolver_selects_latest_created_witness :
  Supabase.health (Scenario.store [Scenario.older; Scenario.newer]) = Supabase.Up
  /\ Supabase.active_on "e1" (Civil.ymd 2024 3 20) Scenario.older = true
  /\ Supabase.active_on "e1" (Civil.ymd 2024 3 20) Scenario.newer = true
  /\ exists chosen,
      RosterUtils.getEmployeeRosterForDate
        (Scenario.store [Scenario.older; Scenario.newer]) "e1" (Civil.ymd 2024 3 20)
      = Some chosen
      /\ Roster.created_at Scenario.older <= Roster.created_at chosen
      /\ Roster.created_at Scenario.newer <= Roster.created_at chosen.
Proof.
  split; [reflexivity |]. split; [reflexivity |]. split; [reflexivity |].
  destruct (resolver_selects_latest_created
              (Scenario.store [Scenario.older; Scenario.newer]) "e1" (Civil.ymd 2024 3 20)
              eq_refl
              (ex_intro _ Scenario.older (conj (or_introl eq_refl) eq_refl)))
    as (chosen & Hget & _ & _ & Hmax).
  exists chosen. split; [exact Hget |]. split.
  - apply Hmax; [left; reflexivity | reflexivity].
  - apply Hmax; [right; left; reflexivity | reflexivity].
Defined.

(** C6, the failing input.  Two rosters of employee e1 are active and
    cover 2024-03-20: one created first (start 08:00) and one created
    later (start 09:00), stored in this order.  The resolver orders the
    matching rosters by [created_at] and returns the later one;
    [handleSave], whose query has the same filters and no order, takes
    the first row, the older roster, as the roster to update and to
    write to [attendance.roster_id]. *)
Theorem editor_takes_the_older_roster :
  Roster.created_at Scenario.older < Roster.created_at Scenario.newer
  /\ Supabase.active_on "e1" (Civil.ymd 2024 3 20) Scenario.older = true
  /\ Supabase.active_on "e1" (Civil.ymd 2024 3 20) Scenario.newer = true
  /\ RosterUtils.getEmployeeRosterForDate
       (Scenario.store [Scenario.older; Scenario.newer]) "e1" (Civil.ymd 2024 3 20)
     = Some Scenario.newer
  /\ RosterStartEditor.existingRoster
       (Scenario.store [Scenario.older; Scenario.newer]) "e1" (Civil.ymd 2024 3 20)
     = RosterUtils.Return (Some Scenario.older).
Proof. repeat split. Qed.

(** A request that fails, by an error reply or by a rejection, resolves
    to null as well. *)
Lemma failed_request_resolves_to_null
      (supabase : Supabase.Client) (employeeId : string) (date : Z) :
  Supabase.health supabase <> Supabase.Up ->
  RosterUtils.getEmployeeRosterForDate supabase employeeId date = None.
Proof.
  intros Hdown. unfold RosterUtils.getEmployeeRosterForDate, Supabase.answer.
  destruct (Supabase.health supabase); [contradiction | reflexivity | reflexivity].
Qed.

(** C4.  With no active roster of the employee covering the date, the
    resolver returns null without raising, [calculateRosterBasedLateness]
    falls back to 0 minutes, and the row of the check-in is written all
    the same: without roster reference and with 0 late minutes. *)
Theorem missing_roster_gives_zero_lateness_and_a_row
        (tz : Z) (supabase : Supabase.Client) (employeeId : string)
        (checkInTime date now : Z)
        (Hnone : filter (Supabase.active_on employeeId date) (Supabase.rosters supabase)
                 = []) :
  RosterUtils.getEmployeeRosterForDate supabase employeeId date = None
  /\ RosterUtils.calculateRosterBasedLateness tz supabase employeeId checkInTime date
     = Js.Num 0
  /\ AttendanceScan.createFirstCheckIn tz supabase employeeId date now
     = RosterUtils.Return
         {| AttendanceScan.employee_id := employeeId;
            AttendanceScan.roster_id := None;
            AttendanceScan.date := date;
            AttendanceScan.first_check_in_time := now;
            AttendanceScan.minutes_late := Js.Num 0 |}.
Proof.
  assert (Hget : RosterUtils.getEmployeeRosterForDate supabase employeeId date = None).
  { unfold RosterUtils.getEmployeeRosterForDate, Supabase.answer.
    rewrite Hnone. destruct (Supabase.health supabase); reflexivity. }
  assert (Hlate : forall t,
             RosterUtils.calculateRosterBasedLateness tz supabase employeeId t date
             = Js.Num 0).
  { intros t. unfold RosterUtils.calculateRosterBasedLateness. now rewrite Hget. }
  split; [exact Hget |]. split; [apply Hlate |].
  unfold AttendanceScan.createFirstCheckIn. now rewrite Hget, Hlate.
Qed.

Lemma missing_roster_gives_zero_lateness_and_a_row_witness :
  filter (Supabase.active_on "e1" (Civil.ymd 2024 3 20))
         (Supabase.rosters (Scenario.store [])) = []
  /\ RosterUtils.calculateRosterBasedLateness
       0 (Scenario.store []) "e1" (Scenario.at_ 9 0) (Civil.ymd 2024 3 20)
     = Js.Num 0
  /\ exists row,
       AttendanceScan.createFirstCheckIn
         0 (Scenario.store []) "e1" (Civil.ymd 2024 3 20) (Scenario.at_ 9 0)
       = RosterUtils.Return row
       /\ AttendanceScan.first_check_in_time row = Scenario.at_ 9 0
       /\ AttendanceScan.minutes_late row = Js.Num 0.
Proof.
  split; [reflexivity |].
  destruct (missing_roster_gives_zero_lateness_and_a_row
              0 (Scenario.store []) "e1" (Scenario.at_ 9 0)
              (Civil.ymd 2024 3 20) (Scenario.at_ 9 0) eq_refl)
    as (_ & Hlate & Hrow).
  split; [exact Hlate |].
  eexists. split; [exact Hrow |]. split; reflexivity.
Defined.





(** ** Malformed schedule data (C7) *)

(** [calculateLateness] returns the zero-lateness default for a start
    time that does not parse. *)
Lemma calculateLateness_unparsable_start
      (tz : Z) (attendance : Attendance.t) (roster : Roster.t) (start : string) :
  Roster.start_time roster = Some start ->
  Time.parseTimeOfDay start = None ->
  LateCalculation.calculateLateness tz attendance roster
  = LateCalculation.defaultResult.
Proof.
  intros Hstart Hparse. unfold LateCalculation.calculateLateness.
  rewrite Hstart.
  destruct (Attendance.first_check_in_time attendance); [| reflexivity].
  destruct (negb _); [reflexivity |].
  unfold Time.Date_of_local. rewrite Hparse. reflexivity.
Qed.

(** [calculateRosterBasedLateness] returns 0 when reading the shift
    pattern throws (a value that is no array, a null entry) ... *)
Lemma calculateRosterBasedLateness_malformed_pattern
      (tz : Z) (supabase : Supabase.Client) (employeeId : string)
      (checkInTime date : Z) (roster : Roster.t) :
  RosterUtils.getEmployeeRosterForDate supabase employeeId date = Some roster ->
  RosterUtils.getShiftForDate roster date = RosterUtils.Throw ->
  RosterUtils.calculateRosterBasedLateness tz supabase employeeId checkInTime date
  = Js.Num 0.
Proof.
  intros Hroster Hshift. unfold RosterUtils.calculateRosterBasedLateness.
  now rewrite Hroster, Hshift.
Qed.

(** ... and when the start time in effect does not parse. *)
Lemma calculateRosterBasedLateness_unparsable_start
      (tz : Z) (supabase : Supabase.Client) (employeeId : string)
      (checkInTime date : Z) (roster : Roster.t) (shift : DailyShift.t)
      (start : string) :
  RosterUtils.getEmployeeRosterForDate supabase employeeId date = Some roster ->
  RosterUtils.getShiftForDate roster date = RosterUtils.Return shift ->
  RosterUtils.or_string
    (match DailyShift.time_slot shift with
     | Some slot => TimeSlot.start_time slot
     | None => None
     end)
    (Roster.start_time roster) = Some start ->
  Time.parseTimeOfDay start = None ->
  RosterUtils.calculateRosterBasedLateness tz supabase employeeId checkInTime date
  = Js.Num 0.
Proof.
  intros Hroster Hshift Hstart Hparse. unfold RosterUtils.calculateRosterBasedLateness.
  rewrite Hroster, Hshift. cbv zeta. rewrite Hstart.
  destruct (match DailyShift.shift shift with Some _ => _ | None => _ end);
    [reflexivity |].
  destruct (negb _); [reflexivity |].
  unfold Time.Date_of_local. rewrite Hparse. reflexivity.
Qed.

(** [calculateLateDuration] returns the safe default when the start time
    is missing ... *)
Lemma calculateLateDuration_missing_start
      (tz checkInTime : Z) (roster : Roster.t) (clock : Time.Clock) :
  Roster.start_time roster = None ->
  LateDurationUtils.lateMinutes
    (run (LateDurationUtils.calculateLateDuration tz checkInTime roster) clock)
  = Js.Num 0.
Proof.
  intros Hstart. unfold run, LateDurationUtils.calculateLateDuration.
  now rewrite Hstart.
Qed.

(** ... but [NaN] when the hour or the minute of the start time is not a
    number: nothing throws, so the [catch] block is not reached. *)
Lemma calculateLateDuration_non_numeric_start
      (tz checkInTime : Z) (roster : Roster.t) (start : string) (clock : Time.Clock) :
  Roster.start_time roster = Some start ->
  Js.nth_number 0 (map Js.Number (Js.split ":" start)) = Js.NaN
  \/ Js.nth_number 1 (map Js.Number (Js.split ":" start)) = Js.NaN ->
  let d := run (LateDurationUtils.calculateLateDuration tz checkInTime roster) clock in
  LateDurationUtils.lateMinutes d = Js.NaN
  /\ LateDurationUtils.isLate d = false
  /\ LateDurationUtils.formattedLateDuration d = "NaNM"%string.
Proof.
  intros Hstart Hnan. unfold run, LateDurationUtils.calculateLateDuration.
  rewrite Hstart. cbv zeta.
  assert (Hset : Time.setHours tz checkInTime
                   (Js.nth_number 0 (map Js.Number (Js.split ":" start)))
                   (Js.nth_number 1 (map Js.Number (Js.split ":" start)))
                 = Js.NaN).
  { destruct Hnan as [-> | ->]; [reflexivity |].
    now destruct (Js.nth_number 0 _). }
  rewrite Hset. repeat split.
Qed.

(** C7, the failing input.  Check-in 2024-03-20T08:30:00Z and a roster
    whose [start_time] is "abc": [calculateLateDuration] returns
    [lateMinutes = NaN] (shown as "NaNM"), not 0; the sibling
    calculators return 0 on the same roster. *)
Theorem calculateLateDuration_unparsable_start_is_NaN :
  LateDurationUtils.lateMinutes
    (run (LateDurationUtils.calculateLateDuration
            0 (Scenario.at_ 8 30) Scenario.roster_unparsable)
         (Time.stopped_at 0))
  = Js.NaN
  /\ LateDurationUtils.isLate
       (run (LateDurationUtils.calculateLateDuration
               0 (Scenario.at_ 8 30) Scenario.roster_unparsable)
            (Time.stopped_at 0))
     = false
  /\ LateDurationUtils.formattedLateDuration
       (run (LateDurationUtils.calculateLateDuration
               0 (Scenario.at_ 8 30) Scenario.roster_unparsable)
            (Time.stopped_at 0))
     = "NaNM"%string
  /\ LateCalculation.lateMinutes
       (LateCalculation.calculateLateness
          0 (with_first_check_in (Some (Scenario.at_ 8 30)) Scenario.check_in_0820)
          Scenario.roster_unparsable)
     = Js.Num 0
  /\ RosterUtils.calculateRosterBasedLateness
       0 (Scenario.store [Scenario.roster_unparsable]) "e1"
       (Scenario.at_ 8 30) (Civil.ymd 2024 3 20)
     = Js.Num 0.
Proof. repeat split. Qed.

(** ** Aggregation (C9, C10) *)

Section GroupBy.

Context {K : Type} (eqb : K -> K -> bool) (key : Attendance.t -> K).
Hypothesis eqb_eq : forall a b, eqb a b = true <-> a = b.


Lemma eqb_false (a b : K) : a <> b -> eqb a b = false.
Proof.
  intros Hne. destruct (eqb a b) eqn:E; [| reflexivity].
  apply eqb_eq in E. contradiction.
Qed.

Lemma push_keys (k : K) (r : Attendance.t) (acc : list (K * list Attendance.t)) :
  (In k (map fst acc) ->
   map fst (AttendanceDataRecreationService.push eqb k r acc) = map fst acc)
  /\ (~ In k (map fst acc) ->
      map fst (AttendanceDataRecreationService.push eqb k r acc)
      = map fst acc ++ [k]).
Proof.
  induction acc as [| [k0 rs] acc [IHin IHout]]; cbn.
  - split; [contradiction | reflexivity].
  - destruct (eqb k0 k) eqn:E.
    + apply eqb_eq in E. subst k0. split; [reflexivity |].
      intros H. exfalso. apply H. now left.
    + split.
      * intros [-> | H]; [rewrite (proj2 (eqb_eq k k) eq_refl) in E; discriminate |].
        cbn. now rewrite IHin.
      * intros H. cbn. rewrite IHout; [reflexivity |]. intros Hin. apply H. now right.
Qed.

Lemma push_In (k : K) (r : Attendance.t) (acc : list (K * list Attendance.t))
      (k' : K) (rs' : list Attendance.t) :
  NoDup (map fst acc) ->
  In (k', rs') (AttendanceDataRecreationService.push eqb k r acc) ->
  (k' = k /\ ((exists rs, In (k, rs) acc /\ rs' = rs ++ [r])
              \/ (~ In k (map fst acc) /\ rs' = [r])))
  \/ (k' <> k /\ In (k', rs') acc).
Proof.
  induction acc as [| [k0 rs] acc IH]; cbn; intros Hnd Hin.
  - destruct Hin as [[= <- <-] | []]. left. split; [reflexivity |]. right. tauto.
  - inversion Hnd as [| ? ? Hk0 Hnd']; subst.
    destruct (eqb k0 k) eqn:E.
    + apply eqb_eq in E. subst k0.
      destruct Hin as [[= <- <-] | Hin].
      * left. split; [reflexivity |]. left. exists rs. split; [now left | reflexivity].
      * right. split; [| now right].
        intros ->. apply Hk0. apply in_map_iff. now exists (k, rs').
    + assert (Hne : k0 <> k).
      { intros ->. rewrite (proj2 (eqb_eq k k) eq_refl) in E. discriminate. }
      destruct Hin as [[= <- <-] | Hin].
      * right. split; [assumption | now left].
      * destruct (IH Hnd' Hin) as [[-> [(rs0 & Hrs0 & ->) | [Hout ->]]] | [Hk' Hin']].
        -- left. split; [reflexivity |]. left. exists rs0. split; [now right | reflexivity].
        -- left. split; [reflexivity |]. right. split; [| reflexivity].
           intros [Heq | Hin']; [now apply Hne | now apply Hout].
        -- right. split; [assumption | now right].
Qed.

Lemma grouped_push (acc : list (K * list Attendance.t)) (seen : list Attendance.t)
      (r : Attendance.t) :
  AttendanceDataRecreationService.grouped eqb key acc seen ->
  AttendanceDataRecreationService.grouped
    eqb key (AttendanceDataRecreationService.push eqb (key r) r acc) (seen ++ [r]).
Proof.
  unfold AttendanceDataRecreationService.grouped.
  intros (Hnd & Hkeys & Hgroups).
  destruct (push_keys (key r) r acc) as [Kin Kout].
  assert (Hdec : In (key r) (map fst acc) \/ ~ In (key r) (map fst acc)).
  { clear - eqb_eq. induction (map fst acc) as [| k0 ks IH]; [right; tauto |].
    destruct (eqb k0 (key r)) eqn:E.
    - left. left. now apply eqb_eq.
    - destruct IH as [IH | IH]; [left; now right |].
      right. intros [-> | H]; [| contradiction].
      rewrite (proj2 (eqb_eq _ _) eq_refl) in E. discriminate. }
  repeat split.
  - destruct Hdec as [Hin | Hout].
    + now rewrite (Kin Hin).
    + rewrite (Kout Hout). apply NoDup_app; [assumption | repeat constructor; tauto |].
      intros k Hk [<- | []]. contradiction.
  - intros x Hx. apply in_app_iff in Hx as [Hx | [<- | []]].
    + destruct Hdec as [Hin | Hout].
      * rewrite (Kin Hin). auto.
      * rewrite (Kout Hout). apply in_app_iff. left. auto.
    + destruct Hdec as [Hin | Hout].
      * now rewrite (Kin Hin).
      * rewrite (Kout Hout). apply in_app_iff. right. now left.
  - intros k rs Hin. rewrite filter_app. cbn.
    destruct (push_In _ _ _ _ _ Hnd Hin)
      as [[-> [(rs0 & Hrs0 & ->) | [Hout ->]]] | [Hne Hin']].
    + rewrite (proj2 (eqb_eq _ _) eq_refl). now rewrite (Hgroups _ _ Hrs0).
    + rewrite (proj2 (eqb_eq _ _) eq_refl).
      replace (filter (fun x => eqb (key r) (key x)) seen) with (@nil Attendance.t);
        [reflexivity |].
      symmetry. clear - Hkeys Hout eqb_eq. induction seen as [| x seen IH]; [reflexivity |].
      cbn. rewrite eqb_false.
      * apply IH. intros y Hy. apply Hkeys. now right.
      * intros Heq. apply Hout. rewrite Heq. apply Hkeys. now left.
    + rewrite (eqb_false _ _ Hne), app_nil_r. now apply Hgroups.
Qed.

Lemma grouped_fold (records : list Attendance.t) :
  forall acc seen,
    AttendanceDataRecreationService.grouped eqb key acc seen ->
    AttendanceDataRecreationService.grouped
      eqb key
      (fold_left
         (fun acc record =>
            AttendanceDataRecreationService.push eqb (key record) record acc)
         records acc)
            (seen ++ records).
Proof.
  induction records as [| r records IH]; intros acc seen H; cbn.
  - now rewrite app_nil_r.
  - replace (seen ++ r :: records) with ((seen ++ [r]) ++ records)
      by (now rewrite <- app_assoc).
    apply IH. now apply grouped_push.
Qed.

(** Every group of [groupBy] holds, in order, the records of its key;
    no key has two groups, and every record is in a group. *)
Lemma groupBy_spec (records : list Attendance.t) :
  AttendanceDataRecreationService.grouped
    eqb key (AttendanceDataRecreationService.groupBy eqb key records) records.
Proof.
  unfold AttendanceDataRecreationService.groupBy.
  apply (grouped_fold records [] []).
  unfold AttendanceDataRecreationService.grouped.
  repeat split; [constructor | contradiction | contradiction].
Qed.

End GroupBy.

Lemma late_is_not_onTime (r : Attendance.t) :
  (forall q, Attendance.minutes_late r = Some q -> (0 <= q)%Q) ->
  AttendanceDataRecreationService.late r
  = negb (AttendanceDataRecreationService.onTime r).
Proof.
  unfold AttendanceDataRecreationService.late, AttendanceDataRecreationService.onTime,
    Stored.falsy, Stored.is_zero, Stored.positive.
  destruct (Attendance.minutes_late r) as [q |]; [| reflexivity].
  intros H. specialize (H q eq_refl).
  destruct (Qeq_bool q 0) eqn:Ez; cbn; [reflexivity |].
  destruct (Qle_bool q 0) eqn:El; [| reflexivity].
  apply Qle_bool_iff in El.
  assert (Heq : (q == 0)%Q) by (apply Qle_antisym; assumption).
  apply Qeq_bool_iff in Heq. congruence.
Qed.

Lemma onTime_plus_late (records : list Attendance.t) :
  (forall r q, In r records -> Attendance.minutes_late r = Some q -> (0 <= q)%Q) ->
  (List.length (filter AttendanceDataRecreationService.onTime records)
   + List.length (filter AttendanceDataRecreationService.late records))%nat
  = List.length records.
Proof.
  induction records as [| r records IH]; intros H; [reflexivity |].
  cbn [filter].
  rewrite (late_is_not_onTime r) by (intros q; apply H; now left).
  specialize (IH (fun r' q Hin => H r' q (or_intror Hin))).
  destruct (AttendanceDataRecreationService.onTime r); cbn; lia.
Qed.

Lemma insert_by_date_perm (t : AttendanceDataRecreationService.Trend)
      (l : list AttendanceDataRecreationService.Trend) :
  Permutation (AttendanceDataRecreationService.insert_by_date t l) (t :: l).
Proof.
  induction l as [| x l IH]; cbn; [reflexivity |].
  destruct (_ <? _); [reflexivity |].
  rewrite IH. apply perm_swap.
Qed.

Lemma sort_by_date_perm (l : list AttendanceDataRecreationService.Trend) :
  Permutation (AttendanceDataRecreationService.sort_by_date l) l.
Proof.
  induction l as [| x l IH]; cbn; [reflexivity |].
  rewrite insert_by_date_perm. now constructor.
Qed.

(** A trend of the insights is the trend of the rows of its date. *)
Lemma trends_of_insights (records : list Attendance.t)
      (t : AttendanceDataRecreationService.Trend) :
  In t (AttendanceDataRecreationService.trends
          (AttendanceDataRecreationService.generateAttendanceInsights records)) ->
  t = AttendanceDataRecreationService.trend
        (AttendanceDataRecreationService.date t)
        (filter (fun r => Attendance.date r =? AttendanceDataRecreationService.date t)
                records).
Proof.
  unfold AttendanceDataRecreationService.generateAttendanceInsights.
  destruct records as [| r0 records0] eqn:Hrecords; [contradiction |].
  rewrite <- Hrecords. clear Hrecords.
  cbn [AttendanceDataRecreationService.trends].
  intros Hin. apply (Permutation_in _ (sort_by_date_perm _)) in Hin.
  apply in_map_iff in Hin as ([d rs] & <- & Hin).
  destruct (groupBy_spec Z.eqb Attendance.date Z.eqb_eq records) as (_ & _ & Hgroups).
  rewrite (Hgroups d rs Hin). cbn [AttendanceDataRecreationService.date].
  f_equal. apply filter_ext. intros r. apply Z.eqb_sym.
Qed.

(** C10 (as amended).  A row whose [minutes_late] is null counts as on
    time and not as late; and when no stored [minutes_late] is negative,
    the on-time and late counts of every date of the trends add up to the
    number of rows of that date. *)
Theorem on_time_and_late_partition_each_date
        (records : list Attendance.t)
        (Hnonneg : forall r q, In r records ->
                               Attendance.minutes_late r = Some q -> (0 <= q)%Q) :
  (forall r, Attendance.minutes_late r = None ->
             AttendanceDataRecreationService.onTime r = true
             /\ AttendanceDataRecreationService.late r = false)
  /\ forall t,
      In t (AttendanceDataRecreationService.trends
              (AttendanceDataRecreationService.generateAttendanceInsights records)) ->
      (AttendanceDataRecreationService.onTimeCount t
       + AttendanceDataRecreationService.lateCount t)%nat
      = List.length
          (filter (fun r => Attendance.date r =? AttendanceDataRecreationService.date t)
                  records).
Proof.
  split.
  - intros r Hnull.
    unfold AttendanceDataRecreationService.onTime, AttendanceDataRecreationService.late.
    rewrite Hnull. split; reflexivity.
  - intros t Hin. rewrite (trends_of_insights records t Hin) at 1 2.
    cbn [AttendanceDataRecreationService.onTimeCount
           AttendanceDataRecreationService.lateCount
           AttendanceDataRecreationService.trend].
    apply onTime_plus_late.
    intros r q Hr. apply filter_In in Hr as [Hr _]. now apply Hnonneg.
Qed.

Lemma on_time_and_late_partition_each_date_witness :
  (forall r q, In r Scenario.monday_of_e1 ->
               Attendance.minutes_late r = Some q -> (0 <= q)%Q)
  /\ forall t,
      In t (AttendanceDataRecreationService.trends
              (AttendanceDataRecreationService.generateAttendanceInsights
                 Scenario.monday_of_e1)) ->
      (AttendanceDataRecreationService.onTimeCount t
       + AttendanceDataRecreationService.lateCount t)%nat
      = List.length
          (filter (fun r => Attendance.date r =? AttendanceDataRecreationService.date t)
                  Scenario.monday_of_e1).
Proof.
  assert (H : forall r q, In r Scenario.monday_of_e1 ->
                          Attendance.minutes_late r = Some q -> (0 <= q)%Q).
  { intros r q [<- | []] [= <-]. discriminate. }
  split; [exact H |].
  exact (proj2 (on_time_and_late_partition_each_date Scenario.monday_of_e1 H)).
Defined.

(** C10, counterexample.  One row whose stored [minutes_late] is -5: it
    is counted neither as on time nor as late, so the two counts of its
    date add up to 0, not to 1. *)
Lemma negative_minutes_late_is_counted_nowhere :
  AttendanceDataRecreationService.trends
    (AttendanceDataRecreationService.generateAttendanceInsights
       Scenario.negative_minutes_late)
  = [ {| AttendanceDataRecreationService.date := Scenario.monday;
         AttendanceDataRecreationService.onTimeCount := 0;
         AttendanceDataRecreationService.lateCount := 0;
         AttendanceDataRecreationService.averageWorkingHours := 8%float |} ]
  /\ List.length
       (filter (fun r => Attendance.date r =? Scenario.monday)
               Scenario.negative_minutes_late) = 1%nat.
Proof. split; reflexivity. Qed.

Lemma filter_length_app (p : Attendance.t -> bool) (A B : list Attendance.t) :
  List.length (filter p (A ++ B))
  = (List.length (filter p A) + List.length (filter p B))%nat.
Proof. now rewrite filter_app, length_app. Qed.

(** C9 (as amended).  For disjoint record sets [A] and [B], the union
    given as the rows of [A] followed by those of [B]: the counts that
    the aggregator computes are additive, the compliance rate of the
    union is the quotient of the added counts (the same division and
    multiplication, on the same whole numbers), and each group of the
    union is the group of [A] followed by that of [B]. *)
Theorem counts_are_additive
        (A B : list Attendance.t) (d : Z) (Hdisjoint : Spec.disjoint A B) :
  List.length (A ++ B) = (List.length A + List.length B)%nat
  /\ List.length (filter AttendanceDataRecreationService.onTime (A ++ B))
     = (List.length (filter AttendanceDataRecreationService.onTime A)
        + List.length (filter AttendanceDataRecreationService.onTime B))%nat
  /\ List.length (filter AttendanceDataRecreationService.late (A ++ B))
     = (List.length (filter AttendanceDataRecreationService.late A)
        + List.length (filter AttendanceDataRecreationService.late B))%nat
  /\ AttendanceDataRecreationService.onTimeCount
       (AttendanceDataRecreationService.trend d (A ++ B))
     = (AttendanceDataRecreationService.onTimeCount
          (AttendanceDataRecreationService.trend d A)
        + AttendanceDataRecreationService.onTimeCount
            (AttendanceDataRecreationService.trend d B))%nat
  /\ AttendanceDataRecreationService.lateCount
       (AttendanceDataRecreationService.trend d (A ++ B))
     = (AttendanceDataRecreationService.lateCount
          (AttendanceDataRecreationService.trend d A)
        + AttendanceDataRecreationService.lateCount
            (AttendanceDataRecreationService.trend d B))%nat
  /\ (AttendanceDataRecreationService.complianceRate
        (AttendanceDataRecreationService.departmentStat (A ++ B))
      == Stored.of_nat
           (List.length (filter AttendanceDataRecreationService.onTime A)
            + List.length (filter AttendanceDataRecreationService.onTime B))
         / Stored.of_nat (List.length A + List.length B) * 100)%Q
  /\ (forall dept records,
         In (dept, records)
            (AttendanceDataRecreationService.groupBy
               String.eqb AttendanceDataRecreationService.deptId (A ++ B)) ->
         records
         = filter (fun r => String.eqb dept (AttendanceDataRecreationService.deptId r)) A
           ++ filter (fun r => String.eqb dept (AttendanceDataRecreationService.deptId r)) B)
  /\ (forall date records,
         In (date, records)
            (AttendanceDataRecreationService.groupBy Z.eqb Attendance.date (A ++ B)) ->
         records
         = filter (fun r => date =? Attendance.date r) A
           ++ filter (fun r => date =? Attendance.date r) B).
Proof.
  split; [apply length_app |].
  split; [apply filter_length_app |].
  split; [apply filter_length_app |].
  split; [apply filter_length_app |].
  split; [apply filter_length_app |].
  split; [| split].
  - cbn [AttendanceDataRecreationService.complianceRate
           AttendanceDataRecreationService.departmentStat].
    now rewrite filter_length_app, length_app.
  - intros dept records Hin.
    destruct (groupBy_spec String.eqb AttendanceDataRecreationService.deptId
                           String.eqb_eq (A ++ B)) as (_ & _ & Hgroups).
    rewrite (Hgroups dept records Hin). apply filter_app.
  - intros date records Hin.
    destruct (groupBy_spec Z.eqb Attendance.date Z.eqb_eq (A ++ B))
      as (_ & _ & Hgroups).
    rewrite (Hgroups date records Hin). apply filter_app.
Qed.

Lemma counts_are_additive_witness :
  Spec.disjoint Scenario.monday_of_e1 Scenario.tuesday_of_e1
  /\ In (Scenario.monday, Scenario.monday_of_e1)
        (AttendanceDataRecreationService.groupBy
           Z.eqb Attendance.date (Scenario.monday_of_e1 ++ Scenario.tuesday_of_e1))
  /\ Scenario.monday_of_e1
     = filter (fun r => Scenario.monday =? Attendance.date r) Scenario.monday_of_e1
       ++ filter (fun r => Scenario.monday =? Attendance.date r) Scenario.tuesday_of_e1.
Proof.
  assert (Hd : Spec.disjoint Scenario.monday_of_e1 Scenario.tuesday_of_e1).
  { intros a b [<- | []] [<- | []]. discriminate. }
  assert (H : In (Scenario.monday, Scenario.monday_of_e1)
                 (AttendanceDataRecreationService.groupBy
                    Z.eqb Attendance.date
                    (Scenario.monday_of_e1 ++ Scenario.tuesday_of_e1)))
    by (left; reflexivity).
  split; [exact Hd |]. split; [exact H |].
  exact (proj2 (proj2 (proj2 (proj2 (proj2 (proj2 (proj2
           (counts_are_additive
              Scenario.monday_of_e1 Scenario.tuesday_of_e1 0 Hd)))))))
           Scenario.monday Scenario.monday_of_e1 H).
Defined.

(** The sums are not additive: they add doubles one after the other.
    Rows with 6, 12 and 18 working minutes (0.1, 0.2 and 0.3 hours):
    the average of the three is 0.20000000000000004; the sum of the
    first added to the sum of the other two, divided by 3, is
    0.19999999999999998. *)
Remark sums_of_hours_are_not_additive :
  let hours := fun r =>
    PrimFloat.div
      (Stored.to_double (Stored.or_zero (Attendance.working_duration_minutes r)))
      (Stored.double_of_Z 60) in
  let A := [Notions.worked "a1" 6] in
  let B := [Notions.worked "a2" 12; Notions.worked "a3" 18] in
  Spec.disjoint A B
  /\ AttendanceDataRecreationService.averageWorkingHours
       (AttendanceDataRecreationService.trend Scenario.monday (A ++ B))
     = 0x1.999999999999bp-3%float
  /\ PrimFloat.div
       (PrimFloat.add (AttendanceDataRecreationService.sum hours A)
                      (AttendanceDataRecreationService.sum hours B))
       (Stored.double_of_nat 3)
     = 0x1.9999999999999p-3%float
  /\ AttendanceDataRecreationService.sum hours (A ++ B)
     <> PrimFloat.add (AttendanceDataRecreationService.sum hours A)
                      (AttendanceDataRecreationService.sum hours B).
Proof.
  cbv zeta. split.
  - intros a b [<- | []] [<- | [<- | []]]; discriminate.
  - split; [reflexivity |]. split; [reflexivity |].
    vm_compute. intros H. discriminate H.
Qed.

(** C9, counterexample.  No merge of two outputs of the aggregator gives
    the output for the union.  The rows of Monday for employee e1 and
    for employee e2 have the same insights; joined with a row of e1 on
    Tuesday, the first union has one employee in the department
    (attendance 200), the second has two (attendance 100). *)
Lemma insights_cannot_be_merged :
  ~ exists merge,
      forall A B,
        Spec.disjoint A B ->
        AttendanceDataRecreationService.generateAttendanceInsights (A ++ B)
        = merge (AttendanceDataRecreationService.generateAttendanceInsights A)
                (AttendanceDataRecreationService.generateAttendanceInsights B).
Proof.
  intros [merge Hmerge].
  assert (Hd1 : Spec.disjoint Scenario.monday_of_e1 Scenario.tuesday_of_e1).
  { intros a b [<- | []] [<- | []]. discriminate. }
  assert (Hd2 : Spec.disjoint Scenario.monday_of_e2 Scenario.tuesday_of_e1).
  { intros a b [<- | []] [<- | []]. discriminate. }
  assert (Hsame : AttendanceDataRecreationService.generateAttendanceInsights
                    Scenario.monday_of_e1
                  = AttendanceDataRecreationService.generateAttendanceInsights
                      Scenario.monday_of_e2) by reflexivity.
  pose proof (Hmerge _ _ Hd1) as H1.
  pose proof (Hmerge _ _ Hd2) as H2.
  rewrite Hsame in H1. rewrite <- H2 in H1.
  vm_compute in H1. discriminate H1.
Qed.

(* ===================================================================== *)
(** * Further properties of the sources *)
(* ===================================================================== *)

(** ** Printing and reading numbers *)

(** The value read by [digits_value] from the digits of a decimal
    numeral. *)
Lemma digits_value_of_uint (d : Decimal.uint) (acc : Z) :
  Js.digits_value acc (NilEmpty.string_of_uint d)
  = Some (Z.of_N (DecimalPos.Unsigned.of_lu (Decimal.rev d))
          + acc * 10 ^ Z.of_N (DecimalPos.Unsigned.usize d)).
Proof.
  revert acc.
  induction d as [| d IH | d IH | d IH | d IH | d IH | d IH | d IH | d IH | d IH | d IH];
    intros acc; cbn [NilEmpty.string_of_uint Js.digits_value].
  1: { cbn. f_equal. lia. }
  all: match goal with
       | |- context [Decimal.rev (?D ?x)] =>
           change (Decimal.rev (D x)) with (Decimal.revapp x (D Decimal.Nil));
           rewrite (DecimalPos.Unsigned.of_lu_revapp x (D Decimal.Nil))
       end.
  all: match goal with
       | |- context [Js.digit ?c] =>
           let v := eval vm_compute in (Js.digit c) in
           change (Js.digit c) with v
       end; cbv beta iota; rewrite IH; f_equal.
  all: cbn [DecimalPos.Unsigned.usize DecimalPos.Unsigned.of_lu].
  all: rewrite N2Z.inj_add, N2Z.inj_mul, N2Z.inj_pow, N2Z.inj_succ, Z.pow_succ_r
    by apply N2Z.is_nonneg.
  all: cbn [Z.of_N N.mul N.add Pos.mul Pos.add]; nia.
Qed.

Lemma string_of_uint_all_digits (d : Decimal.uint) :
  Notions.all_digits (NilEmpty.string_of_uint d).
Proof.
  induction d; cbn [NilEmpty.string_of_uint Notions.all_digits];
    try exact I; split; try assumption; discriminate.
Qed.

Lemma toString_nonneg (n : Z) :
  0 <= n ->
  Notions.all_digits (Js.toString (Js.Num n))
  /\ Js.toString (Js.Num n) <> EmptyString
  /\ Js.digits_value 0 (Js.toString (Js.Num n)) = Some n.
Proof.
  intros Hn. destruct n as [| p | p]; [| | lia].
  - cbn. repeat split; try discriminate.
  - cbn [Js.toString Z.to_int NilZero.string_of_int].
    pose proof (DecimalPos.Unsigned.to_uint_nonnil p) as Hnil.
    unfold NilZero.string_of_uint.
    destruct (Pos.to_uint p) eqn:E; try contradiction; rewrite <- E.
    all: split; [apply string_of_uint_all_digits |].
    all: split; [rewrite E; discriminate |].
    all: rewrite digits_value_of_uint, <- DecimalPos.Unsigned.of_uint_alt,
           DecimalPos.Unsigned.of_to; cbn; f_equal; lia.
Qed.

Lemma digits_value_padStart2 (s : string) :
  s <> EmptyString ->
  Js.digits_value 0 (Js.padStart2 s) = Js.digits_value 0 s.
Proof.
  intros Hs. unfold Js.padStart2.
  destruct s as [| a [| b s]]; [contradiction | reflexivity | reflexivity].
Qed.

Lemma all_digits_padStart2 (s : string) :
  Notions.all_digits s -> Notions.all_digits (Js.padStart2 s).
Proof.
  intros H. unfold Js.padStart2.
  destruct s as [| a [| b s]]; cbn [String.length]; try assumption.
  - cbn. repeat split; discriminate.
  - cbn. split; [discriminate | assumption].
Qed.

Lemma digit_is_no_colon (c : ascii) :
  Js.digit c <> None -> Ascii.eqb c ":" = false.
Proof.
  destruct (Js.digit c) as [d |] eqn:E; [| contradiction].
  intros _. exact (proj2 (digit_range _ _ E)).
Qed.

(** [(a + ":" + b).split(":")] for two runs of digits. *)
Lemma split_two_fields (a b : string) :
  Notions.all_digits a -> Notions.all_digits b ->
  Js.split ":" (a ++ ":" ++ b) = [a; b].
Proof.
  intros Ha Hb.
  assert (Hb' : Js.split ":" b = [b]).
  { clear Ha. induction b as [| c b IH]; [reflexivity |].
    destruct Hb as [Hc Hb]. cbn [Js.split].
    rewrite (digit_is_no_colon _ Hc), (IH Hb). reflexivity. }
  induction a as [| c a IH]; cbn [String.append Js.split].
  - cbn. now rewrite Hb'.
  - destruct Ha as [Hc Ha].
    rewrite (digit_is_no_colon _ Hc). cbn [String.append] in IH.
    now rewrite (IH Ha).
Qed.

(** X1.  A round trip: printing a number of minutes (a non-negative
    safe integer) with [minutesToTimeString] and reading the string
    back with [timeStringToMinutes] gives the number. *)
Theorem time_string_round_trip (m : Z) (Hm : 0 <= m <= 9007199254740991) :
  LateDurationUtils.timeStringToMinutes
    (LateDurationUtils.minutesToTimeString (Js.Num m))
  = Js.Num m.
Proof.
  unfold LateDurationUtils.timeStringToMinutes, LateDurationUtils.minutesToTimeString.
  cbn [Js.floor_div Js.rem].
  assert (Hh : 0 <= m / 60) by (apply Z.div_pos; lia).
  assert (Hr : 0 <= Z.rem m 60) by (apply Z.rem_nonneg; lia).
  destruct (toString_nonneg _ Hh) as (Dh & Nh & Vh).
  destruct (toString_nonneg _ Hr) as (Dr & Nr & Vr).
  rewrite split_two_fields by (apply all_digits_padStart2; assumption).
  cbn [map Js.nth_number nth]. unfold Js.Number.
  rewrite !digits_value_padStart2 by assumption.
  rewrite Vh, Vr. cbn [Js.mul Js.add]. f_equal.
  rewrite Z.rem_mod_nonneg by lia.
  pose proof (Z.div_mod m 60). lia.
Qed.

Lemma time_string_round_trip_witness :
  0 <= 1439 <= 9007199254740991
  /\ LateDurationUtils.minutesToTimeString (Js.Num 1439) = "23:59"%string
  /\ LateDurationUtils.timeStringToMinutes
       (LateDurationUtils.minutesToTimeString (Js.Num 1439))
     = Js.Num 1439.
Proof.
  split; [lia |]. split; [reflexivity |].
  apply (time_string_round_trip 1439). lia.
Defined.

(** ** Roster times ([validateRosterTime]) *)

Lemma in_range_digit (lo hi c : ascii) :
  Js.in_range lo hi c = true ->
  (48 <= nat_of_ascii lo)%nat -> (nat_of_ascii hi <= 57)%nat ->
  exists d, Js.digit c = Some d
            /\ Z.of_nat (nat_of_ascii lo) - 48 <= d <= Z.of_nat (nat_of_ascii hi) - 48.
Proof.
  unfold Js.in_range, Js.digit. intros H Hlo Hhi.
  apply andb_prop in H as [H1 H2].
  apply Nat.leb_le in H1, H2. cbv zeta.
  replace (48 <=? Z.of_nat (nat_of_ascii c)) with true by (symmetry; apply Z.leb_le; lia).
  replace (Z.of_nat (nat_of_ascii c) <=? 57) with true by (symmetry; apply Z.leb_le; lia).
  cbn [andb]. eexists. split; [reflexivity | lia].
Qed.

Ltac range_digits :=
  repeat match goal with
    | H : (_ && _)%bool = true |- _ => apply andb_prop in H as [? ?]
    | H : (_ || _)%bool = true |- _ => apply orb_prop in H as [? | ?]
    | H : Ascii.eqb _ _ = true |- _ => apply Ascii.eqb_eq in H; subst
    | H : Js.in_range ?lo ?hi _ = true |- _ =>
        let d := fresh "d" in let E := fresh "E" in let R := fresh "R" in
        apply in_range_digit in H as (d & E & R); [| cbn; lia | cbn; lia];
        match type of R with
        | ?x <= _ <= ?y =>
            let x' := eval vm_compute in x in
            let y' := eval vm_compute in y in
            change (x' <= d <= y') in R
        end
    end.

(** What [split(':').map(Number)] reads in a string that
    [validateRosterTime] accepts: an hour and a minute. *)
Lemma validateRosterTime_fields (s : string) :
  LateDurationUtils.validateRosterTime s = true ->
  exists h m,
    Js.nth_number 0 (map Js.Number (Js.split ":" s)) = Js.Num h
    /\ Js.nth_number 1 (map Js.Number (Js.split ":" s)) = Js.Num m
    /\ 0 <= h <= 23 /\ 0 <= m <= 59.
Proof.
  intros Hvalid.
  unfold LateDurationUtils.validateRosterTime in Hvalid.
  unfold LateDurationUtils.hour1, LateDurationUtils.hour2, LateDurationUtils.sixty in Hvalid.
  destruct s as [| a [| b [| c [| d s]]]]; try discriminate.
  destruct s as [| e s].
  { cbn [list_ascii_of_string] in Hvalid. range_digits.
    digit_facts. read_fields. do 2 eexists.
    split; [reflexivity |]. split; [reflexivity | lia]. }
  destruct s as [| f s].
  { cbn [list_ascii_of_string] in Hvalid. range_digits.
    all: digit_facts; read_fields; do 2 eexists;
      (split; [reflexivity |]); (split; [reflexivity |]);
      try change (Z.of_nat (nat_of_ascii "2")) with 50; lia. }
  destruct s as [| g s]; [discriminate |].
  destruct s as [| h s].
  { cbn [list_ascii_of_string] in Hvalid. range_digits.
    all: digit_facts; read_fields; do 2 eexists;
      (split; [reflexivity |]); (split; [reflexivity |]); lia. }
  destruct s as [| i s]; [| discriminate].
  cbn [list_ascii_of_string] in Hvalid. range_digits.
  all: digit_facts; read_fields; do 2 eexists;
    (split; [reflexivity |]); (split; [reflexivity |]);
    try change (Z.of_nat (nat_of_ascii "2")) with 50; lia.
Qed.

(** X2.  A time string that [validateRosterTime] accepts is read by
    [timeStringToMinutes] as a minute of the day: a number from 0 to
    1439, never [NaN]. *)
Theorem validated_time_is_a_minute_of_the_day (s : string)
        (Hvalid : LateDurationUtils.validateRosterTime s = true) :
  exists m, LateDurationUtils.timeStringToMinutes s = Js.Num m /\ 0 <= m < 1440.
Proof.
  destruct (validateRosterTime_fields _ Hvalid) as (h & m & Hh & Hm & Rh & Rm).
  unfold LateDurationUtils.timeStringToMinutes. cbv zeta. rewrite Hh, Hm.
  cbn [Js.mul Js.add]. eexists. split; [reflexivity | lia].
Qed.

Lemma validated_time_is_a_minute_of_the_day_witness :
  LateDurationUtils.validateRosterTime "9:30" = true
  /\ exists m, LateDurationUtils.timeStringToMinutes "9:30" = Js.Num m /\ 0 <= m < 1440.
Proof.
  split; [reflexivity |].
  apply (validated_time_is_a_minute_of_the_day "9:30"). reflexivity.
Defined.

(** X3.  Conversely, every minute of the day (0 to 1439) is printed by
    [minutesToTimeString] as a string that [validateRosterTime] accepts,
    and that [new Date] reads as the same time of day. *)
Theorem minute_of_the_day_prints_as_a_valid_time (m : Z) (Hm : 0 <= m < 1440) :
  LateDurationUtils.validateRosterTime
    (LateDurationUtils.minutesToTimeString (Js.Num m)) = true
  /\ Time.parseTimeOfDay (LateDurationUtils.minutesToTimeString (Js.Num m))
     = Some (m * Time.msPerMinute).
Proof.
  assert (H : forallb
                (fun n =>
                   let s := LateDurationUtils.minutesToTimeString (Js.Num (Z.of_nat n)) in
                   LateDurationUtils.validateRosterTime s
                   && match Time.parseTimeOfDay s with
                      | Some ms => ms =? Z.of_nat n * Time.msPerMinute
                      | None => false
                      end)
                (seq 0 1440) = true) by (vm_compute; reflexivity).
  rewrite forallb_forall in H.
  specialize (H (Z.to_nat m)). rewrite Z2Nat.id in H by lia.
  cbv zeta in H.
  assert (Hin : In (Z.to_nat m) (seq 0 1440)) by (apply in_seq; lia).
  apply H in Hin. apply andb_prop in Hin as [Hv Hp]. split; [exact Hv |].
  destruct (Time.parseTimeOfDay _) as [ms |]; [| discriminate].
  apply Z.eqb_eq in Hp. now subst.
Qed.

Lemma minute_of_the_day_prints_as_a_valid_time_witness :
  0 <= 545 < 1440
  /\ LateDurationUtils.minutesToTimeString (Js.Num 545) = "09:05"%string
  /\ LateDurationUtils.validateRosterTime
       (LateDurationUtils.minutesToTimeString (Js.Num 545)) = true
  /\ Time.parseTimeOfDay (LateDurationUtils.minutesToTimeString (Js.Num 545))
     = Some (545 * Time.msPerMinute).
Proof.
  split; [lia |]. split; [reflexivity |].
  apply (minute_of_the_day_prints_as_a_valid_time 545). lia.
Defined.

(** X4.  On every time string that [new Date] can read,
    [timeStringToMinutes] gives the whole minutes of the time that
    [new Date] reads (seconds are dropped). *)
Theorem timeStringToMinutes_agrees_with_Date (s : string) (ms : Z)
        (Hparse : Time.parseTimeOfDay s = Some ms) :
  LateDurationUtils.timeStringToMinutes s = Js.Num (ms / Time.msPerMinute).
Proof.
  destruct (split_of_time_string _ _ Hparse) as (h & m & rest & Hh & Hm & Hms & Hrest).
  unfold LateDurationUtils.timeStringToMinutes. cbv zeta. rewrite Hh, Hm.
  cbn [Js.mul Js.add]. f_equal.
  unfold Time.msPerHour, Time.msPerMinute in *.
  replace ms with (rest + (h * 60 + m) * (1000 * 60)) by lia.
  rewrite Z.div_add by lia. rewrite (Z.div_small rest) by lia. lia.
Qed.

Lemma timeStringToMinutes_agrees_with_Date_witness :
  Time.parseTimeOfDay "08:30:45" = Some 30645000
  /\ LateDurationUtils.timeStringToMinutes "08:30:45" = Js.Num (30645000 / Time.msPerMinute).
Proof.
  split; [reflexivity |].
  apply (timeStringToMinutes_agrees_with_Date "08:30:45" 30645000). reflexivity.
Defined.

Lemma Qmax0_of_nonpos (q : Q) : (q <= 0)%Q -> (Qmax 0 q == 0)%Q.
Proof. intros H. now apply Q.max_l. Qed.

Lemma Qmax0_of_nonneg (q : Q) : (0 <= q)%Q -> (Qmax 0 q == q)%Q.
Proof. intros H. now apply Q.max_r. Qed.

Lemma Zdiv_Q_nonneg (z k : Z) : 0 <= z -> 0 < k -> (0 <= inject_Z z / inject_Z k)%Q.
Proof.
  intros Hz Hk. apply Qle_shift_div_l.
  - change 0%Q with (inject_Z 0). rewrite <- Zlt_Qlt. exact Hk.
  - rewrite Qmult_0_l. change 0%Q with (inject_Z 0). rewrite <- Zle_Qle. exact Hz.
Qed.

Lemma Zdiv_Q_nonpos (z k : Z) : z <= 0 -> 0 < k -> (inject_Z z / inject_Z k <= 0)%Q.
Proof.
  intros Hz Hk. apply Qle_shift_div_r.
  - change 0%Q with (inject_Z 0). rewrite <- Zlt_Qlt. exact Hk.
  - rewrite Qmult_0_l. change 0%Q with (inject_Z 0). rewrite <- Zle_Qle. exact Hz.
Qed.

(** X5.  For a roster whose start and end times are accepted by
    [validateRosterTime], [calculateExpectedWorkingHours] is a number,
    never [NaN]: the hours from start to end less the break, and 0 when
    the end is not after the start plus the break (as for a shift that
    ends after midnight). *)
Theorem expected_working_hours_of_validated_times
        (roster : Roster.t) (start_time end_time : string)
        (Hstart : Roster.start_time roster = Some start_time)
        (Hend : Roster.end_time roster = Some end_time)
        (Hvs : LateDurationUtils.validateRosterTime start_time = true)
        (Hve : LateDurationUtils.validateRosterTime end_time = true) :
  let break := match Roster.break_duration roster with Some b => b | None => 0 end in
  exists s e q,
    LateDurationUtils.timeStringToMinutes start_time = Js.Num s
    /\ LateDurationUtils.timeStringToMinutes end_time = Js.Num e
    /\ LateDurationUtils.calculateExpectedWorkingHours roster = Js.Real q
    /\ (e <= s + break -> (q == 0)%Q)
    /\ (s + break <= e -> (q == inject_Z (e - s - break) / 60)%Q).
Proof.
  intros break.
  destruct (validateRosterTime_fields _ Hvs) as (sh & sm & Hsh & Hsm & _).
  destruct (validateRosterTime_fields _ Hve) as (eh & em & Heh & Hem & _).
  assert (Hs : LateDurationUtils.timeStringToMinutes start_time
               = Js.Num (sh * 60 + sm))
    by (unfold LateDurationUtils.timeStringToMinutes; cbv zeta; now rewrite Hsh, Hsm).
  assert (He : LateDurationUtils.timeStringToMinutes end_time
               = Js.Num (eh * 60 + em))
    by (unfold LateDurationUtils.timeStringToMinutes; cbv zeta; now rewrite Heh, Hem).
  exists (sh * 60 + sm), (eh * 60 + em). eexists.
  split; [exact Hs |]. split; [exact He |].
  unfold LateDurationUtils.calculateExpectedWorkingHours.
  rewrite Hstart, Hend. cbv zeta. rewrite Hs, He. cbn [Js.sub Js.div Js.max0].
  fold break. split; [reflexivity |]. split; intros H.
  - apply Qmax0_of_nonpos. apply (Zdiv_Q_nonpos _ 60); lia.
  - apply Qmax0_of_nonneg. apply (Zdiv_Q_nonneg _ 60); lia.
Qed.

Lemma expected_working_hours_of_validated_times_witness :
  exists s e q,
    LateDurationUtils.timeStringToMinutes "08:00" = Js.Num s
    /\ LateDurationUtils.timeStringToMinutes "17:00" = Js.Num e
    /\ LateDurationUtils.calculateExpectedWorkingHours Scenario.roster_0800_grace_15
       = Js.Real q
    /\ (e <= s + 60 -> (q == 0)%Q)
    /\ (s + 60 <= e -> (q == inject_Z (e - s - 60) / 60)%Q).
Proof.
  apply (expected_working_hours_of_validated_times
           Scenario.roster_0800_grace_15 "08:00" "17:00"); reflexivity.
Defined.

(** ** Lateness against a validated start time *)

Lemma calculateLateDuration_numeric (tz checkIn : Z) (roster : Roster.t)
      (start : string) (h m : Z) (clock : Time.Clock) :
  Roster.start_time roster = Some start ->
  Js.nth_number 0 (map Js.Number (Js.split ":" start)) = Js.Num h ->
  Js.nth_number 1 (map Js.Number (Js.split ":" start)) = Js.Num m ->
  let rosterStart :=
    Time.localDay tz checkIn * Time.msPerDay + (h * 60 + m) * Time.msPerMinute - tz in
  let lateMinutes := Js.Num (Z.max 0 (Z.quot (checkIn - rosterStart) 60000)) in
  run (LateDurationUtils.calculateLateDuration tz checkIn roster) clock
  = {| LateDurationUtils.isLate := Js.gt lateMinutes (Js.Num 0);
       LateDurationUtils.lateMinutes := lateMinutes;
       LateDurationUtils.actualCheckInTime := Js.Num checkIn;
       LateDurationUtils.rosterStartTime := Js.Num rosterStart;
       LateDurationUtils.gracePeriodUsed := 0;
       LateDurationUtils.formattedLateDuration :=
         LateDurationUtils.formatLateDuration lateMinutes |}.
Proof.
  intros Hstart Hh Hm rosterStart lateMinutes.
  unfold LateDurationUtils.calculateLateDuration, run.
  rewrite Hstart. cbv zeta. rewrite Hh, Hm.
  unfold Time.setHours, Time.differenceInMinutes.
  cbn [runState ret Monad_state fst Js.Math_max].
  subst lateMinutes rosterStart.
  replace (Time.localDay tz checkIn * Time.msPerDay + h * Time.msPerHour
           + m * Time.msPerMinute - tz)
    with (Time.localDay tz checkIn * Time.msPerDay
          + (h * 60 + m) * Time.msPerMinute - tz)
    by (unfold Time.msPerHour, Time.msPerMinute; lia).
  reflexivity.
Qed.

(** X6.  With a start time that [validateRosterTime] accepts (also one
    with a one-digit hour or with seconds), [calculateLateDuration]
    never returns [NaN]: the start is the minute of the day that
    [timeStringToMinutes] reads, on the local date of the check-in; the
    late minutes are the whole minutes from it to the check-in, at
    least 0; and the employee is late exactly from one full minute
    after the start. *)
Theorem validated_start_gives_whole_minutes_late
        (tz checkIn : Z) (roster : Roster.t) (start : string) (clock : Time.Clock)
        (Hstart : Roster.start_time roster = Some start)
        (Hvalid : LateDurationUtils.validateRosterTime start = true) :
  exists minuteOfDay,
    LateDurationUtils.timeStringToMinutes start = Js.Num minuteOfDay
    /\ let rosterStart :=
         Time.localDay tz checkIn * Time.msPerDay
         + minuteOfDay * Time.msPerMinute - tz in
       let d := run (LateDurationUtils.calculateLateDuration tz checkIn roster) clock in
       LateDurationUtils.rosterStartTime d = Js.Num rosterStart
       /\ LateDurationUtils.lateMinutes d
          = Js.Num (Z.max 0 (Z.quot (checkIn - rosterStart) Time.msPerMinute))
       /\ nonneg (LateDurationUtils.lateMinutes d)
       /\ (LateDurationUtils.isLate d = true <-> rosterStart + Time.msPerMinute <= checkIn).
Proof.
  destruct (validateRosterTime_fields _ Hvalid) as (h & m & Hh & Hm & Rh & Rm).
  exists (h * 60 + m). split.
  { unfold LateDurationUtils.timeStringToMinutes. cbv zeta. now rewrite Hh, Hm. }
  intros rosterStart d. subst d.
  rewrite (calculateLateDuration_numeric tz checkIn roster start h m clock Hstart Hh Hm).
  cbn [LateDurationUtils.rosterStartTime LateDurationUtils.lateMinutes
       LateDurationUtils.isLate Js.gt nonneg].
  fold rosterStart. change 60000 with Time.msPerMinute.
  split; [reflexivity |]. split; [reflexivity |]. split; [lia |].
  rewrite Z.ltb_lt. unfold Time.msPerMinute.
  destruct (Z.le_gt_cases (rosterStart + 1000 * 60) checkIn) as [Hle | Hgt].
  - split; [intros _; exact Hle |]. intros _.
    assert (1 <= Z.quot (checkIn - rosterStart) (1000 * 60))
      by (apply Z.quot_le_lower_bound; lia).
    lia.
  - split; [| lia]. intros H.
    assert (Z.quot (checkIn - rosterStart) (1000 * 60) <= 0).
    { destruct (Z.le_gt_cases 0 (checkIn - rosterStart)).
      - rewrite Z.quot_small by lia. lia.
      - apply Z.quot_le_upper_bound; lia. }
    lia.
Qed.

Lemma validated_start_gives_whole_minutes_late_witness :
  LateDurationUtils.validateRosterTime "9:00" = true
  /\ exists minuteOfDay,
       LateDurationUtils.timeStringToMinutes "9:00" = Js.Num minuteOfDay
       /\ let rosterStart :=
            Time.localDay 0 (Scenario.at_ 9 10) * Time.msPerDay
            + minuteOfDay * Time.msPerMinute - 0 in
          let d :=
            run (LateDurationUtils.calculateLateDuration
                   0 (Scenario.at_ 9 10)
                   (Scenario.roster "r1" (Some "9:00"%string) None SP_absent 0))
                (Time.stopped_at 0) in
          LateDurationUtils.rosterStartTime d = Js.Num rosterStart
          /\ LateDurationUtils.lateMinutes d
             = Js.Num (Z.max 0 (Z.quot (Scenario.at_ 9 10 - rosterStart) Time.msPerMinute))
          /\ nonneg (LateDurationUtils.lateMinutes d)
          /\ (LateDurationUtils.isLate d = true
              <-> rosterStart + Time.msPerMinute <= Scenario.at_ 9 10).
Proof.
  split; [reflexivity |].
  apply (validated_start_gives_whole_minutes_late
           0 (Scenario.at_ 9 10)
           (Scenario.roster "r1" (Some "9:00"%string) None SP_absent 0)
           "9:00" (Time.stopped_at 0)); reflexivity.
Defined.

(** ** Severity of a late arrival ([getLateDurationInfo]) *)

Lemma getLateDurationInfo_severity (tz t : Z) (roster : Roster.t) (c : Time.Clock) :
  LateDurationUtils.severity (run (LateDurationUtils.getLateDurationInfo tz t roster) c)
  = let calculation := run (LateDurationUtils.calculateLateDuration tz t roster) c in
    if negb (LateDurationUtils.isLate calculation) then LateDurationUtils.none
    else if Js.le (LateDurationUtils.lateMinutes calculation) (Js.Num 15)
         then LateDurationUtils.minor
         else if Js.le (LateDurationUtils.lateMinutes calculation) (Js.Num 30)
              then LateDurationUtils.major
              else LateDurationUtils.critical.
Proof.
  unfold run, LateDurationUtils.getLateDurationInfo.
  cbn [bind Monad_state runState ret fst].
  destruct (runState (LateDurationUtils.calculateLateDuration tz t roster) c)
    as [calculation c'].
  cbn [fst]. cbv zeta.
  destruct (negb (LateDurationUtils.isLate calculation)); [reflexivity |].
  destruct (Js.le (LateDurationUtils.lateMinutes calculation) (Js.Num 15));
    [reflexivity |].
  destruct (Js.le (LateDurationUtils.lateMinutes calculation) (Js.Num 30));
    reflexivity.
Qed.

(** X7.  The severity of [getLateDurationInfo] never goes down with a
    later check-in on the same local day, for any roster: none, minor,
    major, critical in this order. *)
Theorem severity_grows_with_the_check_in
        (tz t1 t2 : Z) (roster : Roster.t) (c1 c2 : Time.Clock)
        (Hday : Time.localDay tz t1 = Time.localDay tz t2)
        (Hle : t1 <= t2) :
  Notions.rank
    (LateDurationUtils.severity
       (run (LateDurationUtils.getLateDurationInfo tz t1 roster) c1))
  <= Notions.rank
       (LateDurationUtils.severity
          (run (LateDurationUtils.getLateDurationInfo tz t2 roster) c2)).
Proof.
  rewrite !getLateDurationInfo_severity. cbv zeta.
  destruct (Roster.start_time roster) as [start |] eqn:Hstart.
  2: { unfold run, LateDurationUtils.calculateLateDuration. rewrite Hstart.
       cbn. lia. }
  destruct (Js.nth_number 0 (map Js.Number (Js.split ":" start))) as [h |] eqn:Hh.
  2: { destruct (calculateLateDuration_non_numeric_start
                   tz t1 roster start c1 Hstart (or_introl Hh)) as (_ & -> & _).
       cbn. destruct (negb _); [cbn; lia |].
       repeat destruct (Js.le _ _); cbn; lia. }
  destruct (Js.nth_number 1 (map Js.Number (Js.split ":" start))) as [m |] eqn:Hm.
  2: { destruct (calculateLateDuration_non_numeric_start
                   tz t1 roster start c1 Hstart (or_intror Hm)) as (_ & -> & _).
       cbn. destruct (negb _); [cbn; lia |].
       repeat destruct (Js.le _ _); cbn; lia. }
  rewrite (calculateLateDuration_numeric tz t1 roster start h m c1 Hstart Hh Hm).
  rewrite (calculateLateDuration_numeric tz t2 roster start h m c2 Hstart Hh Hm).
  cbn [LateDurationUtils.isLate LateDurationUtils.lateMinutes Js.gt Js.le].
  rewrite Hday.
  set (R := Time.localDay tz t2 * Time.msPerDay + (h * 60 + m) * Time.msPerMinute - tz).
  assert (Hq : Z.quot (t1 - R) 60000 <= Z.quot (t2 - R) 60000)
    by (apply Z.quot_le_mono; lia).
  repeat match goal with
         | |- context [?a <? ?b] => destruct (Z.ltb_spec a b)
         | |- context [?a <=? ?b] => destruct (Z.leb_spec a b)
         end; cbn; lia.
Qed.

Lemma severity_grows_with_the_check_in_witness :
  Time.localDay 0 (Scenario.at_ 8 10) = Time.localDay 0 (Scenario.at_ 8 40)
  /\ Scenario.at_ 8 10 <= Scenario.at_ 8 40
  /\ LateDurationUtils.severity
       (run (LateDurationUtils.getLateDurationInfo
               0 (Scenario.at_ 8 10) Scenario.roster_0800_grace_15) (Time.stopped_at 0))
     = LateDurationUtils.minor
  /\ LateDurationUtils.severity
       (run (LateDurationUtils.getLateDurationInfo
               0 (Scenario.at_ 8 40) Scenario.roster_0800_grace_15) (Time.stopped_at 0))
     = LateDurationUtils.critical
  /\ Notions.rank
       (LateDurationUtils.severity
          (run (LateDurationUtils.getLateDurationInfo
                  0 (Scenario.at_ 8 10) Scenario.roster_0800_grace_15) (Time.stopped_at 0)))
     <= Notions.rank
          (LateDurationUtils.severity
             (run (LateDurationUtils.getLateDurationInfo
                     0 (Scenario.at_ 8 40) Scenario.roster_0800_grace_15)
                  (Time.stopped_at 0))).
Proof.
  split; [reflexivity |]. split; [vm_compute; discriminate |].
  split; [reflexivity |]. split; [reflexivity |].
  apply (severity_grows_with_the_check_in
           0 (Scenario.at_ 8 10) (Scenario.at_ 8 40) Scenario.roster_0800_grace_15
           (Time.stopped_at 0) (Time.stopped_at 0)).
  - reflexivity.
  - vm_compute; discriminate.
Defined.

(** ** The two duration formatters *)

(** X8.  [formatDuration] of the report and [formatLateDuration] of
    the utilities print every whole number of minutes from 0 on alike.
    (They differ on [NaN] and on negative numbers.) *)
Theorem report_and_utils_format_durations_alike (m : Z) (Hm : 0 <= m) :
  PresentEmployeeReport.formatDuration (Some (Js.Num m))
  = LateDurationUtils.formatLateDuration (Js.Num m).
Proof.
  unfold PresentEmployeeReport.formatDuration, LateDurationUtils.formatLateDuration.
  cbn [Js.falsy Js.strict_eq Js.le Js.floor_div Js.rem Js.gt]. rewrite orb_diag.
  destruct (Z.eqb_spec m 0) as [-> | Hne]; [reflexivity |].
  destruct (Z.leb_spec m 0); [lia |].
  assert (0 <= m / 60) by (apply Z.div_pos; lia).
  destruct (Z.eqb_spec (m / 60) 0) as [E | E], (Z.ltb_spec 0 (m / 60));
    try lia; reflexivity.
Qed.

Lemma report_and_utils_format_durations_alike_witness :
  0 <= 125
  /\ LateDurationUtils.formatLateDuration (Js.Num 125) = "2H 05M"%string
  /\ PresentEmployeeReport.formatDuration (Some (Js.Num 125))
     = LateDurationUtils.formatLateDuration (Js.Num 125).
Proof.
  split; [lia |]. split; [reflexivity |].
  apply (report_and_utils_format_durations_alike 125). lia.
Defined.

(** ** src/utils/lateCalculation.ts *)

(** X9.  Called without a grace period and without a date,
    [isEmployeeLate] gives the [isLate] of [calculateLateness], for
    every start time string (also an empty or an unreadable one). *)
Theorem isEmployeeLate_agrees_with_calculateLateness
        (tz checkIn : Z) (attendance : Attendance.t) (roster : Roster.t) (start : string)
        (Hin : Attendance.first_check_in_time attendance = Some checkIn)
        (Hstart : Roster.start_time roster = Some start) :
  LateCalculation.isEmployeeLate tz checkIn start None None
  = LateCalculation.isLate (LateCalculation.calculateLateness tz attendance roster).
Proof.
  unfold LateCalculation.isEmployeeLate, LateCalculation.calculateLateness.
  rewrite Hin, Hstart. cbv zeta. rewrite !Z.mul_0_l.
  destruct start as [| a start].
  - reflexivity.
  - cbn [Js.truthy_string negb].
    destruct (Js.gt _ _); reflexivity.
Qed.

Lemma isEmployeeLate_agrees_with_calculateLateness_witness :
  LateCalculation.isEmployeeLate 0 (Scenario.at_ 8 20) "08:00" None None = true
  /\ LateCalculation.isEmployeeLate 0 (Scenario.at_ 8 20) "08:00" None None
     = LateCalculation.isLate
         (LateCalculation.calculateLateness
            0 Scenario.check_in_0820 Scenario.roster_0800_grace_15).
Proof.
  split; [reflexivity |].
  apply (isEmployeeLate_agrees_with_calculateLateness
           0 (Scenario.at_ 8 20) Scenario.check_in_0820 Scenario.roster_0800_grace_15
           "08:00"); reflexivity.
Defined.

(** X10.  An employee who is late under a grace period is late under
    every shorter one: lengthening the grace period of
    [isEmployeeLate] never turns "not late" into "late". *)
Theorem longer_grace_period_never_makes_late
        (tz checkIn g1 g2 : Z) (start : string) (date : option Z)
        (Hg : g1 <= g2)
        (Hlate : LateCalculation.isEmployeeLate tz checkIn start (Some g2) date = true) :
  LateCalculation.isEmployeeLate tz checkIn start (Some g1) date = true.
Proof.
  unfold LateCalculation.isEmployeeLate in *. cbv zeta in *.
  destruct (Time.Date_of_local tz _ start) as [rosterStart |]; [| discriminate].
  cbn [Js.sub Js.gt] in *. apply Z.ltb_lt in Hlate. apply Z.ltb_lt. lia.
Qed.

Lemma longer_grace_period_never_makes_late_witness :
  5 <= 15
  /\ LateCalculation.isEmployeeLate 0 (Scenario.at_ 8 20) "08:00" (Some 15) None = true
  /\ LateCalculation.isEmployeeLate 0 (Scenario.at_ 8 20) "08:00" (Some 5) None = true.
Proof.
  split; [lia |]. split; [reflexivity |].
  apply (longer_grace_period_never_makes_late 0 (Scenario.at_ 8 20) 5 15 "08:00" None).
  - lia.
  - reflexivity.
Defined.

(** X11.  The result of [calculateLateness] is consistent in itself,
    on every input: [lateDisplay] is [formatLateTime] of [lateMinutes],
    [lateHours] is the whole hours of [lateMinutes], and a result that
    is not late has 0 late minutes. *)
Theorem lateDisplay_is_formatLateTime
        (tz : Z) (attendance : Attendance.t) (roster : Roster.t) :
  let r := LateCalculation.calculateLateness tz attendance roster in
  LateCalculation.lateDisplay r
  = LateCalculation.formatLateTime (LateCalculation.lateMinutes r)
  /\ LateCalculation.lateHours r = Js.floor_div (LateCalculation.lateMinutes r) 60
  /\ (LateCalculation.isLate r = false -> LateCalculation.lateMinutes r = Js.Num 0).
Proof.
  cbv zeta. unfold LateCalculation.calculateLateness.
  destruct (Attendance.first_check_in_time attendance) as [checkIn |];
    [| repeat split].
  destruct (negb (Js.truthy_string (Roster.start_time roster))); [repeat split |].
  destruct (Roster.start_time roster) as [start |]; [| repeat split].
  cbv zeta.
  destruct (Js.sub (Js.Num checkIn) _) as [diff |]; [| repeat split].
  cbn [Js.gt Js.floor_div Js.rem].
  destruct (Z.ltb_spec 0 diff) as [Hpos | Hneg]; [| repeat split].
  cbn [LateCalculation.lateDisplay LateCalculation.lateMinutes LateCalculation.lateHours
       LateCalculation.isLate].
  split; [| split; [reflexivity | discriminate]].
  unfold LateCalculation.formatLateTime. cbn [Js.le Js.floor_div Js.rem].
  assert (0 <= diff / (1000 * 60)) by (apply Z.div_pos; lia).
  destruct (Z.leb_spec (diff / (1000 * 60)) 0) as [Hz | Hz]; [| reflexivity].
  replace (diff / (1000 * 60)) with 0 by lia. reflexivity.
Qed.

Lemma lateDisplay_is_formatLateTime_witness :
  LateCalculation.lateDisplay
    (LateCalculation.calculateLateness
       0 Scenario.check_in_0820 Scenario.roster_0800_grace_15)
  = LateCalculation.formatLateTime
      (LateCalculation.lateMinutes
         (LateCalculation.calculateLateness
            0 Scenario.check_in_0820 Scenario.roster_0800_grace_15)).
Proof.
  exact (proj1 (lateDisplay_is_formatLateTime
                  0 Scenario.check_in_0820 Scenario.roster_0800_grace_15)).
Defined.

(** ** The roster utilities *)

Lemma find_date_found (date : Z) (entries : list (option DailyShift.t))
      (shift : DailyShift.t) :
  RosterUtils.find_date date entries = RosterUtils.Return (Some shift) ->
  DailyShift.date shift = Some date /\ In (Some shift) entries.
Proof.
  induction entries as [| [s |] rest IH]; cbn [RosterUtils.find_date];
    try discriminate.
  destruct (DailyShift.date s) as [d |] eqn:Hd.
  - destruct (Z.eqb_spec d date) as [-> | Hne].
    + intros [= <-]. split; [exact Hd | now left].
    + intros H. destruct (IH H). split; [assumption | now right].
  - intros H. destruct (IH H). split; [assumption | now right].
Qed.

(** X12.  A shift that [getShiftForDate] returns carries the date
    asked for; it is an entry of the roster's pattern, or the "regular"
    shift with the roster's own start and end times. *)
Theorem getShiftForDate_answers_for_the_date
        (roster : Roster.t) (date : Z) (shift : DailyShift.t)
        (Hshift : RosterUtils.getShiftForDate roster date = RosterUtils.Return shift) :
  DailyShift.date shift = Some date
  /\ ((exists entries, Roster.shift_pattern roster = SP_array entries
                       /\ In (Some shift) entries)
      \/ (DailyShift.shift shift = Some "regular"%string
          /\ DailyShift.time_slot shift
             = Some {| TimeSlot.start_time := Roster.start_time roster;
                       TimeSlot.end_time := Roster.end_time roster |})).
Proof.
  unfold RosterUtils.getShiftForDate in Hshift. cbv zeta in Hshift.
  destruct (Roster.shift_pattern roster) as [| entries |] eqn:Hpattern.
  - injection Hshift as <-. split; [reflexivity | right; split; reflexivity].
  - destruct entries as [| e entries].
    + injection Hshift as <-. split; [reflexivity | right; split; reflexivity].
    + destruct (RosterUtils.find_date date (e :: entries)) as [[found |] |] eqn:Hfind;
        try discriminate.
      * injection Hshift as <-.
        destruct (find_date_found _ _ _ Hfind) as [Hd Hin].
        split; [exact Hd |]. left. now exists (e :: entries).
      * injection Hshift as <-. split; [reflexivity | right; split; reflexivity].
  - discriminate.
Qed.

Lemma getShiftForDate_answers_for_the_date_witness :
  RosterUtils.getShiftForDate Scenario.sunday_off_by_date Scenario.sunday
  = RosterUtils.Return (Scenario.off_by_date Scenario.sunday)
  /\ DailyShift.date (Scenario.off_by_date Scenario.sunday) = Some Scenario.sunday.
Proof.
  split; [reflexivity |].
  apply (getShiftForDate_answers_for_the_date
           Scenario.sunday_off_by_date Scenario.sunday
           (Scenario.off_by_date Scenario.sunday)).
  reflexivity.
Defined.

Lemma insert_start_desc_perm (r : Roster.t) (l : list Roster.t) :
  Permutation (Supabase.insert_start_desc r l) (r :: l).
Proof.
  induction l as [| x l IH]; cbn; [reflexivity |].
  destruct (Roster.start_date x <? Roster.start_date r); [reflexivity |].
  rewrite IH. apply perm_swap.
Qed.

Lemma order_start_date_desc_perm (l : list Roster.t) :
  Permutation (Supabase.order_start_date_desc l) l.
Proof.
  induction l as [| x l IH]; cbn; [reflexivity |].
  rewrite insert_start_desc_perm. now constructor.
Qed.

Lemma insert_start_desc_sorted (r : Roster.t) (l : list Roster.t) :
  Sorted Supabase.starts_no_earlier l ->
  Sorted Supabase.starts_no_earlier (Supabase.insert_start_desc r l).
Proof.
  induction l as [| x l IH]; cbn; intros Hs.
  - repeat constructor.
  - destruct (Z.ltb_spec (Roster.start_date x) (Roster.start_date r)).
    + constructor; [assumption |]. constructor. unfold Supabase.starts_no_earlier. lia.
    + inversion Hs as [| ? ? Hl Hhd]; subst.
      constructor; [now apply IH |].
      destruct l as [| y l]; cbn.
      * constructor. unfold Supabase.starts_no_earlier. lia.
      * destruct (Roster.start_date y <? Roster.start_date r).
        -- constructor. unfold Supabase.starts_no_earlier. lia.
        -- inversion Hhd; subst. now constructor.
Qed.

Lemma order_start_date_desc_sorted (l : list Roster.t) :
  StronglySorted Supabase.starts_no_earlier (Supabase.order_start_date_desc l).
Proof.
  apply Sorted_StronglySorted.
  - unfold Relations_1.Transitive, Supabase.starts_no_earlier. intros; lia.
  - induction l as [| x l IH]; cbn; [constructor | now apply insert_start_desc_sorted].
Qed.

(** X13.  When the store answers, [getEmployeeRosters] returns exactly
    the rosters of the employee (active or not), those that start later
    first; when the request fails it returns the empty list. *)
Theorem getEmployeeRosters_lists_the_rosters_by_start_date
        (supabase : Supabase.Client) (employeeId : string) :
  (Supabase.health supabase = Supabase.Up ->
   Permutation
     (RosterUtils.getEmployeeRosters supabase employeeId)
     (filter (fun r => String.eqb (Roster.employee_id r) employeeId)
             (Supabase.rosters supabase))
   /\ StronglySorted Supabase.starts_no_earlier
                     (RosterUtils.getEmployeeRosters supabase employeeId))
  /\ (Supabase.health supabase <> Supabase.Up ->
      RosterUtils.getEmployeeRosters supabase employeeId = []).
Proof.
  unfold RosterUtils.getEmployeeRosters, Supabase.answer.
  destruct (Supabase.health supabase); split; try congruence; intros _.
  split; [apply order_start_date_desc_perm | apply order_start_date_desc_sorted].
Qed.

(** X14.  The roster that [getEmployeeRosterForDate] resolves is one of
    the rosters that [getEmployeeRosters] lists for the employee; it is
    active and its period covers the date. *)
Theorem resolved_roster_is_among_the_employee_rosters
        (supabase : Supabase.Client) (employeeId : string) (date : Z) (roster : Roster.t)
        (Hresolved :
           RosterUtils.getEmployeeRosterForDate supabase employeeId date = Some roster) :
  In roster (RosterUtils.getEmployeeRosters supabase employeeId)
  /\ Roster.is_active roster = true
  /\ Roster.start_date roster <= date <= Roster.end_date roster.
Proof.
  unfold RosterUtils.getEmployeeRosterForDate, RosterUtils.getEmployeeRosters,
    Supabase.answer in *.
  destruct (Supabase.health supabase); try discriminate.
  cbn in Hresolved.
  destruct (Supabase.order_created_at_desc _) as [| first rest] eqn:Hord;
    [discriminate |].
  cbn in Hresolved. injection Hresolved as ->.
  destruct (first_of_ordered_is_latest _ _ _ Hord) as [Hin _].
  apply filter_In in Hin as [Hin Hact].
  unfold Supabase.active_on in Hact.
  apply andb_prop in Hact as [Hact Hend]. apply andb_prop in Hact as [Hact Hbegin].
  apply andb_prop in Hact as [Hemp Hactive].
  apply Z.leb_le in Hend, Hbegin. apply Bool.eqb_prop in Hactive.
  split; [| split; [exact Hactive | lia]].
  cbn. apply (Permutation_in _ (Permutation_sym (order_start_date_desc_perm _))).
  apply filter_In. split; assumption.
Qed.

Lemma resolved_roster_is_among_the_employee_rosters_witness :
  RosterUtils.getEmployeeRosterForDate
    (Scenario.store [Scenario.older; Scenario.newer]) "e1" (Civil.ymd 2024 3 20)
  = Some Scenario.newer
  /\ In Scenario.newer
        (RosterUtils.getEmployeeRosters (Scenario.store [Scenario.older; Scenario.newer]) "e1")
  /\ Roster.is_active Scenario.newer = true
  /\ Roster.start_date Scenario.newer <= Civil.ymd 2024 3 20
     <= Roster.end_date Scenario.newer.
Proof.
  split; [reflexivity |].
  apply (resolved_roster_is_among_the_employee_rosters
           (Scenario.store [Scenario.older; Scenario.newer]) "e1" (Civil.ymd 2024 3 20)
           Scenario.newer).
  reflexivity.
Defined.

(** X15.  For a resolved roster without a shift pattern and the UTC
    date of the check-in, [calculateRosterBasedLateness] returns the
    [calculateLateMinutes] of that roster, whatever its start time
    holds. *)
Theorem roster_based_lateness_agrees_with_calculateLateness
        (tz : Z) (supabase : Supabase.Client) (employeeId : string) (checkIn : Z)
        (attendance : Attendance.t) (roster : Roster.t)
        (Hin : Attendance.first_check_in_time attendance = Some checkIn)
        (Hresolved :
           RosterUtils.getEmployeeRosterForDate supabase employeeId (Time.utcDay checkIn)
           = Some roster)
        (Hpattern : Roster.shift_pattern roster = SP_absent) :
  RosterUtils.calculateRosterBasedLateness
    tz supabase employeeId checkIn (Time.utcDay checkIn)
  = LateCalculation.calculateLateMinutes tz attendance roster.
Proof.
  unfold RosterUtils.calculateRosterBasedLateness, LateCalculation.calculateLateMinutes,
    LateCalculation.calculateLateness, RosterUtils.getShiftForDate.
  rewrite Hresolved, Hin, Hpattern. cbv zeta.
  cbn [DailyShift.shift DailyShift.time_slot TimeSlot.start_time String.eqb].
  cbn [String.eqb Ascii.eqb Bool.eqb].
  unfold RosterUtils.or_string.
  destruct (Roster.start_time roster) as [[| a start] |]; try reflexivity.
  cbn [Js.truthy_string negb].
  destruct (Js.gt _ _); reflexivity.
Qed.

Lemma roster_based_lateness_agrees_with_calculateLateness_witness :
  RosterUtils.calculateRosterBasedLateness
    0 (Scenario.store [Scenario.roster_0800_grace_15]) "e1"
    (Scenario.at_ 8 20) (Time.utcDay (Scenario.at_ 8 20))
  = Js.Num 20
  /\ RosterUtils.calculateRosterBasedLateness
       0 (Scenario.store [Scenario.roster_0800_grace_15]) "e1"
       (Scenario.at_ 8 20) (Time.utcDay (Scenario.at_ 8 20))
     = LateCalculation.calculateLateMinutes
         0 Scenario.check_in_0820 Scenario.roster_0800_grace_15.
Proof.
  split; [reflexivity |].
  apply (roster_based_lateness_agrees_with_calculateLateness
           0 (Scenario.store [Scenario.roster_0800_grace_15]) "e1" (Scenario.at_ 8 20)
           Scenario.check_in_0820 Scenario.roster_0800_grace_15); reflexivity.
Defined.

Lemma getEmployeeRosters_lists_the_rosters_by_start_date_witness :
  StronglySorted
    Supabase.starts_no_earlier
    (RosterUtils.getEmployeeRosters (Scenario.store [Scenario.older; Scenario.newer]) "e1").
Proof.
  apply (proj1 (getEmployeeRosters_lists_the_rosters_by_start_date
                  (Scenario.store [Scenario.older; Scenario.newer]) "e1")).
  reflexivity.
Defined.

(** ** The insights: groups, order and bounds *)

Lemma push_keys_from (K : Type) (eqb : K -> K -> bool) (k k' : K) (r : Attendance.t)
      (acc : list (K * list Attendance.t)) :
  In k' (map fst (AttendanceDataRecreationService.push eqb k r acc)) ->
  In k' (map fst acc) \/ k' = k.
Proof.
  induction acc as [| [k0 rs] acc IH]; cbn.
  - intros [H | []]; now right.
  - destruct (eqb k0 k); cbn.
    + intros H; now left.
    + intros [H | H]; [left; now left |].
      destruct (IH H) as [H' | H']; [left; now right | now right].
Qed.

Lemma groupBy_keys_from_records (K : Type) (eqb : K -> K -> bool)
      (key : Attendance.t -> K) (records : list Attendance.t) (k : K) :
  In k (map fst (AttendanceDataRecreationService.groupBy eqb key records)) ->
  In k (map key records).
Proof.
  unfold AttendanceDataRecreationService.groupBy.
  assert (H : forall acc,
             In k (map fst
                     (fold_left
                        (fun acc record =>
                           AttendanceDataRecreationService.push eqb (key record) record acc)
                        records acc)) ->
             In k (map fst acc) \/ In k (map key records)).
  { induction records as [| r records IH]; intros acc; cbn; [now left |].
    intros Hin. destruct (IH _ Hin) as [Hacc | Hrest]; [| right; now right].
    destruct (push_keys_from _ _ _ _ _ _ Hacc) as [H' | ->];
      [now left | right; now left]. }
  intros Hin. destruct (H [] Hin) as [[] | H']. exact H'.
Qed.

Lemma insert_by_date_sorted (t : AttendanceDataRecreationService.Trend)
      (l : list AttendanceDataRecreationService.Trend) :
  Sorted (fun a b => AttendanceDataRecreationService.date a
                     <= AttendanceDataRecreationService.date b) l ->
  Sorted (fun a b => AttendanceDataRecreationService.date a
                     <= AttendanceDataRecreationService.date b)
         (AttendanceDataRecreationService.insert_by_date t l).
Proof.
  induction l as [| x l IH]; cbn; intros Hs.
  - repeat constructor.
  - destruct (Z.ltb_spec (AttendanceDataRecreationService.date t)
                         (AttendanceDataRecreationService.date x)).
    + constructor; [assumption |]. constructor. lia.
    + inversion Hs as [| ? ? Hl Hhd]; subst.
      constructor; [now apply IH |].
      destruct l as [| y l]; cbn.
      * constructor. lia.
      * destruct (AttendanceDataRecreationService.date t
                  <? AttendanceDataRecreationService.date y).
        -- constructor. lia.
        -- inversion Hhd; subst. now constructor.
Qed.

Lemma sort_by_date_sorted (l : list AttendanceDataRecreationService.Trend) :
  StronglySorted (fun a b => AttendanceDataRecreationService.date a
                             <= AttendanceDataRecreationService.date b)
                 (AttendanceDataRecreationService.sort_by_date l).
Proof.
  apply Sorted_StronglySorted.
  - unfold Relations_1.Transitive. intros; lia.
  - induction l as [| x l IH]; cbn; [constructor | now apply insert_by_date_sorted].
Qed.

Lemma strictly_sorted (l : list AttendanceDataRecreationService.Trend) :
  StronglySorted (fun a b => AttendanceDataRecreationService.date a
                             <= AttendanceDataRecreationService.date b) l ->
  NoDup (map AttendanceDataRecreationService.date l) ->
  StronglySorted (fun a b => AttendanceDataRecreationService.date a
                             < AttendanceDataRecreationService.date b) l.
Proof.
  induction l as [| x l IH]; intros Hs Hnd; [constructor |].
  inversion Hs as [| ? ? Hl Hall]; subst.
  cbn in Hnd. inversion Hnd as [| ? ? Hnotin Hnd']; subst.
  constructor; [now apply IH |].
  rewrite Forall_forall in *. intros y Hy.
  specialize (Hall y Hy).
  assert (AttendanceDataRecreationService.date x <> AttendanceDataRecreationService.date y).
  { intros E. apply Hnotin. rewrite E. now apply in_map. }
  lia.
Qed.

Lemma map_fst_stats (groups : list (string * list Attendance.t)) :
  map fst
      (map (fun '(deptId, records) =>
              (deptId, AttendanceDataRecreationService.departmentStat records))
           groups)
  = map fst groups.
Proof.
  induction groups as [| [k rs] groups IH]; cbn; [reflexivity | now rewrite IH].
Qed.

Lemma map_date_trends (groups : list (Z * list Attendance.t)) :
  map AttendanceDataRecreationService.date
      (map (fun '(date, records) => AttendanceDataRecreationService.trend date records)
           groups)
  = map fst groups.
Proof.
  induction groups as [| [k rs] groups IH]; cbn; [reflexivity | now rewrite IH].
Qed.

(** X16.  The insights have one trend per date of the rows, in
    strictly ascending order of the dates, and one statistic per
    department of the rows (rows without a department under
    "unassigned"). *)
Theorem insights_have_one_entry_per_key (records : list Attendance.t) :
  let insights := AttendanceDataRecreationService.generateAttendanceInsights records in
  StronglySorted (fun a b => AttendanceDataRecreationService.date a
                             < AttendanceDataRecreationService.date b)
                 (AttendanceDataRecreationService.trends insights)
  /\ (forall d, In d (map AttendanceDataRecreationService.date
                          (AttendanceDataRecreationService.trends insights))
                <-> In d (map Attendance.date records))
  /\ NoDup (map fst (AttendanceDataRecreationService.departmentStats insights))
  /\ (forall k, In k (map fst (AttendanceDataRecreationService.departmentStats insights))
                <-> In k (map AttendanceDataRecreationService.deptId records)).
Proof.
  cbv zeta. unfold AttendanceDataRecreationService.generateAttendanceInsights.
  destruct records as [| r0 records0] eqn:Hrecords.
  { cbn. repeat split; try constructor; intros []. }
  rewrite <- Hrecords. clear Hrecords r0 records0.
  cbn [AttendanceDataRecreationService.trends AttendanceDataRecreationService.departmentStats].
  destruct (groupBy_spec Z.eqb Attendance.date Z.eqb_eq records) as (Hnd & Hall & _).
  destruct (groupBy_spec String.eqb AttendanceDataRecreationService.deptId
                         String.eqb_eq records) as (Hnd' & Hall' & _).
  set (trends := map (fun '(date, records) =>
                        AttendanceDataRecreationService.trend date records) _).
  assert (Hperm : Permutation
                    (map AttendanceDataRecreationService.date
                         (AttendanceDataRecreationService.sort_by_date trends))
                    (map fst (AttendanceDataRecreationService.groupBy
                                Z.eqb Attendance.date records))).
  { rewrite <- map_date_trends. apply Permutation_map. apply sort_by_date_perm. }
  split; [| split; [| split]].
  - apply strictly_sorted; [apply sort_by_date_sorted |].
    apply (Permutation_NoDup (Permutation_sym Hperm)). exact Hnd.
  - intros d. split; intros H.
    + apply (Permutation_in _ Hperm) in H.
      now apply groupBy_keys_from_records in H.
    + apply (Permutation_in _ (Permutation_sym Hperm)).
      apply in_map_iff in H as (r & <- & Hr). now apply Hall.
  - rewrite map_fst_stats. exact Hnd'.
  - intros k. rewrite map_fst_stats. split; intros H.
    + now apply groupBy_keys_from_records in H.
    + apply in_map_iff in H as (r & <- & Hr). now apply Hall'.
Qed.

Lemma of_nat_pos (n : nat) : (1 <= n)%nat -> (0 < Stored.of_nat n)%Q.
Proof.
  intros H. unfold Stored.of_nat. change 0%Q with (inject_Z 0).
  rewrite <- Zlt_Qlt. lia.
Qed.

Lemma of_nat_le (a b : nat) : (a <= b)%nat -> (Stored.of_nat a <= Stored.of_nat b)%Q.
Proof. intros H. unfold Stored.of_nat. rewrite <- Zle_Qle. lia. Qed.

(** [a / b * 100] is at least 100 when [b] is not more than [a]. *)
Lemma ratio_at_least_100 (a b : nat) :
  (1 <= b <= a)%nat -> (100 <= Stored.of_nat a / Stored.of_nat b * 100)%Q.
Proof.
  intros [Hb Hab].
  setoid_replace 100%Q with (1 * 100)%Q at 1 by reflexivity.
  apply Qmult_le_compat_r; [| discriminate].
  apply Qle_shift_div_l; [now apply of_nat_pos |].
  rewrite Qmult_1_l. now apply of_nat_le.
Qed.

(** [a / b * 100] is a percentage when [a] is not more than [b]. *)
Lemma ratio_is_a_percentage (a b : nat) :
  (a <= b)%nat -> (1 <= b)%nat ->
  (0 <= Stored.of_nat a / Stored.of_nat b * 100 <= 100)%Q.
Proof.
  intros Hab Hb. split.
  - apply Qmult_le_0_compat; [| discriminate].
    apply Qle_shift_div_l; [now apply of_nat_pos |].
    rewrite Qmult_0_l. unfold Stored.of_nat. change 0%Q with (inject_Z 0).
    rewrite <- Zle_Qle. lia.
  - setoid_replace 100%Q with (1 * 100)%Q at 2 by reflexivity.
    apply Qmult_le_compat_r; [| discriminate].
    apply Qle_shift_div_r; [now apply of_nat_pos |].
    rewrite Qmult_1_l. now apply of_nat_le.
Qed.

Lemma Set_size_bounds (xs : list (option string)) :
  xs <> [] ->
  (1 <= AttendanceDataRecreationService.Set_size xs <= List.length xs)%nat.
Proof.
  intros Hne. unfold AttendanceDataRecreationService.Set_size. split.
  - destruct xs as [| x xs]; [contradiction |].
    assert (Hin : In x (nodup AttendanceDataRecreationService.option_string_dec (x :: xs)))
      by (apply nodup_In; now left).
    destruct (nodup _ _); [contradiction | cbn; lia].
  - apply NoDup_incl_length; [apply NoDup_nodup |].
    intros x Hx. now apply nodup_In in Hx.
Qed.

Lemma filter_length_le {A : Type} (p : A -> bool) (l : list A) :
  (List.length (filter p l) <= List.length l)%nat.
Proof.
  induction l as [| x l IH]; cbn; [lia |].
  destruct (p x); cbn; lia.
Qed.

(** X17.  Every department statistic of the insights is computed
    from the rows of its department, which are not empty: the number of
    employees is at least 1 and at most the number of rows, the
    compliance rate is between 0 and 100, and [averageAttendance], the
    rows per employee times 100, is never below 100. *)
Theorem department_statistics_are_bounded
        (records : list Attendance.t) (department : string)
        (stat : AttendanceDataRecreationService.DepartmentStats)
        (Hstat :
           In (department, stat)
              (AttendanceDataRecreationService.departmentStats
                 (AttendanceDataRecreationService.generateAttendanceInsights records))) :
  let rows :=
    filter (fun r => String.eqb department (AttendanceDataRecreationService.deptId r))
           records in
  stat = AttendanceDataRecreationService.departmentStat rows
  /\ (1 <= AttendanceDataRecreationService.totalEmployees stat <= List.length rows)%nat
  /\ (100 <= AttendanceDataRecreationService.averageAttendance stat)%Q
  /\ (0 <= AttendanceDataRecreationService.complianceRate stat <= 100)%Q.
Proof.
  unfold AttendanceDataRecreationService.generateAttendanceInsights in Hstat.
  destruct records as [| r0 records0] eqn:Hrecords; [contradiction |].
  rewrite <- Hrecords in *. clear Hrecords r0 records0.
  intros rows.
  cbn [AttendanceDataRecreationService.departmentStats] in Hstat.
  apply in_map_iff in Hstat as ([k rs] & Heq & Hin).
  injection Heq as -> <-.
  destruct (groupBy_spec String.eqb AttendanceDataRecreationService.deptId
                         String.eqb_eq records) as (_ & _ & Hgroups).
  rewrite (Hgroups _ _ Hin). fold rows.
  assert (Hne : rows <> []).
  { assert (Hk : In department
                    (map fst (AttendanceDataRecreationService.groupBy
                                String.eqb AttendanceDataRecreationService.deptId records)))
      by (apply in_map_iff; now exists (department, rs)).
    apply groupBy_keys_from_records in Hk.
    apply in_map_iff in Hk as (r & Hr & Hrin).
    assert (In r rows).
    { apply filter_In. split; [exact Hrin |]. rewrite Hr. apply String.eqb_refl. }
    intros E. rewrite E in *. contradiction. }
  assert (Hsize : (1 <= AttendanceDataRecreationService.Set_size
                          (map AttendanceDataRecreationService.employeeId rows)
                   <= List.length rows)%nat).
  { rewrite <- (length_map AttendanceDataRecreationService.employeeId rows).
    apply Set_size_bounds. destruct rows; [contradiction | discriminate]. }
  split; [reflexivity |].
  unfold AttendanceDataRecreationService.departmentStat.
  cbn [AttendanceDataRecreationService.totalEmployees
       AttendanceDataRecreationService.averageAttendance
       AttendanceDataRecreationService.complianceRate].
  split; [exact Hsize |]. split.
  - apply ratio_at_least_100. exact Hsize.
  - apply ratio_is_a_percentage; [apply filter_length_le | lia].
Qed.

Lemma department_statistics_are_bounded_witness :
  exists stat,
    In ("d1"%string, stat)
       (AttendanceDataRecreationService.departmentStats
          (AttendanceDataRecreationService.generateAttendanceInsights
             (Scenario.monday_of_e1 ++ Scenario.monday_of_e2 ++ Scenario.tuesday_of_e1)))
    /\ AttendanceDataRecreationService.totalEmployees stat = 2%nat
    /\ (AttendanceDataRecreationService.averageAttendance stat == 150)%Q
    /\ (100 <= AttendanceDataRecreationService.averageAttendance stat)%Q.
Proof.
  eexists. split; [left; reflexivity |]. split; [reflexivity |].
  split; [reflexivity |].
  apply (department_statistics_are_bounded
           (Scenario.monday_of_e1 ++ Scenario.monday_of_e2 ++ Scenario.tuesday_of_e1)
           "d1").
  left. reflexivity.
Defined.

(** ** Recreating the stored attendance data *)

Section RecreationFacts.

Variable tz : Z.
Variable getRosterById : string -> RosterUtils.Completion (option Roster.t).
Variable update : string -> AttendanceDataRecreationService.Update.t
                  -> AttendanceDataRecreationService.UpdateReply.

Lemma processRecords_step
      (row : AttendanceDataRecreationService.Row)
      (rows : list AttendanceDataRecreationService.Row)
      (result : AttendanceDataRecreationService.AttendanceOptimizationResult)
      (clock : Time.Clock) :
  exists next,
    runState (AttendanceDataRecreationService.processRecords
                tz getRosterById update (row :: rows) result) clock
    = runState (AttendanceDataRecreationService.processRecords
                  tz getRosterById update rows next)
               (Time.mkClock (Time.readings clock) (S (Time.reads clock)))
    /\ AttendanceDataRecreationService.totalRecords next
       = AttendanceDataRecreationService.totalRecords result
    /\ (AttendanceDataRecreationService.optimizedRecords next
        + List.length (AttendanceDataRecreationService.errors next))%nat
       = S (AttendanceDataRecreationService.optimizedRecords result
            + List.length (AttendanceDataRecreationService.errors result))
    /\ ((forall id u, update id u = AttendanceDataRecreationService.Updated) ->
        AttendanceDataRecreationService.errors next
        = AttendanceDataRecreationService.errors result).
Proof.
  cbn [AttendanceDataRecreationService.processRecords].
  unfold AttendanceDataRecreationService.calculateWorkingTime, Time.new_Date.
  cbn [bind ret Monad_state runState get put MonadState_state fst snd].
  match goal with
  | |- context [match ?u with
                | AttendanceDataRecreationService.Updated => _
                | AttendanceDataRecreationService.UpdateError _ => _
                | AttendanceDataRecreationService.UpdateThrown _ => _
                end] => destruct u eqn:Hupdate
  end.
  all: eexists; split; [reflexivity |]; split; [reflexivity |].
  all: cbn [AttendanceDataRecreationService.optimizedRecords
            AttendanceDataRecreationService.errors].
  all: split; [try rewrite length_app; cbn [List.length]; lia |].
  all: intros Hall; try reflexivity; rewrite Hall in Hupdate; discriminate.
Qed.

Lemma processRecords_accounts
      (rows : list AttendanceDataRecreationService.Row) :
  forall (result : AttendanceDataRecreationService.AttendanceOptimizationResult)
         (clock : Time.Clock),
    let final :=
      run (AttendanceDataRecreationService.processRecords
             tz getRosterById update rows result) clock in
    AttendanceDataRecreationService.totalRecords final
    = AttendanceDataRecreationService.totalRecords result
    /\ (AttendanceDataRecreationService.optimizedRecords final
        + List.length (AttendanceDataRecreationService.errors final))%nat
       = (AttendanceDataRecreationService.optimizedRecords result
          + List.length (AttendanceDataRecreationService.errors result)
          + List.length rows)%nat
    /\ Time.reads
         (clock_after (AttendanceDataRecreationService.processRecords
                         tz getRosterById update rows result) clock)
       = (Time.reads clock + List.length rows)%nat
    /\ ((forall id u, update id u = AttendanceDataRecreationService.Updated) ->
        AttendanceDataRecreationService.errors final
        = AttendanceDataRecreationService.errors result).
Proof.
  induction rows as [| row rows IH]; intros result clock.
  - cbn. repeat split; lia.
  - cbv zeta. unfold run, clock_after in *.
    destruct (processRecords_step row rows result clock)
      as (next & -> & Htotal & Hcount & Herrors).
    destruct (IH next (Time.mkClock (Time.readings clock) (S (Time.reads clock))))
      as (IHtotal & IHcount & IHreads & IHerrors).
    cbv zeta in *. cbn [Time.reads] in IHreads.
    rewrite IHtotal, IHcount, IHreads. cbn [List.length].
    repeat split; try lia.
    intros Hall. rewrite (IHerrors Hall). now apply Herrors.
Qed.

End RecreationFacts.

(** X18.  [recreateAttendanceData] accounts for every row of its
    query: the total is the number of rows, every row is counted either
    as optimized or by one error message, and the clock is read once
    per row. *)
Theorem recreation_accounts_for_every_row
        (tz : Z) (getRosterById : string -> RosterUtils.Completion (option Roster.t))
        (update : string -> AttendanceDataRecreationService.Update.t
                  -> AttendanceDataRecreationService.UpdateReply)
        (rows : list AttendanceDataRecreationService.Row) (clock : Time.Clock) :
  exists result,
    run (AttendanceDataRecreationService.recreateAttendanceData
           tz getRosterById update (Supabase.Answer (Some rows) false)) clock
    = RosterUtils.Return result
    /\ AttendanceDataRecreationService.totalRecords result = List.length rows
    /\ (AttendanceDataRecreationService.optimizedRecords result
        + List.length (AttendanceDataRecreationService.errors result))%nat
       = List.length rows
    /\ Time.reads
         (clock_after
            (AttendanceDataRecreationService.recreateAttendanceData
               tz getRosterById update (Supabase.Answer (Some rows) false)) clock)
       = (Time.reads clock + List.length rows)%nat.
Proof.
  unfold run, clock_after, AttendanceDataRecreationService.recreateAttendanceData.
  cbn [bind ret Monad_state runState fst snd
       AttendanceDataRecreationService.optimizedRecords
       AttendanceDataRecreationService.errors].
  set (start := {| AttendanceDataRecreationService.totalRecords := List.length rows;
                   AttendanceDataRecreationService.optimizedRecords := 0;
                   AttendanceDataRecreationService.errors := [] |}).
  destruct (processRecords_accounts tz getRosterById update rows start clock)
    as (Htotal & Hcount & Hreads & _).
  unfold run, clock_after in *. cbv zeta in *.
  destruct (runState _ clock) as [final clock'] eqn:Hrun.
  cbn [fst snd] in *. exists final. repeat split; assumption.
Qed.

(** X19.  When no update fails, [recreateAttendanceData] reports every
    row as optimized and no error. *)
Theorem recreation_without_failed_updates
        (tz : Z) (getRosterById : string -> RosterUtils.Completion (option Roster.t))
        (update : string -> AttendanceDataRecreationService.Update.t
                  -> AttendanceDataRecreationService.UpdateReply)
        (rows : list AttendanceDataRecreationService.Row) (clock : Time.Clock)
        (Hupdated : forall id u, update id u = AttendanceDataRecreationService.Updated) :
  run (AttendanceDataRecreationService.recreateAttendanceData
         tz getRosterById update (Supabase.Answer (Some rows) false)) clock
  = RosterUtils.Return
      {| AttendanceDataRecreationService.totalRecords := List.length rows;
         AttendanceDataRecreationService.optimizedRecords := List.length rows;
         AttendanceDataRecreationService.errors := [] |}.
Proof.
  unfold run, AttendanceDataRecreationService.recreateAttendanceData.
  cbn [bind ret Monad_state runState fst snd
       AttendanceDataRecreationService.optimizedRecords
       AttendanceDataRecreationService.errors].
  set (start := {| AttendanceDataRecreationService.totalRecords := List.length rows;
                   AttendanceDataRecreationService.optimizedRecords := 0;
                   AttendanceDataRecreationService.errors := [] |}).
  destruct (processRecords_accounts tz getRosterById update rows start clock)
    as (Htotal & Hcount & _ & Herrors).
  specialize (Herrors Hupdated).
  unfold run in *. cbv zeta in *.
  destruct (runState _ clock) as [final clock'] eqn:Hrun.
  cbn [fst snd] in *. destruct final as [total optimized errors].
  cbn in *. subst. f_equal. f_equal. cbn in Hcount. lia.
Qed.

Lemma recreation_without_failed_updates_witness :
  run (AttendanceDataRecreationService.recreateAttendanceData
         0 (fun _ => RosterUtils.Return (Some Scenario.roster_0800_grace_15))
         (fun _ _ => AttendanceDataRecreationService.Updated)
         (Supabase.Answer
            (Some [ {| AttendanceDataRecreationService.record := Scenario.two_sessions;
                       AttendanceDataRecreationService.roster_id := Some "r1"%string |};
                    {| AttendanceDataRecreationService.record := Scenario.check_in_0820;
                       AttendanceDataRecreationService.roster_id := None |} ])
            false))
      (Time.stopped_at 0)
  = RosterUtils.Return
      {| AttendanceDataRecreationService.totalRecords := 2;
         AttendanceDataRecreationService.optimizedRecords := 2;
         AttendanceDataRecreationService.errors := [] |}.
Proof.
  apply (recreation_without_failed_updates
           0 (fun _ => RosterUtils.Return (Some Scenario.roster_0800_grace_15))
           (fun _ _ => AttendanceDataRecreationService.Updated)).
  intros id u. reflexivity.
Defined.

Lemma Qfloor_max0_minutes (x : Z) :
  Qfloor (Qmax 0 (inject_Z x / inject_Z (1000 * 60))) = Z.max 0 (x / 60000).
Proof.
  change (1000 * 60) with 60000.
  destruct (Z.le_gt_cases 0 x) as [Hx | Hx].
  - rewrite (Qfloor_comp _ (inject_Z x / inject_Z 60000)).
    + unfold Qfloor, Qdiv, Qmult, Qinv, inject_Z. cbn [Qnum Qden Pos.mul].
      rewrite Z.mul_1_r.
      assert (0 <= x / 60000) by (apply Z.div_pos; lia). lia.
    + apply Qmax0_of_nonneg. apply Zdiv_Q_nonneg; lia.
  - rewrite (Qfloor_comp _ 0).
    + assert (x / 60000 < 0) by (apply Z.div_lt_upper_bound; lia).
      cbn. lia.
    + apply Qmax0_of_nonpos. apply Zdiv_Q_nonpos; lia.
Qed.

(** X20.  The late minutes that [recreateAttendanceData] stores (a
    fraction) and those that [calculateLateDuration] of the utilities
    shows are the same up to rounding down, for every start time; both
    are [NaN] on a start time that is not numeric. *)
Theorem stored_minutes_late_floor_to_the_displayed_ones
        (tz checkIn : Z) (getRosterById : string -> RosterUtils.Completion (option Roster.t))
        (rosterId : string) (roster : Roster.t) (start : string) (clock : Time.Clock)
        (Hroster : getRosterById rosterId = RosterUtils.Return (Some roster))
        (Hstart : Roster.start_time roster = Some start) :
  LateDurationUtils.lateMinutes
    (run (LateDurationUtils.calculateLateDuration tz checkIn roster) clock)
  = match AttendanceDataRecreationService.calculateLateDuration
            tz getRosterById checkIn rosterId with
    | Js.Real minutes => Js.Num (Qfloor minutes)
    | Js.RNaN => Js.NaN
    end.
Proof.
  unfold AttendanceDataRecreationService.calculateLateDuration.
  rewrite Hroster, Hstart. cbv zeta.
  destruct (Js.nth_number 0 (map Js.Number (Js.split ":" start))) as [h |] eqn:Hh.
  2: { destruct (calculateLateDuration_non_numeric_start
                   tz checkIn roster start clock Hstart (or_introl Hh)) as (-> & _).
       reflexivity. }
  destruct (Js.nth_number 1 (map Js.Number (Js.split ":" start))) as [m |] eqn:Hm.
  2: { destruct (calculateLateDuration_non_numeric_start
                   tz checkIn roster start clock Hstart (or_intror Hm)) as (-> & _).
       reflexivity. }
  rewrite (calculateLateDuration_numeric tz checkIn roster start h m clock Hstart Hh Hm).
  cbn [LateDurationUtils.lateMinutes Time.setHours Js.sub Js.div Js.max0].
  rewrite Qfloor_max0_minutes. f_equal.
  rewrite <- max0_quot_div by lia. f_equal. f_equal.
  unfold Time.msPerHour, Time.msPerMinute. lia.
Qed.

Lemma stored_minutes_late_floor_to_the_displayed_ones_witness :
  LateDurationUtils.lateMinutes
    (run (LateDurationUtils.calculateLateDuration
            0 (Civil.utc 2024 3 20 8 20 30) Scenario.roster_0800_grace_15)
         (Time.stopped_at 0))
  = Js.Num 20
  /\ AttendanceDataRecreationService.calculateLateDuration
       0 (fun _ => RosterUtils.Return (Some Scenario.roster_0800_grace_15))
       (Civil.utc 2024 3 20 8 20 30) "r1"
     = Js.Real (Qmax 0 (inject_Z 1230000 / inject_Z 60000))
  /\ LateDurationUtils.lateMinutes
       (run (LateDurationUtils.calculateLateDuration
               0 (Civil.utc 2024 3 20 8 20 30) Scenario.roster_0800_grace_15)
            (Time.stopped_at 0))
     = match AttendanceDataRecreationService.calculateLateDuration
               0 (fun _ => RosterUtils.Return (Some Scenario.roster_0800_grace_15))
               (Civil.utc 2024 3 20 8 20 30) "r1" with
       | Js.Real minutes => Js.Num (Qfloor minutes)
       | Js.RNaN => Js.NaN
       end.
Proof.
  split; [reflexivity |]. split; [reflexivity |].
  apply (stored_minutes_late_floor_to_the_displayed_ones
           0 (Civil.utc 2024 3 20 8 20 30)
           (fun _ => RosterUtils.Return (Some Scenario.roster_0800_grace_15))
           "r1" Scenario.roster_0800_grace_15 "08:00" (Time.stopped_at 0));
    reflexivity.
Defined.

(** ** The roster start shown by the report *)

(** X21.  [getEffectiveRosterStart] never returns the empty string: a
    start time, or "-". *)
Theorem effective_roster_start_is_never_empty
        (tz date : Z) (roster : option Roster.t) :
  PresentEmployeeReport.getEffectiveRosterStart tz date roster <> EmptyString.
Proof.
  assert (Hdash : forall x, PresentEmployeeReport.or_dash x <> EmptyString).
  { intros [[| a s] |]; cbn; discriminate. }
  unfold PresentEmployeeReport.getEffectiveRosterStart.
  destruct roster as [roster |]; [| discriminate].
  destruct (Roster.shift_pattern roster) as [| entries |]; try apply Hdash.
  cbv zeta.
  destruct (PresentEmployeeReport.find_day _ entries) as [[shift |] |];
    try apply Hdash.
  destruct (DailyShift.time_slot shift) as [slot |]; [| apply Hdash].
  destruct (TimeSlot.start_time slot) as [[| a s] |]; cbn; try apply Hdash.
  discriminate.
Qed.

Lemma find_day_without_weekday (dayOfWeek : Z) (entries : list (option DailyShift.t)) :
  Forall Notions.without_weekday entries ->
  PresentEmployeeReport.find_day dayOfWeek entries = RosterUtils.Return None.
Proof.
  induction 1 as [| [s |] entries Hs _ IH]; cbn; [reflexivity | | contradiction].
  cbn in Hs. now rewrite Hs.
Qed.

(** X22.  [getEffectiveRosterStart] looks an entry up by its weekday:
    for a pattern whose entries have no [day] (entries by date, as
    [getShiftForDate] reads them) it shows the roster's own start
    time. *)
Theorem report_ignores_a_pattern_keyed_by_date
        (tz date : Z) (roster : Roster.t) (entries : list (option DailyShift.t))
        (Hpattern : Roster.shift_pattern roster = SP_array entries)
        (Hdates : Forall Notions.without_weekday entries) :
  PresentEmployeeReport.getEffectiveRosterStart tz date (Some roster)
  = PresentEmployeeReport.or_dash (Roster.start_time roster).
Proof.
  unfold PresentEmployeeReport.getEffectiveRosterStart.
  rewrite Hpattern. cbv zeta.
  now rewrite (find_day_without_weekday _ _ Hdates).
Qed.

Lemma report_ignores_a_pattern_keyed_by_date_witness :
  Forall Notions.without_weekday [Some (Notions.working_day Scenario.monday)]
  /\ RosterUtils.getShiftForDate
       (Scenario.roster_with_pattern [Some (Notions.working_day Scenario.monday)])
       Scenario.monday
     = RosterUtils.Return (Notions.working_day Scenario.monday)
  /\ PresentEmployeeReport.getEffectiveRosterStart
       0 Scenario.monday
       (Some (Scenario.roster_with_pattern [Some (Notions.working_day Scenario.monday)]))
     = "08:00"%string.
Proof.
  split; [repeat constructor |]. split; [reflexivity |].
  apply (report_ignores_a_pattern_keyed_by_date
           0 Scenario.monday
           (Scenario.roster_with_pattern [Some (Notions.working_day Scenario.monday)])
           [Some (Notions.working_day Scenario.monday)]).
  - reflexivity.
  - repeat constructor.
Defined.

(** ** src/services/RosterRecreationService.ts *)

Lemma utcDay_of_midnight (day : Z) : Time.utcDay (day * Time.msPerDay) = day.
Proof. unfold Time.utcDay, Time.msPerDay. apply Z.div_mul. lia. Qed.

(** In a zone with a constant offset, the next local day is 24 hours
    later. *)
Lemma next_local_day_constant (tz day : Z) :
  Zone.next_local_day (Zone.constant tz) (day * Time.msPerDay)
  = (day + 1) * Time.msPerDay.
Proof.
  unfold Zone.next_local_day, Zone.UTC, Zone.LocalTime, Zone.constant. cbn. lia.
Qed.

Lemma midnights_leb (a b : Z) :
  (a * Time.msPerDay <=? b * Time.msPerDay) = (a <=? b).
Proof.
  unfold Time.msPerDay.
  destruct (Z.leb_spec a b), (Z.leb_spec (a * 86400000) (b * 86400000));
    try reflexivity; lia.
Qed.

Lemma optimize_loop_spec (tz endDate : Z) (employeeId departmentId : string) :
  forall (fuel : nat) (currentDate consecutiveDays : Z),
    0 <= consecutiveDays <= 5 ->
    currentDate <= endDate + 1 ->
    (Z.to_nat (endDate - currentDate + 1) < fuel)%nat ->
    exists pattern,
      RosterRecreationService.optimize_loop
        fuel (Zone.constant tz)
        (RosterRecreationService.getEmployeePreferences employeeId)
        (RosterRecreationService.getDepartmentRules departmentId)
        (endDate * Time.msPerDay) (currentDate * Time.msPerDay) consecutiveDays
      = Some pattern
      /\ Z.of_nat (List.length pattern) = endDate - currentDate + 1
      /\ forall i, 0 <= i <= endDate - currentDate ->
                   nth_error pattern (Z.to_nat i)
                   = Some (Notions.five_on_one_off
                             (currentDate - consecutiveDays) (consecutiveDays + i)).
Proof.
  induction fuel as [| fuel IH]; intros currentDate consecutiveDays Hc Hcur Hfuel;
    [lia |].
  cbn [RosterRecreationService.optimize_loop
       RosterRecreationService.getEmployeePreferences
       RosterRecreationService.getDepartmentRules
       RosterRecreationService.unavailableDays
       RosterRecreationService.preferredShifts
       RosterRecreationService.maxConsecutiveDays existsb].
  rewrite midnights_leb, !utcDay_of_midnight, !next_local_day_constant.
  destruct (Z.leb_spec currentDate endDate) as [Hle | Hgt].
  2: { exists []. split; [reflexivity |]. split; [cbn; lia | intros i Hi; lia]. }
  assert (Hnext : (Z.to_nat (endDate - (currentDate + 1) + 1) < fuel)%nat) by lia.
  destruct (Z.leb_spec 5 consecutiveDays) as [Hmax | Hless].
  - destruct (IH (currentDate + 1) 0 ltac:(lia) ltac:(lia) Hnext)
      as (pattern & -> & Hlen & Hnth).
    eexists. split; [reflexivity |]. split; [cbn [List.length]; lia |].
    intros i Hi. destruct (Z.eq_dec i 0) as [-> | Hi0].
    + cbn [Z.to_nat nth_error]. f_equal. unfold Notions.five_on_one_off.
      replace consecutiveDays with 5 by lia. cbn [Z.add]. cbn.
      f_equal. lia.
    + replace (Z.to_nat i) with (S (Z.to_nat (i - 1))) by lia.
      cbn [nth_error option_map]. rewrite Hnth by lia. f_equal.
      unfold Notions.five_on_one_off.
      replace (consecutiveDays + i) with (0 + (i - 1) + 1 * 6) by lia.
      rewrite Z_mod_plus_full.
      replace (currentDate + 1 - 0 + (0 + (i - 1)))
        with (currentDate - consecutiveDays + (0 + (i - 1) + 1 * 6)) by lia.
      reflexivity.
  - destruct (IH (currentDate + 1) (consecutiveDays + 1) ltac:(lia) ltac:(lia) Hnext)
      as (pattern & -> & Hlen & Hnth).
    eexists. split; [reflexivity |]. split; [cbn [List.length]; lia |].
    intros i Hi. destruct (Z.eq_dec i 0) as [-> | Hi0].
    + cbn [Z.to_nat nth_error]. f_equal. unfold Notions.five_on_one_off.
      rewrite Z.add_0_r. rewrite Z.mod_small by lia.
      destruct (Z.eqb_spec consecutiveDays 5); [lia |].
      unfold Notions.working_day. f_equal. f_equal. lia.
    + replace (Z.to_nat i) with (S (Z.to_nat (i - 1))) by lia.
      cbn [nth_error option_map]. rewrite Hnth by lia. f_equal.
      replace (currentDate + 1 - (consecutiveDays + 1))
        with (currentDate - consecutiveDays) by lia.
      replace (consecutiveDays + 1 + (i - 1)) with (consecutiveDays + i) by lia.
      reflexivity.
Qed.

(** X23.  In a zone whose offset from UTC is constant, and given
    enough iterations, [optimizeShiftPattern] ends and returns one entry
    per day from the start date to the end date, in order: five days of
    the morning shift (09:00 to 17:00), then a day off, and so on. *)
Theorem optimizeShiftPattern_is_five_on_one_off
        (fuel : nat) (tz startDate endDate : Z) (employeeId departmentId : string)
        (Hdates : startDate <= endDate + 1)
        (Hfuel : (Z.to_nat (endDate - startDate + 1) < fuel)%nat) :
  exists pattern,
    RosterRecreationService.optimizeShiftPattern
      fuel (Zone.constant tz) startDate endDate employeeId departmentId
    = Some pattern
    /\ Z.of_nat (List.length pattern) = endDate - startDate + 1
    /\ forall i, 0 <= i <= endDate - startDate ->
                 nth_error pattern (Z.to_nat i)
                 = Some (Notions.five_on_one_off startDate i).
Proof.
  unfold RosterRecreationService.optimizeShiftPattern.
  destruct (optimize_loop_spec tz endDate employeeId departmentId fuel startDate 0
                               ltac:(lia) Hdates Hfuel)
    as (pattern & Heq & Hlen & Hnth).
  exists pattern. split; [exact Heq |]. split; [exact Hlen |].
  intros i Hi. rewrite (Hnth i Hi). now rewrite Z.sub_0_r.
Qed.

(** Across a daylight-saving change the days do not line up: in New
    York, from 2024-03-08 to 2024-03-12, the local days start at 19:00
    and, from 10 March on, end at 23:00 UTC: the pattern has two
    entries for 10 March and none for 12 March. *)
Remark optimizeShiftPattern_across_a_daylight_saving_change :
  option_map (map DailyShift.date)
             (RosterRecreationService.optimizeShiftPattern
                10 Zone.new_york_march_2024
                (Civil.ymd 2024 3 8) (Civil.ymd 2024 3 12) "e1" "d1")
  = Some [Some (Civil.ymd 2024 3 8); Some (Civil.ymd 2024 3 9);
          Some (Civil.ymd 2024 3 10); Some (Civil.ymd 2024 3 10);
          Some (Civil.ymd 2024 3 11)].
Proof. reflexivity. Qed.

Lemma optimizeShiftPattern_is_five_on_one_off_witness :
  Scenario.monday <= Scenario.monday + 6 + 1
  /\ (Z.to_nat (Scenario.monday + 6 - Scenario.monday + 1) < 10)%nat
  /\ exists pattern,
       RosterRecreationService.optimizeShiftPattern
         10 (Zone.constant 19800000) Scenario.monday (Scenario.monday + 6) "e1" "d1"
       = Some pattern
       /\ Z.of_nat (List.length pattern) = Scenario.monday + 6 - Scenario.monday + 1
       /\ forall i, 0 <= i <= Scenario.monday + 6 - Scenario.monday ->
                    nth_error pattern (Z.to_nat i)
                    = Some (Notions.five_on_one_off Scenario.monday i).
Proof.
  split; [lia |]. split; [vm_compute; lia |].
  apply (optimizeShiftPattern_is_five_on_one_off
           10 19800000 Scenario.monday (Scenario.monday + 6) "e1" "d1").
  - lia.
  - vm_compute. lia.
Defined.

(** ** Lateness under an optimized shift pattern *)

Lemma find_date_by_index (pattern : list DailyShift.t) :
  forall (base : Z),
    (forall n s, nth_error pattern n = Some s ->
                 DailyShift.date s = Some (base + Z.of_nat n)) ->
    forall n s, nth_error pattern n = Some s ->
                RosterUtils.find_date (base + Z.of_nat n) (map Some pattern)
                = RosterUtils.Return (Some s).
Proof.
  induction pattern as [| x pattern IH]; intros base Hdates n s Hn.
  - destruct n; discriminate.
  - cbn [map RosterUtils.find_date].
    rewrite (Hdates 0%nat x eq_refl). cbn [Z.of_nat]. rewrite Z.add_0_r.
    destruct n as [| n].
    + cbn in Hn. injection Hn as <-.
      rewrite Z.add_0_r, Z.eqb_refl. reflexivity.
    + destruct (Z.eqb_spec base (base + Z.of_nat (S n))) as [E | _]; [lia |].
      replace (base + Z.of_nat (S n)) with (base + 1 + Z.of_nat n) by lia.
      apply IH; [| exact Hn].
      intros k t Hk. rewrite (Hdates (S k) t Hk). f_equal. lia.
Qed.

Lemma five_on_one_off_date (startDate i : Z) :
  DailyShift.date (Notions.five_on_one_off startDate i) = Some (startDate + i).
Proof. unfold Notions.five_on_one_off. destruct (_ =? _); reflexivity. Qed.

(** X24.  In a zone whose offset from UTC is constant: for a roster
    that carries the pattern that [optimizeShiftPattern] computes for
    its period in that zone, [calculateRosterBasedLateness] is 0 on
    every sixth day (the day off) and otherwise the whole minutes after
    09:00 of the date, whatever the roster's own start time. *)
Theorem lateness_under_an_optimized_pattern
        (tz : Z) (supabase : Supabase.Client) (employeeId departmentId : string)
        (checkIn date : Z) (roster : Roster.t) (fuel : nat) (pattern : list DailyShift.t)
        (Hresolved :
           RosterUtils.getEmployeeRosterForDate supabase employeeId date = Some roster)
        (Hfuel :
           (Z.to_nat (Roster.end_date roster - Roster.start_date roster + 1) < fuel)%nat)
        (Hoptimized :
           RosterRecreationService.optimizeShiftPattern
             fuel (Zone.constant tz) (Roster.start_date roster) (Roster.end_date roster)
             employeeId departmentId
           = Some pattern)
        (Hcarried : Roster.shift_pattern roster = SP_array (map Some pattern)) :
  RosterUtils.calculateRosterBasedLateness tz supabase employeeId checkIn date
  = if (date - Roster.start_date roster) mod 6 =? 5 then Js.Num 0
    else Js.Num (Z.max 0 ((checkIn - (date * Time.msPerDay + 9 * Time.msPerHour - tz))
                          / Time.msPerMinute)).
Proof.
  assert (Hrange : Roster.start_date roster <= date <= Roster.end_date roster).
  { unfold RosterUtils.getEmployeeRosterForDate, Supabase.answer in Hresolved.
    destruct (Supabase.health supabase); try discriminate.
    cbn in Hresolved.
    destruct (Supabase.order_created_at_desc _) as [| first rest] eqn:Hord;
      [discriminate |].
    cbn in Hresolved. injection Hresolved as ->.
    destruct (first_of_ordered_is_latest _ _ _ Hord) as [Hin _].
    apply filter_In in Hin as [_ Hact]. unfold Supabase.active_on in Hact.
    apply andb_prop in Hact as [Hact Hend]. apply andb_prop in Hact as [_ Hbegin].
    apply Z.leb_le in Hend, Hbegin. lia. }
  unfold RosterRecreationService.optimizeShiftPattern in Hoptimized.
  destruct (optimize_loop_spec tz (Roster.end_date roster) employeeId departmentId fuel
                               (Roster.start_date roster) 0 ltac:(lia) ltac:(lia) Hfuel)
    as (pattern' & Heq & Hlen & Hnth).
  rewrite Hoptimized in Heq. injection Heq as <-.
  set (i := date - Roster.start_date roster).
  assert (Hentry : nth_error pattern (Z.to_nat i)
                   = Some (Notions.five_on_one_off (Roster.start_date roster) i)).
  { rewrite (Hnth i) by lia. now rewrite Z.sub_0_r, Z.add_0_l. }
  assert (Hfind : RosterUtils.find_date date (map Some pattern)
                  = RosterUtils.Return
                      (Some (Notions.five_on_one_off (Roster.start_date roster) i))).
  { replace date with (Roster.start_date roster + Z.of_nat (Z.to_nat i)) at 1 by lia.
    apply find_date_by_index; [| exact Hentry].
    intros n s Hn.
    assert (Hbound : (n < List.length pattern)%nat)
      by (apply nth_error_Some; congruence).
    specialize (Hnth (Z.of_nat n) ltac:(lia)).
    rewrite Nat2Z.id, Z.sub_0_r, Z.add_0_l in Hnth.
    rewrite Hnth in Hn. injection Hn as <-. apply five_on_one_off_date. }
  unfold RosterUtils.calculateRosterBasedLateness, RosterUtils.getShiftForDate.
  rewrite Hresolved, Hcarried. cbv zeta.
  assert (Hmap : exists e entries, map Some pattern = e :: entries).
  { destruct pattern; [cbn in Hlen; lia | cbn; eauto]. }
  destruct Hmap as (e & entries & Hmap).
  rewrite Hmap. cbv iota. rewrite <- Hmap, Hfind.
  unfold Notions.five_on_one_off.
  destruct (i mod 6 =? 5); [reflexivity |].
  cbn [Notions.working_day DailyShift.shift DailyShift.time_slot
       RosterRecreationService.shift_name RosterRecreationService.generateTimeSlot
       TimeSlot.start_time].
  change (String.eqb "morning" "off") with false. cbv iota.
  unfold RosterUtils.or_string. cbn [Js.truthy_string negb].
  change (Time.Date_of_local tz date "09:00")
    with (Js.Num (date * Time.msPerDay + 9 * Time.msPerHour - tz)).
  cbn [Js.sub Js.gt Js.floor_div].
  set (diff := checkIn - (date * Time.msPerDay + 9 * Time.msPerHour - tz)).
  change (1000 * 60) with Time.msPerMinute. unfold Time.msPerMinute.
  destruct (Z.ltb_spec 0 diff) as [Hpos | Hneg]; f_equal.
  - assert (0 <= diff / (1000 * 60)) by (apply Z.div_pos; lia). lia.
  - assert (diff / (1000 * 60) <= 0).
    { destruct (Z.eq_dec diff 0) as [-> | Hne]; [cbn; lia |].
      assert (diff / (1000 * 60) < 0) by (apply Z.div_lt_upper_bound; lia). lia. }
    lia.
Qed.

Lemma lateness_under_an_optimized_pattern_witness :
  RosterUtils.getEmployeeRosterForDate
    (Scenario.store [Notions.recreated_roster]) "e1" Scenario.tuesday
  = Some Notions.recreated_roster
  /\ RosterRecreationService.optimizeShiftPattern
       10 (Zone.constant 0) Scenario.monday (Scenario.monday + 6) "e1" "d1"
     = Some Notions.optimized_week
  /\ RosterUtils.calculateRosterBasedLateness
       0 (Scenario.store [Notions.recreated_roster]) "e1"
       (Civil.utc 2024 3 19 9 30 0) Scenario.tuesday
     = Js.Num 30.
Proof.
  split; [reflexivity |]. split; [reflexivity |].
  etransitivity.
  - apply (lateness_under_an_optimized_pattern
             0 (Scenario.store [Notions.recreated_roster]) "e1" "d1"
             (Civil.utc 2024 3 19 9 30 0) Scenario.tuesday
             Notions.recreated_roster 10 Notions.optimized_week).
    + reflexivity.
    + vm_compute. lia.
    + reflexivity.
    + reflexivity.
  - reflexivity.
Defined.

(** ** The [attendance_display] view and the calculators *)

Lemma minutes_minus_grace_positive (diff grace : Z) :
  (0 < Qmax 0 (Stored.minutes diff - inject_Z grace))%Q <-> grace * 60 * 1000 < diff.
Proof.
  unfold Stored.minutes. change (1000 * 60) with 60000.
  assert (Hval : (inject_Z diff / inject_Z 60000 - inject_Z grace
                  == inject_Z (diff - grace * 60000) / inject_Z 60000)%Q).
  { replace (diff - grace * 60000) with (diff + - (grace * 60000)) by lia.
    rewrite inject_Z_plus, inject_Z_opp, inject_Z_mult. field. }
  split; intros H.
  - destruct (Z.lt_ge_cases (grace * 60 * 1000) diff) as [Hlt | Hge]; [exact Hlt |].
    exfalso. apply (Qlt_irrefl 0). eapply Qlt_le_trans; [exact H |].
    rewrite Hval. apply Qle_lteq. right.
    apply Qmax0_of_nonpos. apply Zdiv_Q_nonpos; lia.
  - eapply Qlt_le_trans; [| apply Q.le_max_r].
    rewrite Hval. apply Qlt_shift_div_l; [reflexivity |].
    rewrite Qmult_0_l. change 0%Q with (inject_Z 0). rewrite <- Zlt_Qlt. lia.
Qed.

(** X25.  When the database session and the JavaScript engine are in
    the same zone ([session] and [tz]), the [minutes_late] column of the
    [attendance_display] view is positive exactly when [isEmployeeLate],
    called with the same grace period and the local date of the
    check-in, says late. *)
Theorem view_and_isEmployeeLate_agree
        (session tz checkIn grace : Z) (start : string) (ms : Z)
        (Hzone : session = tz)
        (Hparse : Time.parseTimeOfDay start = Some ms) :
  LateCalculation.isEmployeeLate tz checkIn start (Some grace)
                                 (Some (Time.localDay tz checkIn)) = true
  <-> (0 < AttendanceDisplay.minutes_late
             session (Some checkIn) (Some ms) (Some grace))%Q.
Proof.
  subst session.
  unfold LateCalculation.isEmployeeLate, AttendanceDisplay.minutes_late,
    AttendanceDisplay.on_day_of, AttendanceDisplay.coalesce0, Time.Date_of_local.
  rewrite Hparse. cbv zeta. cbn [Js.sub Js.gt].
  rewrite minutes_minus_grace_positive, Z.ltb_lt. reflexivity.
Qed.

Lemma view_and_isEmployeeLate_agree_witness :
  Time.parseTimeOfDay "08:00" = Some 28800000
  /\ LateCalculation.isEmployeeLate 0 (Scenario.at_ 8 20) "08:00" (Some 15)
                                    (Some (Time.localDay 0 (Scenario.at_ 8 20))) = true
  /\ (0 < AttendanceDisplay.minutes_late 0 (Some (Scenario.at_ 8 20))
                                         (Some 28800000%Z) (Some 15%Z))%Q.
Proof.
  split; [reflexivity |]. split; [reflexivity |].
  apply (view_and_isEmployeeLate_agree 0 0 (Scenario.at_ 8 20) 15 "08:00" 28800000).
  - reflexivity.
  - reflexivity.
  - reflexivity.
Defined.

(** In different zones they disagree: a database session in UTC and an
    engine at UTC+05:30, start 08:00 without grace period, check-in at
    08:30 local time (03:00 UTC).  The engine says late; the view takes
    08:00 UTC as the start and shows 0. *)
Remark view_and_isEmployeeLate_in_different_zones :
  LateCalculation.isEmployeeLate
    19800000 (Civil.utc 2024 3 20 3 0 0) "08:00" (Some 0)
    (Some (Time.localDay 19800000 (Civil.utc 2024 3 20 3 0 0)))
  = true
  /\ (AttendanceDisplay.minutes_late
        0 (Some (Civil.utc 2024 3 20 3 0 0)) (Some 28800000%Z) (Some 0%Z) == 0)%Q.
Proof. split; reflexivity. Qed.

(** X26.  For a closed first session and timestamps in order, the
    [working_duration_minutes] column of the view is the [totalMinutes]
    of [calculateWorkingTime]. *)
Theorem view_and_service_agree_on_closed_sessions
        (first_in first_out : Z) (second_in second_out : option Z) (clock : Time.Clock)
        (Hfirst : first_in <= first_out)
        (Hsecond : forall i o, second_in = Some i -> second_out = Some o -> i <= o) :
  exists minutes,
    AttendanceDisplay.working_duration_minutes
      (Some first_in) (Some first_out) second_in second_out
    = Some minutes
    /\ (minutes
        == AttendanceDataRecreationService.totalMinutes
             (run (AttendanceDataRecreationService.calculateWorkingTime
                     (Some first_in) (Some first_out) second_in second_out)
                  clock))%Q.
Proof.
  unfold AttendanceDisplay.working_duration_minutes,
    AttendanceDataRecreationService.calculateWorkingTime, run.
  cbn [runState ret Monad_state fst AttendanceDataRecreationService.totalMinutes].
  assert (H1 : (Qmax 0 (Stored.minutes (first_out - first_in))
                == Stored.minutes (first_out - first_in))%Q)
    by (apply Qmax0_of_nonneg, minutes_nonneg; lia).
  destruct second_out as [o |], second_in as [i |]; eexists;
    (split; [reflexivity |]); rewrite H1.
  - specialize (Hsecond i o eq_refl eq_refl).
    rewrite Qmax0_of_nonneg by (apply minutes_nonneg; lia).
    unfold Stored.minutes. rewrite inject_Z_plus. field. discriminate.
  - rewrite Z.add_0_r. ring.
  - ring.
  - ring.
Qed.

Lemma view_and_service_agree_on_closed_sessions_witness :
  Scenario.at_ 8 0 <= Scenario.at_ 12 0
  /\ exists minutes,
       AttendanceDisplay.working_duration_minutes
         (Some (Scenario.at_ 8 0)) (Some (Scenario.at_ 12 0))
         (Some (Scenario.at_ 13 0)) (Some (Scenario.at_ 17 0))
       = Some minutes
       /\ (minutes
           == AttendanceDataRecreationService.totalMinutes
                (run (AttendanceDataRecreationService.calculateWorkingTime
                        (Some (Scenario.at_ 8 0)) (Some (Scenario.at_ 12 0))
                        (Some (Scenario.at_ 13 0)) (Some (Scenario.at_ 17 0)))
                     (Time.stopped_at 0)))%Q.
Proof.
  split; [vm_compute; discriminate |].
  apply (view_and_service_agree_on_closed_sessions
           (Scenario.at_ 8 0) (Scenario.at_ 12 0)
           (Some (Scenario.at_ 13 0)) (Some (Scenario.at_ 17 0)) (Time.stopped_at 0)).
  - vm_compute. discriminate.
  - intros i o Hi Ho.
    assert (Ei : Scenario.at_ 13 0 = i) by congruence.
    assert (Eo : Scenario.at_ 17 0 = o) by congruence.
    rewrite <- Ei, <- Eo. vm_compute. discriminate.
Defined.

(** ** The date of the check-in in a zone ahead of UTC *)

(** X27.  In a zone ahead of UTC, a check-in whose local date is the
    day after its UTC date is measured by [calculateLateness] from the
    start of the day before: the employee is always late, by 1440
    minutes more than the minutes from the start on the local date,
    also for a check-in before that start, which
    [calculateLateDuration] reports as on time. *)
Theorem early_local_check_in_is_measured_from_the_day_before
        (tz checkIn : Z) (attendance : Attendance.t) (roster : Roster.t)
        (start : string) (ms : Z) (clock : Time.Clock)
        (Hin : Attendance.first_check_in_time attendance = Some checkIn)
        (Hstart : Roster.start_time roster = Some start)
        (Hparse : Time.parseTimeOfDay start = Some ms)
        (Hms : 0 <= ms < Time.msPerDay)
        (Hday : Time.localDay tz checkIn = Time.utcDay checkIn + 1) :
  let startOnLocalDate := Time.localDay tz checkIn * Time.msPerDay + ms - tz in
  let r := LateCalculation.calculateLateness tz attendance roster in
  let d := run (LateDurationUtils.calculateLateDuration tz checkIn roster) clock in
  LateCalculation.isLate r = true
  /\ LateCalculation.lateMinutes r
     = Js.Num ((checkIn - startOnLocalDate) / Time.msPerMinute + 1440)
  /\ (checkIn <= startOnLocalDate ->
      LateDurationUtils.isLate d = false
      /\ LateDurationUtils.lateMinutes d = Js.Num 0).
Proof.
  intros startOnLocalDate r d.
  assert (Hr := calculateLateness_parsed tz checkIn attendance roster start ms
                  Hin Hstart Hparse).
  assert (Hd := calculateLateDuration_parsed tz checkIn roster start ms clock
                  Hstart Hparse).
  cbv zeta in Hr, Hd. fold r in Hr. fold d in Hd.
  assert (Hlocal : Time.localDay tz checkIn * Time.msPerDay <= checkIn + tz).
  { unfold Time.localDay. rewrite Z.mul_comm. apply Z.mul_div_le.
    unfold Time.msPerDay. lia. }
  assert (Hutc : Time.utcDay checkIn * Time.msPerDay + ms - tz
                 = startOnLocalDate - 1440 * 60000).
  { subst startOnLocalDate. rewrite Hday. unfold Time.msPerDay. lia. }
  rewrite Hutc in Hr.
  assert (Hpos : 0 < checkIn - (startOnLocalDate - 1440 * 60000)).
  { subst startOnLocalDate. unfold Time.msPerDay in *. lia. }
  apply Z.ltb_lt in Hpos. rewrite Hpos in Hr.
  split; [now rewrite Hr |]. split.
  - rewrite Hr. cbn [LateCalculation.lateMinutes]. f_equal.
    replace (checkIn - (startOnLocalDate - 1440 * 60000))
      with (checkIn - startOnLocalDate + 1440 * 60000) by lia.
    unfold Time.msPerMinute. change (1000 * 60) with 60000.
    now rewrite Z.div_add by lia.
  - intros Hearly. rewrite Hd.
    cbn [LateDurationUtils.isLate LateDurationUtils.lateMinutes Js.gt].
    set (startMinute := Time.localDay tz checkIn * Time.msPerDay
                        + ms / Time.msPerMinute * Time.msPerMinute - tz).
    assert (Hq : Z.quot (checkIn - startMinute) 60000 <= 0).
    { assert (Hlt : checkIn - startMinute < 60000).
      { subst startMinute startOnLocalDate. unfold Time.msPerMinute in *.
        change (1000 * 60) with 60000.
        pose proof (Z.mod_pos_bound ms 60000 ltac:(lia)).
        pose proof (Z.div_mod ms 60000 ltac:(lia)). lia. }
      destruct (Z.le_gt_cases 0 (checkIn - startMinute)).
      - rewrite Z.quot_small by lia. lia.
      - apply Z.quot_le_upper_bound; lia. }
    replace (Z.max 0 (Z.quot (checkIn - startMinute) 60000)) with 0 by lia.
    split; reflexivity.
Qed.

Lemma early_local_check_in_is_measured_from_the_day_before_witness :
  Time.localDay 19800000 (Civil.utc 2024 3 19 22 30 0)
  = Time.utcDay (Civil.utc 2024 3 19 22 30 0) + 1
  /\ LateCalculation.lateMinutes
       (LateCalculation.calculateLateness
          19800000
          (with_first_check_in (Some (Civil.utc 2024 3 19 22 30 0)) Scenario.check_in_0820)
          Scenario.roster_0800_grace_15)
     = Js.Num 1200
  /\ LateCalculation.isLate
       (LateCalculation.calculateLateness
          19800000
          (with_first_check_in (Some (Civil.utc 2024 3 19 22 30 0)) Scenario.check_in_0820)
          Scenario.roster_0800_grace_15)
     = true.
Proof.
  split; [reflexivity |]. split; [reflexivity |].
  apply (early_local_check_in_is_measured_from_the_day_before
           19800000 (Civil.utc 2024 3 19 22 30 0)
           (with_first_check_in (Some (Civil.utc 2024 3 19 22 30 0)) Scenario.check_in_0820)
           Scenario.roster_0800_grace_15 "08:00" 28800000 (Time.stopped_at 0)).
  - reflexivity.
  - reflexivity.
  - reflexivity.
  - unfold Time.msPerDay. lia.
  - reflexivity.
Defined.

(** ** The working time of the report and the clock *)

(** X28.  The working time that the report shows for a record never goes
    down as the clock advances: an open session is measured up to the
    clock, everything else is fixed. *)
Theorem report_working_time_grows_with_the_clock
        (record : Attendance.t) (now1 now2 : Z) (Hnow : now1 <= now2) :
  (PresentEmployeeReport.working_duration
     (run (PresentEmployeeReport.processRecord record) (Time.stopped_at now1))
   <= PresentEmployeeReport.working_duration
        (run (PresentEmployeeReport.processRecord record) (Time.stopped_at now2)))%Q.
Proof.
  assert (Hquot : forall t, Time.minutesBetween now1 t <= Time.minutesBetween now2 t).
  { intros t. unfold Time.minutesBetween, Time.msPerMinute.
    apply Z.quot_le_mono; lia. }
  unfold PresentEmployeeReport.processRecord, run, Time.new_Date, Time.stopped_at.
  cbv zeta.
  destruct (Qeq_bool (Stored.or_zero (Attendance.working_duration_minutes record)) 0);
    [| cbn; apply Qle_refl].
  destruct (Attendance.first_check_in_time record) as [checkIn |];
    [| cbn; apply Qle_refl].
  destruct (Attendance.first_check_out_time record) as [firstOut |],
           (Attendance.second_check_in_time record) as [secondIn |],
           (Attendance.second_check_out_time record) as [secondOut |];
    cbn [bind ret Monad_state runState get put MonadState_state fst snd
         PresentEmployeeReport.working_duration Time.readings Time.reads];
    rewrite <- Zle_Qle;
    try (pose proof (Hquot checkIn)); try (pose proof (Hquot secondIn)); lia.
Qed.

Lemma report_working_time_grows_with_the_clock_witness :
  Scenario.at_ 9 0 <= Scenario.at_ 10 0
  /\ (PresentEmployeeReport.working_duration
        (run (PresentEmployeeReport.processRecord Scenario.check_in_0800_open)
             (Time.stopped_at (Scenario.at_ 9 0))) == 60)%Q
  /\ (PresentEmployeeReport.working_duration
        (run (PresentEmployeeReport.processRecord Scenario.check_in_0800_open)
             (Time.stopped_at (Scenario.at_ 10 0))) == 120)%Q
  /\ (PresentEmployeeReport.working_duration
        (run (PresentEmployeeReport.processRecord Scenario.check_in_0800_open)
             (Time.stopped_at (Scenario.at_ 9 0)))
      <= PresentEmployeeReport.working_duration
           (run (PresentEmployeeReport.processRecord Scenario.check_in_0800_open)
                (Time.stopped_at (Scenario.at_ 10 0))))%Q.
Proof.
  split; [vm_compute; discriminate |]. split; [reflexivity |]. split; [reflexivity |].
  apply (report_working_time_grows_with_the_clock
           Scenario.check_in_0800_open (Scenario.at_ 9 0) (Scenario.at_ 10 0)).
  vm_compute. discriminate.
Defined.
